(** * cudatoolkit/build.py: a shallow embedding of the extractor script

    The script unpacks a vendor installer into a temporary tree, resolves a
    fixed list of library names against directories of that tree
    ([Extractor.get_paths]), copies or links the resolved files into the
    package prefix ([Extractor.copy_files]) and writes a configuration
    record ([Extractor.dump_config]).

    The embedding follows build.py function by function.  Python exceptions
    are values of [exn]; code that only reads the machine state runs in the
    error monad [outcome], code that changes it runs in the state-and-error
    monad [M] over [world].  The operating system is a model of its own:
    a file system addressed by path spelling, an environment, and an oracle
    for the external programs the script calls. *)

From Stdlib Require Import String Ascii List Bool Arith Lia Permutation.
From Stdlib Require Import NArith ZArith.
From Stdlib.Strings Require Import Byte.
Import ListNotations.

Set Implicit Arguments.
Local Open Scope list_scope.
Local Open Scope string_scope.

(* ================================================================== *)
(** * Python strings *)

Module Str.

Definition nl : string := String (ascii_of_nat 10) "".

Definition is_empty (s : string) : bool :=
  match s with "" => true | _ => false end.

(** [s.startswith(p)] *)
Definition startswith (s p : string) : bool := String.prefix p s.

(** [needle in hay] *)
Fixpoint contains (needle hay : string) : bool :=
  String.prefix needle hay ||
  match hay with
  | "" => false
  | String _ r => contains needle r
  end.

(** [s.split(c)] for a one-character separator: never the empty list. *)
Fixpoint split (c : ascii) (s : string) : list string :=
  match s with
  | "" => [""]
  | String a r =>
      if Ascii.eqb a c then "" :: split c r
      else match split c r with
           | h :: t => String a h :: t
           | [] => [String a ""]
           end
  end.

Fixpoint count (c : ascii) (s : string) : nat :=
  match s with
  | "" => 0
  | String a r => (if Ascii.eqb a c then 1 else 0) + count c r
  end.

(** [sep.join(l)] *)
Definition join (sep : string) (l : list string) : string := String.concat sep l.

(** ASCII lower-casing, the part of [str.lower] the file names need. *)
Definition lower_char (c : ascii) : ascii :=
  let n := nat_of_ascii c in
  if Nat.leb 65 n && Nat.leb n 90 then ascii_of_nat (n + 32) else c.

Fixpoint map (f : ascii -> ascii) (s : string) : string :=
  match s with
  | "" => ""
  | String a r => String (f a) (map f r)
  end.

(** [max(l)] on strings: the first of the greatest elements; the empty
    sequence has none. *)
Fixpoint max_from (m : string) (l : list string) : string :=
  match l with
  | [] => m
  | x :: r => max_from (if String.ltb m x then x else m) r
  end.

(** [l.remove(x)]: drops the first occurrence, [None] when there is
    none (Python raises [ValueError]). *)
Fixpoint remove (x : string) (l : list string) : option (list string) :=
  match l with
  | [] => None
  | y :: r =>
      if String.eqb y x then Some r
      else match remove x r with
           | Some r' => Some (y :: r')
           | None => None
           end
  end.

End Str.

(* ================================================================== *)
(** * Exceptions and the two monads *)

Inductive exn : Type :=
| ValueError (msg : string)
| RuntimeError (msg : string)
| AssertionError (msg : string)
| KeyError (key : string)
| IndexError (msg : string)
| TypeError (msg : string)
| AttributeError (msg : string)
| FileNotFoundError (path : string)
| FileExistsError (path : string)
| NotADirectoryError (path : string)
| IsADirectoryError (path : string)
| PermissionError (path : string)
| SameFileError (path : string)
| OSError (msg : string)
| CalledProcessError (code : Z) (cmd : list string)
| NameError (name : string).

Inductive outcome (A : Type) : Type :=
| Ok (a : A)
| Raise (e : exn).

Arguments Ok {A} a.
Arguments Raise {A} e.

Definition obind {A B} (x : outcome A) (k : A -> outcome B) : outcome B :=
  match x with
  | Ok a => k a
  | Raise e => Raise e
  end.

Declare Scope outcome_scope.
Delimit Scope outcome_scope with outcome.
Notation "'let?' x ':=' c 'in' k" := (obind c (fun x => k))
  (at level 10, x pattern, c at level 100, k at level 200) : outcome_scope.

(* ================================================================== *)
(** * os.path

    [posixpath] and [ntpath] differ in the separator they write and the
    separators they read.  Drive letters of [ntpath] are not modelled: a
    path is the text the program spells. *)

Inductive flavour : Type := Posix | Nt.

Module Path.
Section WithFlavour.
Variable fl : flavour.

Definition sep : ascii :=
  match fl with Posix => "/"%char | Nt => "\"%char end.

Definition is_sep (c : ascii) : bool :=
  match fl with
  | Posix => Ascii.eqb c "/"
  | Nt => Ascii.eqb c "\" || Ascii.eqb c "/"
  end.

Definition starts_with_sep (s : string) : bool :=
  match s with String c _ => is_sep c | "" => false end.

Fixpoint ends_with_sep (s : string) : bool :=
  match s with
  | "" => false
  | String c "" => is_sep c
  | String _ r => ends_with_sep r
  end.

Fixpoint has_sep (s : string) : bool :=
  match s with
  | "" => false
  | String c r => is_sep c || has_sep r
  end.

(** [os.path.join(a, b)] *)
Definition join (a b : string) : string :=
  if starts_with_sep b then b
  else if Str.is_empty a || ends_with_sep a then a ++ b
  else a ++ String sep b.

Definition join_all (a : string) (ps : list string) : string :=
  fold_left join ps a.

(** The cut of [os.path.split] before the head is stripped: the text up
    to and including the last separator, and the text after it. *)
Fixpoint cut (p : string) : string * string :=
  match p with
  | "" => ("", "")
  | String c r =>
      match cut r with
      | ("", t) => if is_sep c then (String c "", t) else ("", String c t)
      | (h, t) => (String c h, t)
      end
  end.

Fixpoint rstrip (s : string) : string :=
  match s with
  | "" => ""
  | String c r =>
      match rstrip r with
      | "" => if is_sep c then "" else String c ""
      | r' => String c r'
      end
  end.

Definition basename (p : string) : string := snd (cut p).

(** The head keeps its separators only when it is made of nothing else. *)
Definition dirname (p : string) : string :=
  let h := fst (cut p) in
  match rstrip h with "" => h | h' => h' end.

(** [os.path.normcase] *)
Definition normcase (s : string) : string :=
  match fl with
  | Posix => s
  | Nt => Str.map (fun c => if Ascii.eqb c "/" then "\"%char else Str.lower_char c) s
  end.

(** [child_name d k]: the entry name under which the key [k] is listed
    in the directory spelled [d], if it is one of its entries. *)
Fixpoint strip_prefix (p s : string) : option string :=
  match p with
  | "" => Some s
  | String a p' =>
      match s with
      | "" => None
      | String b s' => if Ascii.eqb a b then strip_prefix p' s' else None
      end
  end.

Definition plain_name (n : string) : bool :=
  negb (Str.is_empty n) && negb (has_sep n).

Definition child_name (d k : string) : option string :=
  match strip_prefix d k with
  | None => None
  | Some rest =>
      if Str.is_empty d || ends_with_sep d then
        if plain_name rest then Some rest else None
      else
        match rest with
        | String c n => if is_sep c && plain_name n then Some n else None
        | "" => None
        end
  end.

(** [under d k]: [k] lies strictly below the directory spelled [d]. *)
Definition under (d k : string) : bool :=
  match strip_prefix d k with
  | None => false
  | Some rest =>
      if Str.is_empty d || ends_with_sep d then negb (Str.is_empty rest)
      else starts_with_sep rest
  end.

(** The text [pathlib] keeps for a path, [str(Path(p))]: the root, then
    the components between separators without the empty ones and the
    dots, joined by the separator; the dot when nothing is left.  On
    POSIX exactly two slashes in front are a root of their own.  Drives
    and UNC names of Windows are not told apart from other components. *)
Fixpoint parts (p : string) : list string :=
  match p with
  | "" => [""]
  | String c r =>
      if is_sep c then "" :: parts r
      else match parts r with
           | h :: t => String c h :: t
           | [] => [String c ""]
           end
  end.

Definition pure_root (p : string) : string :=
  match fl with
  | Posix =>
      match p with
      | String a (String b r) =>
          if negb (is_sep a) then ""
          else if negb (is_sep b) then "/"
          else if starts_with_sep r then "/" else "//"
      | String a "" => if is_sep a then "/" else ""
      | "" => ""
      end
  | Nt => if starts_with_sep p then String sep "" else ""
  end.

Definition pure (p : string) : string :=
  let comps := filter (fun c => negb (Str.is_empty c) && negb (String.eqb c "."))
                      (parts p) in
  match pure_root p, comps with
  | "", [] => "."
  | root, _ => root ++ Str.join (String sep "") comps
  end.

End WithFlavour.
End Path.

(* ================================================================== *)
(** * fnmatch *)

Module Fnmatch.

Inductive glob : Type :=
| GStar
| GAny
| GLit (c : ascii)
| GSet (neg : bool) (body : string).

(** Splits at the first closing bracket. *)
Fixpoint find_close (s : string) : option (string * string) :=
  match s with
  | "" => None
  | String c r =>
      if Ascii.eqb c "]" then Some ("", r)
      else match find_close r with
           | Some (b, a) => Some (String c b, a)
           | None => None
           end
  end.

(** [fnmatch.translate]: an opening bracket with no closing one is a
    literal; a leading [!] negates the set and a leading [[]]] belongs
    to it. *)
Fixpoint translate_aux (fuel : nat) (pat : string) : list glob :=
  match fuel with
  | 0 => []
  | S k =>
      match pat with
      | "" => []
      | String c rest =>
          if Ascii.eqb c "*" then GStar :: translate_aux k rest
          else if Ascii.eqb c "?" then GAny :: translate_aux k rest
          else if Ascii.eqb c "[" then
            let '(neg, r1) :=
              match rest with
              | String d r => if Ascii.eqb d "!" then (true, r) else (false, rest)
              | "" => (false, rest)
              end in
            let '(lead, r2) :=
              match r1 with
              | String d r => if Ascii.eqb d "]" then ("]", r) else ("", r1)
              | "" => ("", r1)
              end in
            match find_close r2 with
            | None => GLit c :: translate_aux k rest
            | Some (body, after) => GSet neg (lead ++ body) :: translate_aux k after
            end
          else GLit c :: translate_aux k rest
      end
  end.

Definition translate (pat : string) : list glob :=
  translate_aux (S (String.length pat)) pat.

Definition char_le (a b : ascii) : bool := Nat.leb (nat_of_ascii a) (nat_of_ascii b).

Fixpoint in_set (c : ascii) (body : string) : bool :=
  match body with
  | "" => false
  | String lo r =>
      match r with
      | String d (String hi r') =>
          if Ascii.eqb d "-" then (char_le lo c && char_le c hi) || in_set c r'
          else Ascii.eqb lo c || in_set c r
      | _ => Ascii.eqb lo c || in_set c r
      end
  end.

Fixpoint matches (g : list glob) (s : string) {struct g} : bool :=
  match g with
  | [] => Str.is_empty s
  | GStar :: g' =>
      (fix try (s : string) : bool :=
         matches g' s || match s with "" => false | String _ r => try r end) s
  | GAny :: g' =>
      match s with String _ r => matches g' r | "" => false end
  | GLit c :: g' =>
      match s with String d r => Ascii.eqb c d && matches g' r | "" => false end
  | GSet neg body :: g' =>
      match s with
      | String d r => xorb neg (in_set d body) && matches g' r
      | "" => false
      end
  end.

(** [fnmatch.fnmatchcase(name, pat)] *)
Definition fnmatchcase (name pat : string) : bool := matches (translate pat) name.

(** [fnmatch.filter(names, pat)]: the names are returned as they were
    listed; the case is normalised for the comparison only. *)
Definition filter (fl : flavour) (names : list string) (pat : string) : list string :=
  let pat' := Path.normcase fl pat in
  List.filter (fun n => fnmatchcase (Path.normcase fl n) pat') names.

End Fnmatch.

(* ================================================================== *)
(** * str.format with one positional argument

    The templates of the script use the replacement field [{0}] only.  The
    doubled braces stand for themselves; a field [{}] is the automatic
    counterpart of [{0}]; other fields, conversions and format
    specifications are outside the templates and raise. *)

Fixpoint format_aux (fuel : nat) (t arg : string) : outcome string :=
  match fuel with
  | 0 => Ok ""
  | S k =>
      match t with
      | "" => Ok ""
      | String c r =>
          if Ascii.eqb c "{" then
            match r with
            | String c1 r1 =>
                if Ascii.eqb c1 "{" then
                  obind (format_aux k r1 arg) (fun s => Ok (String c s))
                else if Ascii.eqb c1 "}" then
                  obind (format_aux k r1 arg) (fun s => Ok (arg ++ s))
                else if Ascii.eqb c1 "0" then
                  match r1 with
                  | String c2 r2 =>
                      if Ascii.eqb c2 "}" then
                        obind (format_aux k r2 arg) (fun s => Ok (arg ++ s))
                      else Raise (ValueError "unsupported replacement field")
                  | "" => Raise (ValueError "expected '}' before end of string")
                  end
                else Raise (IndexError "Replacement index out of range for positional args tuple")
            | "" => Raise (ValueError "Single '{' encountered in format string")
            end
          else if Ascii.eqb c "}" then
            match r with
            | String c1 r1 =>
                if Ascii.eqb c1 "}" then
                  obind (format_aux k r1 arg) (fun s => Ok (String c s))
                else Raise (ValueError "Single '}' encountered in format string")
            | "" => Raise (ValueError "Single '}' encountered in format string")
            end
          else obind (format_aux k r arg) (fun s => Ok (String c s))
      end
  end.

Definition str_format (t arg : string) : outcome string :=
  format_aux (S (String.length t)) t arg.


(* ================================================================== *)
(** * The file system

    An entry is a regular file, a symbolic link or a directory, stored
    under the path text by which the program reaches it; the order of the
    entries is the order in which a directory lists them.  A symbolic link
    is followed when it is the last component of a path, relative to the
    directory that holds it.  A locked file stands for a file that the
    system refuses to open or delete. *)

Inductive node : Type :=
| File (data : list byte) (locked : bool)
| Link (target : string)
| Dir.

Definition filesystem : Type := list (string * node).

Module Fs.
Section WithFlavour.
Variable fl : flavour.

Fixpoint lstat (fs : filesystem) (p : string) : option node :=
  match fs with
  | [] => None
  | (k, n) :: r => if String.eqb k p then Some n else lstat r p
  end.

(** Replaces the entry in place, or appends a new one. *)
Fixpoint set (fs : filesystem) (p : string) (n : node) : filesystem :=
  match fs with
  | [] => [(p, n)]
  | (k, n') :: r => if String.eqb k p then (k, n) :: r else (k, n') :: set r p n
  end.

(** The limit of the links followed in one resolution. *)
Definition MAXSYMLINKS : nat := 40.

Fixpoint follow (fuel : nat) (fs : filesystem) (p : string) : option (string * node) :=
  match lstat fs p with
  | None => None
  | Some (Link t) =>
      match fuel with
      | 0 => None
      | S k => follow k fs (Path.join fl (Path.dirname fl p) t)
      end
  | Some n => Some (p, n)
  end.

Definition stat (fs : filesystem) (p : string) : option (string * node) :=
  follow MAXSYMLINKS fs p.

Definition islink (fs : filesystem) (p : string) : bool :=
  match lstat fs p with Some (Link _) => true | _ => false end.

Definition isfile (fs : filesystem) (p : string) : bool :=
  match stat fs p with Some (_, File _ _) => true | _ => false end.

Definition isdir (fs : filesystem) (p : string) : bool :=
  match stat fs p with Some (_, Dir) => true | _ => false end.

Definition exists_ (fs : filesystem) (p : string) : bool :=
  match stat fs p with Some _ => true | None => false end.

(** The bytes read through [p]. *)
Definition read (fs : filesystem) (p : string) : option (list byte) :=
  match stat fs p with Some (_, File data _) => Some data | _ => None end.

Definition readlink (fs : filesystem) (p : string) : outcome string :=
  match lstat fs p with
  | Some (Link t) => Ok t
  | Some _ => Raise (OSError "Invalid argument")
  | None => Raise (FileNotFoundError p)
  end.

Fixpoint children (fs : filesystem) (d : string) : list string :=
  match fs with
  | [] => []
  | (k, _) :: r =>
      match Path.child_name fl d k with
      | Some n => n :: children r d
      | None => children r d
      end
  end.

Definition listdir (fs : filesystem) (d : string) : outcome (list string) :=
  match stat fs d with
  | Some (d', Dir) => Ok (children fs d')
  | Some (_, _) => Raise (NotADirectoryError d)
  | None => Raise (FileNotFoundError d)
  end.

(** The directory that must hold a new entry [p]: the working directory
    holds the entries spelled without one. *)
Definition parent_ok (fs : filesystem) (p : string) : bool :=
  let d := Path.dirname fl p in
  Str.is_empty d || isdir fs d.

(** Where [open(p, 'wb')] writes. *)
Fixpoint write_target (fuel : nat) (fs : filesystem) (p : string) : outcome string :=
  match lstat fs p with
  | None => if parent_ok fs p then Ok p else Raise (FileNotFoundError p)
  | Some (File _ locked) => if locked then Raise (PermissionError p) else Ok p
  | Some Dir => Raise (IsADirectoryError p)
  | Some (Link t) =>
      match fuel with
      | 0 => Raise (OSError "Too many levels of symbolic links")
      | S k => write_target k fs (Path.join fl (Path.dirname fl p) t)
      end
  end.

(** Where [open(p, 'rb')] reads. *)
Definition open_read (fs : filesystem) (p : string) : outcome (list byte) :=
  match stat fs p with
  | None => Raise (FileNotFoundError p)
  | Some (_, Dir) => Raise (IsADirectoryError p)
  | Some (_, Link _) => Raise (OSError "Too many levels of symbolic links")
  | Some (q, File data locked) => if locked then Raise (PermissionError q) else Ok data
  end.

Definition samefile (fs : filesystem) (a b : string) : bool :=
  match stat fs a, stat fs b with
  | Some (pa, _), Some (pb, _) => String.eqb pa pb
  | _, _ => false
  end.

(** The walk of [os.walk(top)], top down, links to directories listed
    but not entered, errors of the listing ignored. *)
Fixpoint walk_aux (fuel : nat) (fs : filesystem) (top : string)
  : list (string * list string * list string) :=
  match fuel with
  | 0 => []
  | S k =>
      match listdir fs top with
      | Raise _ => []
      | Ok names =>
          let dirs := filter (fun n => isdir fs (Path.join fl top n)) names in
          let nondirs := filter (fun n => negb (isdir fs (Path.join fl top n))) names in
          (top, dirs, nondirs) ::
          flat_map (fun d => let p := Path.join fl top d in
                             if islink fs p then [] else walk_aux k fs p) dirs
      end
  end.

(** The depth of a walk is below the number of entries. *)
Definition walk (fs : filesystem) (top : string) :=
  walk_aux (S (length fs)) fs top.

Definition is_locked (n : node) : bool :=
  match n with File _ true => true | _ => false end.

Definition in_tree (top k : string) : bool :=
  String.eqb k top || Path.under fl top k.

(** [shutil.rmtree(top)]: every entry of the tree goes, unless a locked
    file stops the removal; the entries met before it are gone by then.
    The caller hands the entries over youngest first, so that what a
    directory holds goes before the directory. *)
Fixpoint rmtree_aux (top : string) (fs : filesystem) : option string * filesystem :=
  match fs with
  | [] => (None, [])
  | (k, n) :: r =>
      if in_tree top k then
        if is_locked n then (Some k, (k, n) :: r)
        else rmtree_aux top r
      else
        let '(e, r') := rmtree_aux top r in (e, (k, n) :: r')
  end.

End WithFlavour.
End Fs.

(** The number of entries with a path longer than [top]. *)
Definition longer (top : string) (f : filesystem) : nat :=
  length (filter (fun kn : string * node =>
                    Nat.ltb (String.length top) (String.length (fst kn))) f).

(** [outside fl f top k]: no directory reached by the walk of [top] lists
    an entry stored under [k]. *)
Definition outside (fl : flavour) (f : filesystem) (top k : string) : Prop :=
  forall path dirs files d',
    In (path, dirs, files) (Fs.walk fl f top) ->
    Fs.stat fl f path = Some (d', Dir) ->
    Path.child_name fl d' k = None.

(** An entry is free, or a regular file. *)
Definition free_or_file (f : filesystem) (k : string) : Prop :=
  Fs.lstat f k = None \/ exists d l, Fs.lstat f k = Some (File d l).

(** Every entry of the first file system is an entry of the second. *)
Definition extends (f f' : filesystem) : Prop :=
  forall q n, Fs.lstat f q = Some n -> Fs.lstat f' q = Some n.

(** A text with no brace. *)
Definition brace_free (t : string) : Prop :=
  Str.count "{" t = 0 /\ Str.count "}" t = 0.

(** No entry of the tree of [top] is a locked file. *)
Definition unlocked_tree (fl : flavour) (top : string) (f : filesystem) : Prop :=
  forall k n, In (k, n) f -> Fs.in_tree fl top k = true -> Fs.is_locked n = false.

(* ================================================================== *)
(** * Python values of the configuration table *)

Inductive pyval : Type :=
| PNone
| PStr (s : string)
| PList (l : list string).

Definition pydict : Type := list (string * pyval).

Module Dict.

Fixpoint get (d : pydict) (k : string) : option pyval :=
  match d with
  | [] => None
  | (k', v) :: r => if String.eqb k' k then Some v else get r k
  end.

(** [d[k] = v]: a key keeps its place. *)
Fixpoint set (d : pydict) (k : string) (v : pyval) : pydict :=
  match d with
  | [] => [(k, v)]
  | (k', v') :: r => if String.eqb k' k then (k', v) :: r else (k', v') :: set r k v
  end.

(** [{**a, **b}] *)
Definition merge (a b : pydict) : pydict :=
  fold_left (fun d kv => set d (fst kv) (snd kv)) b a.

End Dict.

(* ================================================================== *)
(** * The machine and its state *)

Record machine : Type := {
  sys_platform : string;             (* sys.platform *)
  platform_machine : string;         (* platform.machine() *)
  environ : list (string * string);  (* os.environ *)
  gettempdir : string;               (* tempfile.gettempdir() *)
  tmp_name : nat -> string;          (* the candidate names of mkdtemp *)
  run : list string -> filesystem -> outcome Z * filesystem;
                                     (* an external program: exit code, or
                                        the error of starting it *)
  yaml_dump : pydict -> list byte    (* yaml.dump(_, default_flow_style=False) *)
}.

Record world : Type := {
  fs : filesystem;
  stdout : list string;
  seed : nat
}.

Definition M (A : Type) : Type := world -> outcome A * world.

Definition ret {A} (a : A) : M A := fun w => (Ok a, w).
Definition raise {A} (e : exn) : M A := fun w => (Raise e, w).
Definition bind {A B} (c : M A) (k : A -> M B) : M B :=
  fun w => match c w with
           | (Ok a, w') => k a w'
           | (Raise e, w') => (Raise e, w')
           end.
Definition lift {A} (x : outcome A) : M A := fun w => (x, w).
Definition reads {A} (f : filesystem -> A) : M A := fun w => (Ok (f (fs w)), w).
Definition with_fs (w : world) (f : filesystem) : world :=
  {| fs := f; stdout := stdout w; seed := seed w |}.

Declare Scope M_scope.
Delimit Scope M_scope with M.
Notation "x <- c ;; k" := (bind c (fun x => k))
  (at level 61, c at next level, right associativity) : M_scope.
Notation "' pat <- c ;; k" := (bind c (fun pat => k))
  (at level 61, pat strict pattern, c at next level, right associativity) : M_scope.
Notation "c ;; k" := (bind c (fun _ => k))
  (at level 61, right associativity) : M_scope.

Fixpoint for_each {A} (l : list A) (body : A -> M unit) : M unit :=
  match l with
  | [] => ret tt
  | x :: r => bind (body x) (fun _ => for_each r body)
  end.

(** [try: c  except PermissionError: pass] *)
Definition except_PermissionError_pass (c : M unit) : M unit :=
  fun w => match c w with
           | (Raise (PermissionError _), w') => (Ok tt, w')
           | r => r
           end.

(* ================================================================== *)
(** * The calls into the operating system *)

Section Os.
Variable m : machine.

(** [os.path] is [ntpath] on Windows and [posixpath] elsewhere. *)
Definition os_flavour : flavour :=
  if Str.startswith (sys_platform m) "win" then Nt else Posix.

Definition os_sep : string := String (Path.sep os_flavour) "".
Definition os_path_join (a b : string) : string := Path.join os_flavour a b.
Definition os_path_basename (p : string) : string := Path.basename os_flavour p.
Definition os_path_islink (f : filesystem) (p : string) : bool := Fs.islink f p.
Definition os_path_isfile (f : filesystem) (p : string) : bool := Fs.isfile os_flavour f p.
Definition os_path_isdir (f : filesystem) (p : string) : bool := Fs.isdir os_flavour f p.
Definition os_listdir (f : filesystem) (d : string) : outcome (list string) :=
  Fs.listdir os_flavour f d.
Definition os_walk (f : filesystem) (top : string) := Fs.walk os_flavour f top.
Definition fnmatch_filter (names : list string) (pat : string) : list string :=
  Fnmatch.filter os_flavour names pat.

Fixpoint assoc (l : list (string * string)) (k : string) : option string :=
  match l with
  | [] => None
  | (k', v) :: r => if String.eqb k' k then Some v else assoc r k
  end.

(** [os.environ.get(k)] and [os.environ[k]] *)
Definition environ_get (k : string) : option string := assoc (environ m) k.
Definition environ_item (k : string) : outcome string :=
  match environ_get k with
  | Some v => Ok v
  | None => Raise (KeyError k)
  end.

Definition print (s : string) : M unit :=
  fun w => (Ok tt, {| fs := fs w; stdout := (stdout w ++ [s])%list; seed := seed w |}).

Definition missing_parent (f : filesystem) (p : string) : exn :=
  if Fs.exists_ os_flavour f (Path.dirname os_flavour p)
  then NotADirectoryError p else FileNotFoundError p.

Definition os_mkdir (p : string) : M unit :=
  fun w =>
    match Fs.lstat (fs w) p with
    | Some _ => (Raise (FileExistsError p), w)
    | None =>
        if Fs.parent_ok os_flavour (fs w) p
        then (Ok tt, with_fs w (Fs.set (fs w) p Dir))
        else (Raise (missing_parent (fs w) p), w)
    end.

(** [os.makedirs(name, exist_ok=...)]: the parents first; an error of
    the last [mkdir] is dropped when the directory is there and
    [exist_ok] is set. *)
Fixpoint makedirs_aux (fuel : nat) (name : string) (exist_ok : bool) : M unit :=
  match fuel with
  | 0 => raise (OSError "path too deep")
  | S k =>
      let head0 := Path.dirname os_flavour name in
      let tail0 := Path.basename os_flavour name in
      let '(head, tail) :=
        if Str.is_empty tail0
        then (Path.dirname os_flavour head0, Path.basename os_flavour head0)
        else (head0, tail0) in
      let last : M unit :=
        fun w =>
          match os_mkdir name w with
          | (Raise e, w') =>
              if negb exist_ok || negb (os_path_isdir (fs w') name)
              then (Raise e, w') else (Ok tt, w')
          | r => r
          end in
      fun w =>
        if negb (Str.is_empty head) && negb (Str.is_empty tail)
           && negb (Fs.exists_ os_flavour (fs w) head)
        then
          match makedirs_aux k head exist_ok w with
          | (Ok _, w1) | (Raise (FileExistsError _), w1) =>
              if String.eqb tail "." then (Ok tt, w1) else last w1
          | (Raise e, w1) => (Raise e, w1)
          end
        else last w
  end.

Definition os_makedirs (name : string) (exist_ok : bool) : M unit :=
  makedirs_aux (S (String.length name)) name exist_ok.

(** [os.chmod]: permission bits are not part of the model. *)
Definition os_chmod (p : string) : M unit :=
  fun w => if Fs.exists_ os_flavour (fs w) p then (Ok tt, w)
           else (Raise (FileNotFoundError p), w).

Definition os_readlink (p : string) : M string :=
  fun w => (Fs.readlink (fs w) p, w).

Definition os_symlink (target linkpath : string) : M unit :=
  fun w =>
    match Fs.lstat (fs w) linkpath with
    | Some _ => (Raise (FileExistsError linkpath), w)
    | None =>
        if Fs.parent_ok os_flavour (fs w) linkpath
        then (Ok tt, with_fs w (Fs.set (fs w) linkpath (Link target)))
        else (Raise (missing_parent (fs w) linkpath), w)
    end.

(** [open(p, 'w')] followed by the write of [data]. *)
Definition write_file (p : string) (data : list byte) : M unit :=
  fun w =>
    match Fs.write_target os_flavour Fs.MAXSYMLINKS (fs w) p with
    | Raise e => (Raise e, w)
    | Ok q => (Ok tt, with_fs w (Fs.set (fs w) q (File data false)))
    end.

(** [shutil.copy(src, dst)]: into [dst] when it is a directory; the
    source is opened before the destination. *)
Definition shutil_copy (src dst : string) : M string :=
  fun w =>
    let dst' := if os_path_isdir (fs w) dst
                then os_path_join dst (os_path_basename src) else dst in
    if Fs.samefile os_flavour (fs w) src dst'
    then (Raise (SameFileError src), w)
    else
      match Fs.open_read os_flavour (fs w) src with
      | Raise e => (Raise e, w)
      | Ok data =>
          match write_file dst' data w with
          | (Ok _, w') => (Ok dst', w')
          | (Raise e, w') => (Raise e, w')
          end
      end.

Definition shutil_rmtree (top : string) : M unit :=
  fun w =>
    match Fs.lstat (fs w) top with
    | None => (Raise (FileNotFoundError top), w)
    | Some _ =>
        match Fs.rmtree_aux os_flavour top (rev (fs w)) with
        | (None, f) => (Ok tt, with_fs w (rev f))
        | (Some k, f) => (Raise (PermissionError k), with_fs w (rev f))
        end
    end.

(** [subprocess.check_call(cmd)] *)
Definition check_call (cmd : list string) : M unit :=
  fun w =>
    match run m cmd (fs w) with
    | (Ok 0%Z, f) => (Ok tt, with_fs w f)
    | (Ok code, f) => (Raise (CalledProcessError code cmd), with_fs w f)
    | (Raise e, f) => (Raise e, with_fs w f)
    end.

Definition TMP_MAX : nat := 100 * 100.

(** [tempfile.mkdtemp()]: the next candidate name that is free. *)
Fixpoint mkdtemp_aux (tries : nat) : M string :=
  match tries with
  | 0 => raise (FileExistsError "No usable temporary directory name found")
  | S k =>
      fun w =>
        let file := os_path_join (gettempdir m) ("tmp" ++ tmp_name m (seed w)) in
        let w1 := {| fs := fs w; stdout := stdout w; seed := S (seed w) |} in
        match os_mkdir file w1 with
        | (Ok _, w2) => (Ok file, w2)
        | (Raise (FileExistsError _), w2) => mkdtemp_aux k w2
        | (Raise e, w2) => (Raise e, w2)
        end
  end.

Definition mkdtemp : M string := mkdtemp_aux TMP_MAX.

(** [with tempdir() as tmpd: body]: the directory is removed on the way
    out, whatever the body did; an error of the removal replaces the
    one in flight. *)
Definition with_tempdir {A} (body : string -> M A) : M A :=
  fun w =>
    match mkdtemp w with
    | (Raise e, w1) => (Raise e, w1)
    | (Ok tmpd, w1) =>
        let '(r, w2) := body tmpd w1 in
        if Fs.exists_ os_flavour (fs w2) tmpd then
          match shutil_rmtree tmpd w2 with
          | (Raise e, w3) => (Raise e, w3)
          | (Ok _, w3) => (r, w3)
          end
        else (r, w2)
    end.

End Os.

(* ================================================================== *)
(** * build.py *)

Inductive config_entry : Type :=
| CList (l : list string)
| CDict (d : pydict).

Inductive extractor_class : Type := LinuxExtractor | WindowsExtractor.

(** The attributes [Extractor.__init__] sets. *)
Record Extractor : Type := {
  version : string;
  major : string;
  minor : string;
  micro : option string;
  cuda_libraries : list string;
  cuda_static_libraries : list string;
  libdevice_versions : list string;
  config_blob : string;
  embedded_blob : option string;
  cuda_lib_fmt : string;
  cuda_static_lib_fmt : string;
  nvtoolsext_fmt : option string;
  nvvm_lib_fmt : string;
  libdevice_lib_fmt : string;
  patches : list string;
  nvtoolsextpath : option string;
  config : pydict;
  prefix : string;
  src_dir : string;
  output_dir : string;
  symlinks : bool;
  debug_install_path : option string
}.

Section Build.
Variable m : machine.

Local Open Scope M_scope.

(** ** The CONFIG table, lines 39 to 103 *)

Definition CONFIG_cuda_libraries : list string :=
  (["cublas"; "cublasLt"; "cudart"; "cufft"; "cufftw"; "curand"; "cusolver";
    "cusolverMg"; "cusparse"; "nppc"; "nppial"; "nppicc"; "nppidei"; "nppif";
    "nppig"; "nppim"; "nppist"; "nppisu"; "nppitc"; "npps"; "nvToolsExt";
    "nvblas"; "nvjpeg"; "nvrtc"; "nvrtc-builtins"]
   ++ (if Str.startswith (sys_platform m) "linux" then ["accinj64"; "cuinj64"] else [])
   ++ (if Str.startswith (sys_platform m) "windows" then ["cuinj"] else []))%list.

Definition CONFIG_cuda_static_libraries : list string := ["cudadevrt"].

Definition CONFIG_linux : pydict :=
  [("blob", PStr "cuda_11.0.3_450.51.06_linux.run");
   ("ppc64le_blob", PStr "cuda_11.0.3_450.51.06_linux_ppc64le.run");
   ("embedded_blob", PNone);
   ("ppc64le_embedded_blob", PNone);
   ("patches", PList []);
   ("cuda_lib_fmt", PStr "lib{0}.so*");
   ("cuda_static_lib_fmt", PStr "lib{0}.a");
   ("nvtoolsext_fmt", PStr "lib{0}.so*");
   ("nvvm_lib_fmt", PStr "lib{0}.so*");
   ("libdevice_lib_fmt", PStr "libdevice.10.bc")].

Definition CONFIG_windows : pydict :=
  [("blob", PStr "cuda_11.0.3_451.82_win10.exe");
   ("patches", PList []);
   ("cuda_lib_fmt", PStr "{0}64_1*.dll");
   ("cuda_static_lib_fmt", PStr "{0}.lib");
   ("nvtoolsext_fmt", PStr "{0}64_1.dll");
   ("nvvm_lib_fmt", PStr "{0}64_33_0.dll");
   ("libdevice_lib_fmt", PStr "libdevice.10.bc");
   ("NvToolsExtPath",
    PStr (Path.join_all (os_flavour m) ("c:" ++ os_sep m)
            ["Program Files"; "NVIDIA Corporation"; "NVToolsExt"; "bin"]))].

Definition CONFIG : list (string * config_entry) :=
  [("cuda_libraries", CList CONFIG_cuda_libraries);
   ("cuda_static_libraries", CList CONFIG_cuda_static_libraries);
   ("linux", CDict CONFIG_linux);
   ("windows", CDict CONFIG_windows)].

Fixpoint CONFIG_item (c : list (string * config_entry)) (k : string) : outcome config_entry :=
  match c with
  | [] => Raise (KeyError k)
  | (k', v) :: r => if String.eqb k' k then Ok v else CONFIG_item r k
  end.

(** [d[k]] on a platform table, where the value is a string, a list, or
    possibly [None]. *)
Definition item_str (d : pydict) (k : string) : outcome string :=
  match Dict.get d k with
  | Some (PStr s) => Ok s
  | Some _ => Raise (TypeError k)
  | None => Raise (KeyError k)
  end.

Definition item_list (d : pydict) (k : string) : outcome (list string) :=
  match Dict.get d k with
  | Some (PList l) => Ok l
  | Some _ => Raise (TypeError k)
  | None => Raise (KeyError k)
  end.

(** [d.get(k)] *)
Definition get_str (d : pydict) (k : string) : option string :=
  match Dict.get d k with
  | Some (PStr s) => Some s
  | _ => None
  end.

(** ** class Extractor *)

Definition libdir : list (string * string) :=
  [("linux", "lib"); ("windows", "Library/bin")].

(** [repr(s)], the [!r] of line 140, for a text whose characters are
    the code points below 256: the text goes between single quotes, or
    between double quotes when it holds a single quote and no double
    one; the quote in use and the backslash are escaped, and so is what
    does not print. *)
Definition dquote : ascii := ascii_of_nat 34.

Definition hex_digit (n : nat) : ascii :=
  if Nat.ltb n 10 then ascii_of_nat (48 + n) else ascii_of_nat (87 + n).

Definition isprintable (c : ascii) : bool :=
  let n := nat_of_ascii c in
  (Nat.leb 32 n && Nat.ltb n 127) || (Nat.leb 161 n && negb (Nat.eqb n 173)).

Definition repr_char (quote c : ascii) : string :=
  let n := nat_of_ascii c in
  if Ascii.eqb c quote || Ascii.eqb c "\" then String "\" (String c "")
  else if Nat.eqb n 9 then "\t"
  else if Nat.eqb n 10 then "\n"
  else if Nat.eqb n 13 then "\r"
  else if isprintable c then String c ""
  else "\x" ++ String (hex_digit (n / 16)) (String (hex_digit (n mod 16)) "").

Fixpoint repr_body (quote : ascii) (s : string) : string :=
  match s with
  | "" => ""
  | String c r => repr_char quote c ++ repr_body quote r
  end.

Definition has_char (c : ascii) (s : string) : bool :=
  negb (Nat.eqb (Str.count c s) 0).

Definition repr (s : string) : string :=
  let quote := if has_char "'" s && negb (has_char dquote s)
               then dquote else "'"%char in
  String quote (repr_body quote s ++ String quote "").

(** Lines 134 to 140: the version string is cut at its dots.  The
    second colon of line 137 is read as a slip of the pen. *)
Definition version_parts (version : string)
  : outcome (string * string * option string) :=
  match Str.split "." version with
  | [a; b] => Ok (a, b, None)
  | a :: b :: c :: _ => Ok (a, b, Some c)
  | _ => Raise (ValueError (repr version ++ " not a valid version string"))
  end.

(** Line 156 reads the name [ver_config].  The module binds no such
    name and the builtins have none: the read raises [NameError]. *)
Definition global_ver_config : M pydict :=
  raise (NameError "ver_config").

(** [Extractor.__init__], lines 114 to 164.  The lines after line 156
    are written out as the file has them; no call reaches them. *)
Definition Extractor_init (platform version : string) : M Extractor :=
  '(major, minor, micro) <- lift (version_parts version) ;;
  entry <- lift (CONFIG_item CONFIG platform) ;;
  plt_config <-
    match entry with
    | CDict d => ret d
    | CList _ => raise (TypeError "list indices must be integers or slices, not str")
    end ;;
  config_blob <- lift (item_str plt_config "blob") ;;
  cuda_lib_fmt <- lift (item_str plt_config "cuda_lib_fmt") ;;
  cuda_static_lib_fmt <- lift (item_str plt_config "cuda_static_lib_fmt") ;;
  nvvm_lib_fmt <- lift (item_str plt_config "nvvm_lib_fmt") ;;
  libdevice_lib_fmt <- lift (item_str plt_config "libdevice_lib_fmt") ;;
  patches <- lift (item_list plt_config "patches") ;;
  ver_config <- global_ver_config ;;
  prefix <- lift (environ_item m "PREFIX") ;;
  src_dir <- lift (environ_item m "SRC_DIR") ;;
  libdir_platform <-
    lift (match assoc libdir platform with
          | Some d => Ok d
          | None => Raise (KeyError platform)
          end) ;;
  let output_dir := os_path_join m prefix libdir_platform in
  os_makedirs m output_dir true ;;
  ret {| version := version;
         major := major;
         minor := minor;
         micro := micro;
         cuda_libraries := CONFIG_cuda_libraries;
         cuda_static_libraries := CONFIG_cuda_static_libraries;
         libdevice_versions := [major];
         config_blob := config_blob;
         embedded_blob := get_str plt_config "embedded_blob";
         cuda_lib_fmt := cuda_lib_fmt;
         cuda_static_lib_fmt := cuda_static_lib_fmt;
         nvtoolsext_fmt := get_str plt_config "nvtoolsext_fmt";
         nvvm_lib_fmt := nvvm_lib_fmt;
         libdevice_lib_fmt := libdevice_lib_fmt;
         patches := patches;
         nvtoolsextpath := get_str plt_config "NvToolsExtPath";
         config := Dict.merge [("version", PStr version)] ver_config;
         prefix := prefix;
         src_dir := src_dir;
         output_dir := output_dir;
         symlinks := String.eqb platform "linux";
         debug_install_path := environ_get m "DEBUG_INSTALLER_PATH" |}.

(** [Extractor.copy] and [Extractor.extract], lines 166 to 176: the base
    class implements neither; both subclasses override them. *)
Definition Extractor_copy (self : Extractor) (args : list string) : M unit :=
  raise (RuntimeError "Must implement").

Definition Extractor_extract (self : Extractor) (args : list string) : M unit :=
  raise (RuntimeError "Must implement").

(** ** [Extractor.get_paths], lines 178 to 212 *)

Definition cannot_find_msg (libname filename : string) : string :=
  "Cannot find item: " ++ libname ++ ", looked for " ++ filename.

Definition aliasing_msg (libname filename : string) (paths : list string) : string :=
  "Aliasing present for item: " ++ libname ++ ", looked for " ++ filename
  ++ ". Found: " ++ Str.nl ++ Str.join (", " ++ Str.nl) paths.

(** Lines 195 to 199. *)
Fixpoint check_files (f : filesystem) (dirpath : string) (paths : list string)
  : outcome (list string) :=
  match paths with
  | [] => Ok []
  | path :: r =>
      let tmppath := os_path_join m dirpath path in
      if os_path_isfile m f tmppath
      then obind (check_files f dirpath r) (fun l => Ok (tmppath :: l))
      else Raise (AssertionError ("missing " ++ tmppath))
  end.

Definition py_max (l : list string) : outcome string :=
  match l with
  | [] => Raise (ValueError "max() arg is an empty sequence")
  | x :: r => Ok (Str.max_from x r)
  end.

Definition list_remove (x : string) (l : list string) : outcome (list string) :=
  match Str.remove x l with
  | Some r => Ok r
  | None => Raise (ValueError "list.remove(x): x not in list")
  end.

(** Line 210: every unwanted path is removed in turn. *)
Fixpoint remove_each (xs : list string) (l : list string) : outcome (list string) :=
  match xs with
  | [] => Ok l
  | x :: r => obind (list_remove x l) (remove_each r)
  end.

(** The body of the loop over [libraries], lines 183 to 210: the paths
    kept for one library name. *)
Definition get_paths_body (self : Extractor) (f : filesystem)
           (dirpath template libname : string) : outcome (list string) :=
  (let? filename := str_format template libname in
   let? names := os_listdir m f dirpath in
   let paths := fnmatch_filter m names filename in
   match paths with
   | [] => Raise (RuntimeError (cannot_find_msg libname filename))
   | _ :: _ =>
       if negb (symlinks self) && negb (Nat.eqb (length paths) 1)
       then Raise (RuntimeError (aliasing_msg libname filename paths))
       else
         let? pathsforlib := check_files f dirpath paths in
         if symlinks self then
           let concrete_dsos :=
             filter (fun x => negb (os_path_islink f x)) pathsforlib in
           let? target_library := py_max concrete_dsos in
           let? concrete_dsos := list_remove target_library concrete_dsos in
           remove_each concrete_dsos pathsforlib
         else Ok pathsforlib
   end)%outcome.

Fixpoint get_paths_from (self : Extractor) (f : filesystem) (pathlist : list string)
         (libraries : list string) (dirpath template : string)
  : outcome (list string) :=
  match libraries with
  | [] => Ok pathlist
  | libname :: r =>
      obind (get_paths_body self f dirpath template libname)
            (fun pathsforlib =>
               get_paths_from self f (pathlist ++ pathsforlib)%list r dirpath template)
  end.

Definition get_paths (self : Extractor) (f : filesystem)
           (libraries : list string) (dirpath template : string)
  : outcome (list string) :=
  get_paths_from self f [] libraries dirpath template.

Definition get_paths_M (self : Extractor) (libraries : list string)
           (dirpath template : string) : M (list string) :=
  fun w => (get_paths self (fs w) libraries dirpath template, w).

(** ** [Extractor.copy_files], lines 214 to 241 *)

(** Where the loop over [filepaths] puts [fn]: under its last component,
    in the output directory. *)
Definition destination (self : Extractor) (fn : string) : string :=
  os_path_join m (output_dir self) (os_path_basename m fn).

(** The body of the loop over [filepaths], lines 232 to 241. *)
Definition copy_file (self : Extractor) (fn : string) : M unit :=
  fun w =>
    if os_path_islink (fs w) fn then
      (symlinktarget <- os_readlink fn ;;
       let targetname := os_path_basename m fn in
       let symlink := os_path_join m (output_dir self) targetname in
       print ("linking " ++ symlinktarget ++ " to " ++ symlink) ;;
       os_symlink m symlinktarget symlink) w
    else
      (print ("copying " ++ fn ++ " to " ++ output_dir self) ;;
       _ <- shutil_copy m fn (output_dir self) ;;
       ret tt) w.

Definition copy_files (self : Extractor)
           (cuda_lib_dir nvvm_lib_dir libdevice_lib_dir : string) : M unit :=
  let cudalibs :=
    filter (fun x => negb (String.eqb x "nvToolsExt")) (cuda_libraries self) in
  p1 <- get_paths_M self cudalibs cuda_lib_dir (cuda_lib_fmt self) ;;
  p2 <- (if existsb (String.eqb "nvToolsExt") (cuda_libraries self) then
           match nvtoolsext_fmt self with
           | Some t => get_paths_M self ["nvToolsExt"] cuda_lib_dir t
           | None => raise (AttributeError "'NoneType' object has no attribute 'format'")
           end
         else ret []) ;;
  p3 <- get_paths_M self (cuda_static_libraries self) cuda_lib_dir
          (cuda_static_lib_fmt self) ;;
  p4 <- get_paths_M self ["nvvm"] nvvm_lib_dir (nvvm_lib_fmt self) ;;
  p5 <- get_paths_M self (libdevice_versions self) libdevice_lib_dir
          (libdevice_lib_fmt self) ;;
  let filepaths := (p1 ++ p2 ++ p3 ++ p4 ++ p5)%list in
  for_each filepaths (copy_file self).

(** ** [Extractor.dump_config], lines 243 to 248 *)

Definition dumpfile (self : Extractor) : string :=
  os_path_join m (output_dir self) "cudatoolkit_config.yaml".

Definition dump_config (self : Extractor) : M unit :=
  write_file m (dumpfile self) (yaml_dump m (config self)).

(** ** class WindowsExtractor *)

Definition WindowsExtractor_copy (self : Extractor) (store : string) : M unit :=
  copy_files self store store store.

(** Lines 267 to 275: the installer and its patches are unpacked. *)
Definition unpack (self : Extractor) (tmpd : string) : M string :=
  let extract_name := "__extracted" in
  let extractdir := os_path_join m tmpd extract_name in
  os_mkdir m extract_name ;;
  check_call m ["7za"; "x"; "-o" ++ extractdir;
                os_path_join m (src_dir self) (config_blob self)] ;;
  for_each (patches self)
    (fun p => check_call m ["7za"; "x"; "-aoa"; "-o" ++ extractdir;
                            os_path_join m (src_dir self) p]) ;;
  ret extractdir.

(** Lines 277 to 283: the NvToolsExt path, from the environment before
    the table, and its check. *)
Definition nvt_path_of (self : Extractor) : option string :=
  match environ_get m "NVTOOLSEXT_INSTALL_PATH" with
  | Some v => Some v
  | None => nvtoolsextpath self
  end.

(** [Path(p).is_dir()], line 280: the question is put for the text
    that [pathlib] keeps.  The empty text becomes the dot, the working
    directory, which the model has without an entry for it. *)
Definition Path_is_dir (f : filesystem) (p : string) : bool :=
  let q := Path.pure (os_flavour m) p in
  String.eqb q "." || os_path_isdir m f q.

Definition check_nvt_path (self : Extractor) : M (option string) :=
  let nvt_path := nvt_path_of self in
  print ("NvToolsExt path: " ++ match nvt_path with Some v => v | None => "None" end) ;;
  match nvt_path with
  | Some v =>
      fun w =>
        if negb (Path_is_dir (fs w) v)
        then (Raise (ValueError "NVTOOLSEXT_INSTALL_PATH is invalid or inaccessible."), w)
        else (Ok nvt_path, w)
  | None => ret nvt_path
  end.

(** The guarded copy of lines 292 to 296, and again 298, 304 and 312. *)
Definition fetch (store path filename : string) : M unit :=
  fun w =>
    if negb (os_path_isfile m (fs w) (os_path_join m store filename))
    then (_ <- shutil_copy m (os_path_join m path filename) store ;; ret tt) w
    else (Ok tt, w).

Definition fetch_matching (store path : string) (files : list string) (pat : string)
  : M unit :=
  for_each (fnmatch_filter m files pat) (fetch store path).

(** Lines 289 to 308: the unpacked tree is flattened into the store.
    The walk is taken once, before the loop; the loop writes into the
    store, which the walk does not reach. *)
Definition flatten_dir (store : string) (entry : string * list string * list string)
  : M unit :=
  let '(path, dirs, files) := entry in
  if negb (Str.contains "jre" path) && negb (Str.contains "GFExperience" path) then
    fetch_matching store path files "*.dll" ;;
    fetch_matching store path files "*.lib" ;;
    fetch_matching store path files "*.bc"
  else ret tt.

Definition flatten (extractdir store : string) : M unit :=
  tree <- reads (fun f => os_walk m f extractdir) ;;
  for_each tree (flatten_dir store).

(** Lines 309 to 316: the DLLs of the NvToolsExt installation. *)
Definition merge_dir (store : string) (entry : string * list string * list string)
  : M unit :=
  let '(path, dirs, files) := entry in
  fetch_matching store path files "*.dll".

Definition merge_nvtoolsext (nvt_path : option string) (store : string) : M unit :=
  match nvt_path with
  | Some v =>
      tree <- reads (fun f => os_walk m f v) ;;
      for_each tree (merge_dir store)
  | None => ret tt
  end.

(** The guarded copies that the two loops make, in the order of the
    traversal: the directory and the name of each file they reach. *)
Definition wanted_files (files : list string) : list string :=
  (fnmatch_filter m files "*.dll" ++ fnmatch_filter m files "*.lib"
   ++ fnmatch_filter m files "*.bc")%list.

Definition excluded (path : string) : bool :=
  Str.contains "jre" path || Str.contains "GFExperience" path.

Definition flatten_order (tree : list (string * list string * list string))
  : list (string * string) :=
  flat_map (fun entry : string * list string * list string =>
              let '(path, dirs, files) := entry in
              if excluded path then []
              else map (pair path) (wanted_files files)) tree.

Definition merge_order (tree : list (string * list string * list string))
  : list (string * string) :=
  flat_map (fun entry : string * list string * list string =>
              let '(path, dirs, files) := entry in
              map (pair path) (fnmatch_filter m files "*.dll")) tree.

Definition fetch_pair (store : string) (pn : string * string) : M unit :=
  fetch store (fst pn) (snd pn).

(** The block of the [with] statement, lines 267 to 317. *)
Definition extract_block (self : Extractor) (tmpd : string) : M unit :=
  extractdir <- unpack self tmpd ;;
  nvt_path <- check_nvt_path self ;;
  let store_name := "DLLs" in
  let store := os_path_join m tmpd store_name in
  os_mkdir m store ;;
  flatten extractdir store ;;
  merge_nvtoolsext nvt_path store ;;
  WindowsExtractor_copy self store.

(** [WindowsExtractor.extract], lines 262 to 322. *)
Definition WindowsExtractor_extract (self : Extractor) : M unit :=
  except_PermissionError_pass (with_tempdir m (extract_block self)).

(** ** class LinuxExtractor *)

(** [LinuxExtractor.__init__], lines 329 to 337: the call of line 337
    hands three arguments to [Extractor.__init__], which takes two. *)
Definition LinuxExtractor_init (version : string) (ver_config' plt_config : pydict)
  : M Extractor :=
  _ <- (if String.eqb (platform_machine m) "ppc64le" then
          match Dict.get plt_config "ppc64le_blob" with
          | Some PNone | None =>
              raise (RuntimeError ("ppc64le not supported for " ++ version))
          | Some blob =>
              match Dict.get plt_config "ppc64le_embedded_blob" with
              | Some e =>
                  ret (Dict.set (Dict.set plt_config "blob" blob) "embedded_blob" e)
              | None => raise (KeyError "ppc64le_embedded_blob")
              end
          end
        else ret plt_config) ;;
  raise (TypeError "__init__() takes 3 positional arguments but 4 were given").

Definition LinuxExtractor_copy (self : Extractor) (basepath : string) : M unit :=
  copy_files self
    (os_path_join m basepath "lib64")
    (Path.join_all (os_flavour m) basepath ["nvvm"; "lib64"])
    (Path.join_all (os_flavour m) basepath ["nvvm"; "libdevice"]).

(** [LinuxExtractor.extract], lines 347 to 378. *)
Definition LinuxExtractor_extract (self : Extractor) : M unit :=
  let runfile := config_blob self in
  os_chmod m runfile ;;
  with_tempdir m (fun tmpd =>
    match embedded_blob self with
    | Some eb =>
        with_tempdir m (fun tmpd2 =>
          check_call m [os_path_join m (src_dir self) runfile;
                        "--extract=" ++ tmpd2; "--nox11"; "--silent"] ;;
          check_call m [os_path_join m tmpd2 eb;
                        "-prefix"; tmpd; "-noprompt"; "--nox11"])
    | None =>
        check_call m [os_path_join m (src_dir self) runfile;
                      "--installpath=" ++ tmpd; "--toolkit"; "--silent";
                      "--override"; "--nox11"]
    end ;;
    for_each (patches self)
      (fun p => os_chmod m p ;;
                check_call m [os_path_join m (src_dir self) p;
                              "--installdir"; tmpd; "--accept-eula"; "--silent"]) ;;
    LinuxExtractor_copy self tmpd).

(** ** The module level, lines 382 to 413 *)

Definition getplatform : outcome string :=
  let plt := sys_platform m in
  if Str.startswith plt "linux" then Ok "linux"
  else if Str.startswith plt "win" then Ok "windows"
  else Raise (RuntimeError "Unknown platform").

Definition DISPATCHER (plat : string) : outcome extractor_class :=
  if String.eqb plat "linux" then Ok LinuxExtractor
  else if String.eqb plat "windows" then Ok WindowsExtractor
  else Raise (KeyError plat).

(** [extractor_impl(plat, ns.version)], line 409.  [WindowsExtractor]
    inherits [Extractor.__init__]; [LinuxExtractor.__init__] has three
    parameters and is called with two. *)
Definition construct (impl : extractor_class) (plat version : string) : M Extractor :=
  match impl with
  | WindowsExtractor => Extractor_init plat version
  | LinuxExtractor =>
      raise (TypeError "__init__() missing 1 required positional argument: 'plt_config'")
  end.

Definition extract (impl : extractor_class) (self : Extractor) : M unit :=
  match impl with
  | WindowsExtractor => WindowsExtractor_extract self
  | LinuxExtractor => LinuxExtractor_extract self
  end.

(** [main], with [ns.version] for argument. *)
Definition main (version : string) : M unit :=
  print "Running build" ;;
  plat <- lift getplatform ;;
  extractor_impl <- lift (DISPATCHER plat) ;;
  extractor <- construct extractor_impl plat version ;;
  extract extractor_impl extractor ;;
  dump_config extractor.

End Build.

(* ================================================================== *)
(** * Machines and directories used as examples *)

Module Examples.

(** A dump that writes one line per key, enough to tell records apart. *)
Definition render (v : pyval) : string :=
  match v with
  | PNone => "null"
  | PStr s => s
  | PList l => "[" ++ Str.join ", " l ++ "]"
  end.

Definition simple_yaml (d : pydict) : list byte :=
  list_byte_of_string
    (String.concat "" (map (fun kv => fst kv ++ ": " ++ render (snd kv) ++ Str.nl) d)).

Definition linux_box : machine :=
  {| sys_platform := "linux";
     platform_machine := "x86_64";
     environ := [("PREFIX", "/prefix"); ("SRC_DIR", "/src")];
     gettempdir := "/tmp";
     tmp_name := fun _ => "abcdefgh";
     run := fun _ f => (Ok 0%Z, f);
     yaml_dump := simple_yaml |}.

(** An extractor with the attributes of lines 133 to 161 for the
    platform [linux], the version [11.0.3] and the environment of
    [linux_box], apart from the record of line 156. *)
Definition linux_self : Extractor :=
  {| version := "11.0.3";
     major := "11";
     minor := "0";
     micro := Some "3";
     cuda_libraries := CONFIG_cuda_libraries linux_box;
     cuda_static_libraries := ["cudadevrt"];
     libdevice_versions := ["11"];
     config_blob := "cuda_11.0.3_450.51.06_linux.run";
     embedded_blob := None;
     cuda_lib_fmt := "lib{0}.so*";
     cuda_static_lib_fmt := "lib{0}.a";
     nvtoolsext_fmt := Some "lib{0}.so*";
     nvvm_lib_fmt := "lib{0}.so*";
     libdevice_lib_fmt := "libdevice.10.bc";
     patches := [];
     nvtoolsextpath := None;
     config := [("version", PStr "11.0.3")];
     prefix := "/prefix";
     src_dir := "/src";
     output_dir := "/prefix/lib";
     symlinks := true;
     debug_install_path := None |}.

(** The directory of the specification: two real files and a link. *)
Definition fs_libfoo : filesystem :=
  [("/", Dir); ("/d", Dir);
   ("/d/libfoo.so.1", File [x01] false);
   ("/d/libfoo.so.2", Link "libfoo.so.1");
   ("/d/libfoo.so.3", File [x03] false)].

(** A directory whose only match is a link to a file that is gone. *)
Definition fs_dangling : filesystem :=
  [("/", Dir); ("/d", Dir); ("/d/libfoo.so", Link "libfoo.so.1")].

(** A directory whose only match is a link to a file next to it. *)
Definition fs_only_link : filesystem :=
  [("/", Dir); ("/d", Dir); ("/d/libfoo.so", Link "other.bin");
   ("/d/other.bin", File [x01] false)].

(** A machine state with nothing but the root directory. *)
Definition w_root : world := {| fs := [("/", Dir)]; stdout := []; seed := 0 |}.

(** The same object with aliasing refused, as on Windows. *)
Definition strict_self : Extractor :=
  {| version := version linux_self;
     major := major linux_self;
     minor := minor linux_self;
     micro := micro linux_self;
     cuda_libraries := cuda_libraries linux_self;
     cuda_static_libraries := cuda_static_libraries linux_self;
     libdevice_versions := libdevice_versions linux_self;
     config_blob := config_blob linux_self;
     embedded_blob := embedded_blob linux_self;
     cuda_lib_fmt := cuda_lib_fmt linux_self;
     cuda_static_lib_fmt := cuda_static_lib_fmt linux_self;
     nvtoolsext_fmt := nvtoolsext_fmt linux_self;
     nvvm_lib_fmt := nvvm_lib_fmt linux_self;
     libdevice_lib_fmt := libdevice_lib_fmt linux_self;
     patches := patches linux_self;
     nvtoolsextpath := nvtoolsextpath linux_self;
     config := config linux_self;
     prefix := prefix linux_self;
     src_dir := src_dir linux_self;
     output_dir := output_dir linux_self;
     symlinks := false;
     debug_install_path := debug_install_path linux_self |}.

(** ** A Windows machine *)

Definition windows_files : list string :=
  ["cublas64_11.dll"; "cublasLt64_11.dll"; "cudart64_110.dll"; "cufft64_10.dll";
   "cufftw64_10.dll"; "curand64_10.dll"; "cusolver64_10.dll"; "cusolverMg64_10.dll";
   "cusparse64_11.dll"; "nppc64_11.dll"; "nppial64_11.dll"; "nppicc64_11.dll";
   "nppidei64_11.dll"; "nppif64_11.dll"; "nppig64_11.dll"; "nppim64_11.dll";
   "nppist64_11.dll"; "nppisu64_11.dll"; "nppitc64_11.dll"; "npps64_11.dll";
   "nvblas64_11.dll"; "nvjpeg64_11.dll"; "nvrtc64_110_0.dll";
   "nvrtc-builtins64_110.dll"; "cudadevrt.lib"; "nvvm64_33_0.dll"; "libdevice.10.bc"].

(** The directory named by the [-o] switch of [7za]. *)
Definition output_switch (cmd : list string) : option string :=
  match cmd with
  | [_; _; String _ (String _ d); _] => Some d
  | _ => None
  end.

(** What the installer unpacks: the libraries under [bin], a second
    [cublas64_11.dll] with other bytes under [lib], and a Java runtime. *)
Definition unpacked (locked : bool) (d : string) : filesystem :=
  let under_bin := map (fun n => (d ++ "\bin\" ++ n, File [x00] locked)) windows_files in
  let before := [(d, Dir); (d ++ "\bin", Dir)] in
  let after := [(d ++ "\jre", Dir); (d ++ "\jre\java.dll", File [x4a] false);
                (d ++ "\lib", Dir); (d ++ "\lib\cublas64_11.dll", File [x01] false)] in
  List.app before (List.app under_bin after).

Definition seven_zip (locked : bool) (cmd : list string) (f : filesystem)
  : outcome Z * filesystem :=
  match output_switch cmd with
  | Some d => (Ok 0%Z, (f ++ unpacked locked d)%list)
  | None => (Ok 2%Z, f)
  end.

Definition windows_machine (locked : bool) : machine :=
  {| sys_platform := "win32";
     platform_machine := "AMD64";
     environ := [("PREFIX", "c:\prefix"); ("SRC_DIR", "c:\src");
                 ("NVTOOLSEXT_INSTALL_PATH", "c:\nvt")];
     gettempdir := "c:\tmp";
     tmp_name := fun _ => "abcdefgh";
     run := seven_zip locked;
     yaml_dump := simple_yaml |}.

Definition windows_box : machine := windows_machine false.

(** The same machine with an installer whose libraries cannot be opened. *)
Definition locked_box : machine := windows_machine true.

Definition w_windows : world :=
  {| fs := [("c:", Dir); ("c:\tmp", Dir); ("c:\nvt", Dir);
            ("c:\nvt\nvToolsExt64_1.dll", File [x02] false);
            ("c:\nvt\cublas64_11.dll", File [x03] false);
            ("c:\nvt\readme.txt", File [x04] false)];
     stdout := [];
     seed := 0 |}.

(** An extractor with the attributes of lines 133 to 161 for the
    platform [windows], the version [11.0.3] and the environment of
    [windows_box]; its record is the version next to the platform table. *)
Definition windows_self : Extractor :=
  {| version := "11.0.3";
     major := "11";
     minor := "0";
     micro := Some "3";
     cuda_libraries := CONFIG_cuda_libraries windows_box;
     cuda_static_libraries := ["cudadevrt"];
     libdevice_versions := ["11"];
     config_blob := "cuda_11.0.3_451.82_win10.exe";
     embedded_blob := None;
     cuda_lib_fmt := "{0}64_1*.dll";
     cuda_static_lib_fmt := "{0}.lib";
     nvtoolsext_fmt := Some "{0}64_1.dll";
     nvvm_lib_fmt := "{0}64_33_0.dll";
     libdevice_lib_fmt := "libdevice.10.bc";
     patches := [];
     nvtoolsextpath := Some "c:\Program Files\NVIDIA Corporation\NVToolsExt\bin";
     config := ("version", PStr "11.0.3") :: CONFIG_windows windows_box;
     prefix := "c:\prefix";
     src_dir := "c:\src";
     output_dir := "c:\prefix\Library/bin";
     symlinks := false;
     debug_install_path := None |}.

(** An unpacked tree with the same file name in two directories and a
    Java runtime, next to an empty store. *)
Definition w_tree : world :=
  {| fs := [("c:", Dir); ("c:\t", Dir); ("c:\t\x", Dir);
            ("c:\t\x\a", Dir); ("c:\t\x\a\foo.dll", File [x01] false);
            ("c:\t\x\b", Dir); ("c:\t\x\b\foo.dll", File [x02] false);
            ("c:\t\x\b\bar.lib", File [x03] false);
            ("c:\t\x\b\notes.txt", File [x04] false);
            ("c:\t\x\jre", Dir); ("c:\t\x\jre\java.dll", File [x05] false);
            ("c:\t\DLLs", Dir)];
     stdout := [];
     seed := 0 |}.

(** An NvToolsExt installation, next to a store that already holds one of
    its files. *)
Definition w_nvt : world :=
  {| fs := [("c:", Dir); ("c:\nvt", Dir);
            ("c:\nvt\nvToolsExt64_1.dll", File [x02] false);
            ("c:\nvt\foo.dll", File [x06] false);
            ("c:\nvt\readme.txt", File [x04] false);
            ("c:\t", Dir); ("c:\t\DLLs", Dir);
            ("c:\t\DLLs\foo.dll", File [x01] false)];
     stdout := [];
     seed := 0 |}.

(** A prefix whose library directory already holds an older
    [libfoo.so.3], next to the directory of the specification. *)
Definition w_prefix : world :=
  {| fs := (fs_libfoo ++ [("/prefix", Dir); ("/prefix/lib", Dir);
                          ("/prefix/lib/libfoo.so.3", File [x09; x09] false)])%list;
     stdout := [];
     seed := 0 |}.

(** ** Further machines and states *)

Definition darwin_box : machine :=
  {| sys_platform := "darwin";
     platform_machine := "arm64";
     environ := [("PREFIX", "/prefix"); ("SRC_DIR", "/src")];
     gettempdir := "/tmp";
     tmp_name := fun _ => "abcdefgh";
     run := fun _ f => (Ok 0%Z, f);
     yaml_dump := simple_yaml |}.

Definition ppc64le_box : machine :=
  {| sys_platform := "linux";
     platform_machine := "ppc64le";
     environ := [("PREFIX", "/prefix"); ("SRC_DIR", "/src")];
     gettempdir := "/tmp";
     tmp_name := fun _ => "abcdefgh";
     run := fun _ f => (Ok 0%Z, f);
     yaml_dump := simple_yaml |}.

(** A Linux machine whose installer fails. *)
Definition failing_linux_box : machine :=
  {| sys_platform := "linux";
     platform_machine := "x86_64";
     environ := [("PREFIX", "/prefix"); ("SRC_DIR", "/src")];
     gettempdir := "/tmp";
     tmp_name := fun _ => "abcdefgh";
     run := fun _ f => (Ok 1%Z, f);
     yaml_dump := simple_yaml |}.

(** The installer in the source directory and in the working directory. *)
Definition w_runfile : world :=
  {| fs := [("/", Dir); ("/tmp", Dir); ("/src", Dir);
            ("/src/cuda_11.0.3_450.51.06_linux.run", File [x00] false);
            ("cuda_11.0.3_450.51.06_linux.run", File [x00] false)];
     stdout := [];
     seed := 0 |}.

(** The installer in the source directory only. *)
Definition w_src_only : world :=
  {| fs := [("/", Dir); ("/tmp", Dir); ("/src", Dir);
            ("/src/cuda_11.0.3_450.51.06_linux.run", File [x00] false)];
     stdout := [];
     seed := 0 |}.

(** A directory with the libdevice bitcode. *)
Definition fs_libdevice : filesystem :=
  [("/", Dir); ("/d", Dir); ("/d/libdevice.10.bc", File [x01] false)].

(** A prefix whose library directory already holds the link of the
    directory of the specification. *)
Definition w_prefix_link : world :=
  {| fs := (fs_libfoo ++ [("/prefix", Dir); ("/prefix/lib", Dir);
                          ("/prefix/lib/libfoo.so.2", Link "libfoo.so.1")])%list;
     stdout := [];
     seed := 0 |}.

(** A machine whose external programs all fail. *)
Definition failing_box : machine :=
  {| sys_platform := "win32";
     platform_machine := "AMD64";
     environ := [("PREFIX", "c:\prefix"); ("SRC_DIR", "c:\src")];
     gettempdir := "c:\tmp";
     tmp_name := fun _ => "abcdefgh";
     run := fun _ f => (Ok 2%Z, f);
     yaml_dump := simple_yaml |}.

(** The Windows machine after an earlier run in the same directory. *)
Definition w_rerun : world :=
  {| fs := [("c:", Dir); ("c:\tmp", Dir); ("__extracted", Dir)];
     stdout := [];
     seed := 0 |}.

(** A tree unpacked under a directory whose name holds [jre]. *)
Definition w_jre : world :=
  {| fs := [("c:", Dir); ("c:\tmpjre", Dir); ("c:\tmpjre\x", Dir);
            ("c:\tmpjre\x\foo.dll", File [x01] false);
            ("c:\tmpjre\DLLs", Dir)];
     stdout := [];
     seed := 0 |}.


End Examples.

(* ================================================================== *)
(** * Facts about strings and lists *)

Module StrFacts.

Lemma ascii_compare_N (a b : ascii) :
  Ascii.compare a b = N.compare (N_of_ascii a) (N_of_ascii b).
Proof. reflexivity. Qed.

Lemma compare_refl (s : string) : String.compare s s = Eq.
Proof.
  induction s as [|a s IH]; simpl; [reflexivity|].
  rewrite ascii_compare_N, N.compare_refl. exact IH.
Qed.

Lemma compare_not_gt_trans (a b c : string) :
  String.compare a b <> Gt -> String.compare b c <> Gt -> String.compare a c <> Gt.
Proof.
  revert b c. induction a as [|x a IH]; intros [|y b] [|z c]; simpl;
    try congruence.
  rewrite !ascii_compare_N.
  destruct (N.compare_spec (N_of_ascii x) (N_of_ascii y)) as [E1|L1|G1];
    destruct (N.compare_spec (N_of_ascii y) (N_of_ascii z)) as [E2|L2|G2];
    try congruence; intros H1 H2.
  - rewrite E1, E2, N.compare_refl. eauto.
  - rewrite E1. apply N.compare_lt_iff in L2. rewrite L2. discriminate.
  - rewrite <- E2. apply N.compare_lt_iff in L1. rewrite L1. discriminate.
  - assert (L : (N_of_ascii x < N_of_ascii z)%N) by lia.
    apply N.compare_lt_iff in L. rewrite L. discriminate.
Qed.

Lemma leb_refl (s : string) : String.leb s s = true.
Proof. unfold String.leb. now rewrite compare_refl. Qed.

Lemma leb_trans (a b c : string) :
  String.leb a b = true -> String.leb b c = true -> String.leb a c = true.
Proof.
  unfold String.leb. intros H1 H2.
  assert (H : String.compare a c <> Gt).
  { apply compare_not_gt_trans with b.
    - destruct (String.compare a b); congruence.
    - destruct (String.compare b c); congruence. }
  destruct (String.compare a c); congruence.
Qed.

Lemma ltb_leb (a b : string) : String.ltb a b = true -> String.leb a b = true.
Proof. unfold String.ltb, String.leb. destruct (String.compare a b); congruence. Qed.

Lemma not_ltb_leb (a b : string) : String.ltb a b = false -> String.leb b a = true.
Proof.
  unfold String.ltb, String.leb. rewrite (String.compare_antisym b a).
  destruct (String.compare a b); simpl; congruence.
Qed.

(** [max] returns an element, and the greatest. *)
Lemma max_from_In (l : list string) : forall x, In (Str.max_from x l) (x :: l).
Proof.
  induction l as [|y l IH]; intros x; simpl; [now left|].
  destruct (IH (if String.ltb x y then y else x)) as [E|I].
  - destruct (String.ltb x y); [right; left|left]; exact E.
  - right; right; exact I.
Qed.

Lemma max_from_above (l : list string) : forall x, String.leb x (Str.max_from x l) = true.
Proof.
  induction l as [|y l IH]; intros x; simpl; [apply leb_refl|].
  destruct (String.ltb x y) eqn:E.
  - apply leb_trans with y; [now apply ltb_leb | apply IH].
  - apply IH.
Qed.

Lemma max_from_greatest (l : list string) :
  forall x y, In y (x :: l) -> String.leb y (Str.max_from x l) = true.
Proof.
  induction l as [|z l IH]; intros x y Hy.
  - destruct Hy as [<-|[]]. apply leb_refl.
  - simpl. destruct Hy as [<-|[<-|Hy]].
    + destruct (String.ltb x z) eqn:E.
      * apply leb_trans with z; [now apply ltb_leb | apply max_from_above].
      * apply max_from_above.
    + destruct (String.ltb x z) eqn:E.
      * apply max_from_above.
      * apply leb_trans with x; [now apply not_ltb_leb | apply max_from_above].
    + apply IH. now right.
Qed.

(** [remove] takes one occurrence out. *)
Lemma remove_In (x : string) (l : list string) :
  In x l -> exists l', Str.remove x l = Some l' /\ Permutation l (x :: l').
Proof.
  induction l as [|y l IH]; intros H; [destruct H|].
  simpl. destruct (String.eqb_spec y x) as [->|N].
  - eexists; split; [reflexivity|apply Permutation_refl].
  - destruct H as [E|H]; [congruence|].
    destruct (IH H) as (l' & -> & P).
    eexists; split; [reflexivity|].
    apply perm_trans with (y :: x :: l'); [now constructor|apply perm_swap].
Qed.

Lemma remove_Some (x : string) (l l' : list string) :
  Str.remove x l = Some l' -> Permutation l (x :: l').
Proof.
  revert l'. induction l as [|y l IH]; intros l'; simpl; [discriminate|].
  destruct (String.eqb_spec y x) as [->|N].
  - intros [= <-]. apply Permutation_refl.
  - destruct (Str.remove x l) as [r|]; [|discriminate].
    intros [= <-].
    apply perm_trans with (y :: x :: r); [constructor; now apply IH|apply perm_swap].
Qed.

Lemma filter_split {A} (p : A -> bool) (l : list A) :
  Permutation l (filter (fun x => negb (p x)) l ++ filter p l)%list.
Proof.
  induction l as [|a l IH]; simpl; [constructor|].
  destruct (p a); simpl.
  - apply Permutation_cons_app. exact IH.
  - now constructor.
Qed.

(** The number of parts of a split. *)
Lemma split_length (c : ascii) (s : string) :
  length (Str.split c s) = S (Str.count c s).
Proof.
  induction s as [|a s IH]; simpl; [reflexivity|].
  destruct (Ascii.eqb a c); simpl; [now rewrite IH|].
  destruct (Str.split c s); simpl in *; [discriminate|exact IH].
Qed.

End StrFacts.

(* ================================================================== *)
(** * Facts about paths *)

Module PathFacts.
Section WithFlavour.
Variable fl : flavour.

Lemma append_inj (d x y : string) : d ++ x = d ++ y -> x = y.
Proof.
induction d as [|c d IH]; simpl; [trivial|]. intros [= H]. now apply IH.
Qed.

Lemma append_assoc (a b c : string) : (a ++ b) ++ c = a ++ (b ++ c).
Proof. induction a as [|x a IH]; simpl; [reflexivity|now rewrite IH]. Qed.

Lemma plain_no_sep (n : string) : Path.plain_name fl n = true -> Path.has_sep fl n = false.
Proof.
unfold Path.plain_name. intros H. apply andb_prop in H. destruct H as [_ H].
now apply negb_true_iff in H.
Qed.

Lemma no_sep_start (n : string) :
  Path.has_sep fl n = false -> Path.starts_with_sep fl n = false.
Proof.
destruct n as [|c n]; simpl; [reflexivity|]. intros H.
apply orb_false_iff in H. apply H.
Qed.

(** Joining a directory with two names gives two paths. *)
Lemma join_inj (d a b : string) :
  Path.has_sep fl a = false -> Path.has_sep fl b = false ->
  Path.join fl d a = Path.join fl d b -> a = b.
Proof.
intros Ha Hb. unfold Path.join.
rewrite (no_sep_start a Ha), (no_sep_start b Hb).
destruct (Str.is_empty d || Path.ends_with_sep fl d); intros H.
- now apply append_inj in H.
- apply append_inj in H. now injection H.
Qed.

Lemma cut_no_sep (n : string) : Path.has_sep fl n = false -> Path.cut fl n = ("", n).
Proof.
induction n as [|c n IH]; simpl; [reflexivity|]. intros H.
apply orb_false_iff in H. destruct H as [Hc Hn].
rewrite (IH Hn), Hc. reflexivity.
Qed.

Lemma cut_after_sep (d n : string) :
  Path.ends_with_sep fl d = true -> Path.has_sep fl n = false ->
  Path.cut fl (d ++ n) = (d, n).
Proof.
intros Hd Hn. induction d as [|c d IH]; [discriminate|].
destruct d as [|c' d'].
- simpl in Hd. simpl. rewrite (cut_no_sep n Hn), Hd. reflexivity.
- change ((String c (String c' d')) ++ n) with (String c (String c' d' ++ n)).
  cbn [Path.cut]. rewrite IH; [reflexivity|exact Hd].
Qed.

Lemma ends_with_sep_snoc (d : string) :
  Path.ends_with_sep fl (d ++ String (Path.sep fl) "") = true.
Proof.
induction d as [|c d IH].
- simpl. destruct fl; reflexivity.
- simpl. destruct (d ++ String (Path.sep fl) "") eqn:E; [|exact IH].
  destruct d; discriminate.
Qed.

(** The last component of a joined path is the name that was joined. *)
Lemma basename_join (d n : string) :
  Path.has_sep fl n = false -> Path.basename fl (Path.join fl d n) = n.
Proof.
intros Hn. unfold Path.basename, Path.join. rewrite (no_sep_start n Hn).
destruct d as [|c d]; [simpl; now rewrite (cut_no_sep n Hn)|].
cbn [Str.is_empty orb].
destruct (Path.ends_with_sep fl (String c d)) eqn:E.
- now rewrite cut_after_sep.
- replace (String c d ++ String (Path.sep fl) n)
    with ((String c d ++ String (Path.sep fl) "") ++ n)
    by (rewrite append_assoc; reflexivity).
  rewrite cut_after_sep; [reflexivity|apply ends_with_sep_snoc|exact Hn].
Qed.


Lemma child_name_plain (d k n : string) :
  Path.child_name fl d k = Some n -> Path.plain_name fl n = true.
Proof.
unfold Path.child_name. destruct (Path.strip_prefix d k) as [rest|]; [|discriminate].
destruct (Str.is_empty d || Path.ends_with_sep fl d).
- destruct (Path.plain_name fl rest) eqn:E; [|discriminate]. now intros [= <-].
- destruct rest as [|c r]; [discriminate|].
  destruct (Path.is_sep fl c && Path.plain_name fl r) eqn:E; [|discriminate].
  intros [= <-]. apply andb_prop in E. apply E.
Qed.

End WithFlavour.
End PathFacts.

(* ================================================================== *)
(** * Facts about the file system *)

Module FsFacts.
Section WithFlavour.
Variable fl : flavour.

Lemma lstat_set_eq (f : filesystem) (k : string) (v : node) :
  Fs.lstat (Fs.set f k v) k = Some v.
Proof.
induction f as [|[k' n] f IH]; simpl.
- now rewrite String.eqb_refl.
- destruct (String.eqb k' k) eqn:E; simpl; rewrite E; [reflexivity|exact IH].
Qed.

Lemma lstat_set_ne (f : filesystem) (k p : string) (v : node) :
  k <> p -> Fs.lstat (Fs.set f k v) p = Fs.lstat f p.
Proof.
intros N. induction f as [|[k' n] f IH]; simpl.
- destruct (String.eqb_spec k p); [contradiction|reflexivity].
- destruct (String.eqb_spec k' k) as [->|N']; simpl.
  + destruct (String.eqb_spec k p); [contradiction|reflexivity].
  + destruct (String.eqb k' p); [reflexivity|exact IH].
Qed.

(** A resolution that does not end on [k] does not see what is stored
    there, as long as [k] was no link and no directory. *)
Lemma follow_set_frame (f : filesystem) (k : string) (v : node) (q : string) (n : node) :
  free_or_file f k -> q <> k ->
  forall fuel p,
    Fs.follow fl fuel f p = Some (q, n) ->
    Fs.follow fl fuel (Fs.set f k v) p = Some (q, n).
Proof.
intros Hk Hq. induction fuel as [|fuel IH]; intros p H.
- simpl in *. destruct (String.eqb_spec k p) as [->|N].
  + destruct Hk as [E|(d & l & E)]; rewrite E in H; [discriminate|].
    injection H as <- _. contradiction.
  + rewrite (lstat_set_ne f v N). exact H.
- simpl in *. destruct (String.eqb_spec k p) as [->|N].
  + destruct Hk as [E|(d & l & E)]; rewrite E in H; [discriminate|].
    injection H as <- _. contradiction.
  + rewrite (lstat_set_ne f v N). destruct (Fs.lstat f p) as [[d l|t|]|]; auto.
Qed.

(** A resolution ends on an entry that is there and is no link, unless
    the links ran out. *)
Lemma follow_lstat (f : filesystem) :
  forall fuel p q n, Fs.follow fl fuel f p = Some (q, n) -> Fs.lstat f q = Some n.
Proof.
induction fuel as [|fuel IH]; intros p q n; simpl;
  destruct (Fs.lstat f p) as [[d l|t|]|] eqn:E; try discriminate;
  try (intros [= <- <-]; exact E).
apply IH.
Qed.

(** What was written through [p] is read through [p]. *)
Lemma write_target_follow (f : filesystem) (data : list byte) :
  forall fuel p q,
    Fs.write_target fl fuel f p = Ok q ->
    free_or_file f q /\
    Fs.follow fl fuel (Fs.set f q (File data false)) p = Some (q, File data false).
Proof.
induction fuel as [|fuel IH]; intros p q; simpl;
  destruct (Fs.lstat f p) as [[d l|t|]|] eqn:E; try discriminate.
- destruct l; [discriminate|]. intros [= <-]. split.
  + right. eauto.
  + now rewrite lstat_set_eq.
- destruct (Fs.parent_ok fl f p); [|discriminate]. intros [= <-]. split.
  + now left.
  + now rewrite lstat_set_eq.
- destruct l; [discriminate|]. intros [= <-]. split.
  + right. eauto.
  + now rewrite lstat_set_eq.
- intros H. destruct (IH _ _ H) as [Hq Hf]. split; [exact Hq|].
  assert (N : q <> p).
  { intros ->. destruct Hq as [Hq|(d & l & Hq)]; rewrite Hq in E; discriminate. }
  rewrite (lstat_set_ne f _ N), E. exact Hf.
- destruct (Fs.parent_ok fl f p); [|discriminate]. intros [= <-]. split.
  + now left.
  + now rewrite lstat_set_eq.
Qed.

(** Where no regular file is read, the write makes a new entry. *)
Lemma write_target_fresh (f : filesystem) :
  forall fuel p q,
    Fs.write_target fl fuel f p = Ok q ->
    (forall r d l, Fs.follow fl fuel f p <> Some (r, File d l)) ->
    Fs.lstat f q = None.
Proof.
induction fuel as [|fuel IH]; intros p q; simpl;
  destruct (Fs.lstat f p) as [[d l|t|]|] eqn:E; try discriminate.
- intros _ H. exfalso. now apply (H p d l).
- destruct (Fs.parent_ok fl f p); [|discriminate]. now intros [= <-] _.
- intros _ H. exfalso. now apply (H p d l).
- apply IH.
- destruct (Fs.parent_ok fl f p); [|discriminate]. now intros [= <-] _.
Qed.

Lemma children_plain (f : filesystem) (d n : string) :
  In n (Fs.children fl f d) -> Path.plain_name fl n = true.
Proof.
induction f as [|[k nd] f IH]; simpl; [intros []|].
destruct (Path.child_name fl d k) as [n'|] eqn:E; [|exact IH].
intros [<-|H]; [now apply PathFacts.child_name_plain in E|now apply IH].
Qed.

Lemma listdir_plain (f : filesystem) (top : string) (names : list string) (n : string) :
  Fs.listdir fl f top = Ok names -> In n names -> Path.plain_name fl n = true.
Proof.
unfold Fs.listdir.
destruct (Fs.stat fl f top) as [[d' [dd l|t|]]|]; try discriminate.
intros [= <-]. apply children_plain.
Qed.

(** One level of the walk. *)
Lemma walk_aux_S (fuel : nat) (f : filesystem) (top : string) :
  Fs.walk_aux fl (S fuel) f top =
  match Fs.listdir fl f top with
  | Raise _ => []
  | Ok names =>
      (top, filter (fun n => Fs.isdir fl f (Path.join fl top n)) names,
       filter (fun n => negb (Fs.isdir fl f (Path.join fl top n))) names)
      :: flat_map (fun d => if Fs.islink f (Path.join fl top d) then []
                            else Fs.walk_aux fl fuel f (Path.join fl top d))
                  (filter (fun n => Fs.isdir fl f (Path.join fl top n)) names)
  end.
Proof. reflexivity. Qed.

(** The names a walk yields hold no separator. *)
Lemma walk_files_plain (f : filesystem) :
  forall fuel top path dirs files n,
    In (path, dirs, files) (Fs.walk_aux fl fuel f top) ->
    In n files -> Path.has_sep fl n = false.
Proof.
induction fuel as [|fuel IH]; intros top path dirs files n; [intros []|].
rewrite walk_aux_S.
destruct (Fs.listdir fl f top) as [names|e] eqn:El; [|intros []].
intros [E|H] Hn.
- injection E as <- <- <-. apply filter_In in Hn. destruct Hn as [Hn _].
  apply PathFacts.plain_no_sep. eapply listdir_plain; eassumption.
- apply in_flat_map in H. destruct H as (d & _ & H).
  destruct (Fs.islink f (Path.join fl top d)); [destruct H|].
  now apply (IH _ _ _ _ _ H).
Qed.

(** ** The fuel of the walk

    A walk goes down through entries of the file system with longer and
    longer paths: the number of entries is a bound on its depth. *)

Lemma length_append (a b : string) :
  String.length (a ++ b) = String.length a + String.length b.
Proof. induction a as [|c a IH]; simpl; [reflexivity|now rewrite IH]. Qed.

Lemma join_longer (top n : string) :
  Path.plain_name fl n = true ->
  String.length top < String.length (Path.join fl top n).
Proof.
intros Hp. unfold Path.join.
rewrite PathFacts.no_sep_start by (now apply PathFacts.plain_no_sep).
unfold Path.plain_name in Hp. destruct n as [|c n]; [discriminate|].
destruct (Str.is_empty top || Path.ends_with_sep fl top);
  rewrite length_append; simpl; lia.
Qed.

Lemma lstat_In (f : filesystem) (p : string) (n : node) :
  Fs.lstat f p = Some n -> In (p, n) f.
Proof.
induction f as [|[k n'] f IH]; simpl; [discriminate|].
destruct (String.eqb_spec k p) as [->|N].
- intros [= <-]. now left.
- intros H. right. now apply IH.
Qed.

Lemma filter_length_lt {A} (P Q : A -> bool) (l : list A) (x : A) :
  (forall a, P a = true -> Q a = true) ->
  In x l -> Q x = true -> P x = false ->
  length (filter P l) < length (filter Q l).
Proof.
intros HPQ. induction l as [|a l IH]; [intros []|].
assert (Hle : forall l', length (filter P l') <= length (filter Q l')).
{ induction l' as [|b l' IH']; simpl; [lia|].
  destruct (P b) eqn:Pb; [rewrite (HPQ b Pb); simpl; lia|].
  destruct (Q b); simpl; lia. }
intros [<-|Hin] Qx Px; simpl.
- rewrite Qx, Px. simpl. specialize (Hle l). lia.
- specialize (IH Hin Qx Px). destruct (P a) eqn:Pa.
  + rewrite (HPQ a Pa). simpl. lia.
  + destruct (Q a); simpl; lia.
Qed.

Lemma longer_le (top : string) (f : filesystem) : longer top f <= length f.
Proof.
unfold longer. induction f as [|a l IH]; simpl; [lia|].
destruct (Nat.ltb (String.length top) (String.length (fst a))); simpl; lia.
Qed.

Lemma longer_down (f : filesystem) (top p : string) (n : node) :
  Fs.lstat f p = Some n -> String.length top < String.length p ->
  longer p f < longer top f.
Proof.
intros Hl Hlt. unfold longer. apply filter_length_lt with (x := (p, n)).
- intros [k nd]. simpl. intros H. apply Nat.ltb_lt in H. apply Nat.ltb_lt. lia.
- now apply lstat_In.
- simpl. now apply Nat.ltb_lt.
- simpl. apply Nat.ltb_ge. lia.
Qed.

Lemma isdir_not_link (f : filesystem) (p : string) :
  Fs.isdir fl f p = true -> Fs.islink f p = false -> Fs.lstat f p = Some Dir.
Proof.
unfold Fs.isdir, Fs.islink, Fs.stat, Fs.MAXSYMLINKS. simpl.
destruct (Fs.lstat f p) as [[d l|t|]|]; try discriminate; reflexivity.
Qed.

Lemma flat_map_ext_in {A B} (g h : A -> list B) (l : list A) :
  (forall a, In a l -> g a = h a) -> flat_map g l = flat_map h l.
Proof.
induction l as [|a l IH]; intros H; simpl; [reflexivity|].
rewrite (H a (or_introl eq_refl)), IH; [reflexivity|].
intros b Hb. apply H. now right.
Qed.

(** More fuel than there are longer paths changes nothing. *)
Lemma walk_aux_more (f : filesystem) :
  forall fuel top,
    longer top f < fuel ->
    Fs.walk_aux fl fuel f top = Fs.walk_aux fl (S fuel) f top.
Proof.
induction fuel as [|fuel IH]; intros top H; [lia|].
rewrite (walk_aux_S (S fuel)), (walk_aux_S fuel).
destruct (Fs.listdir fl f top) as [names|e] eqn:El; [|reflexivity].
f_equal. apply flat_map_ext_in. intros d Hd. apply filter_In in Hd.
destruct Hd as [Hd Hdir].
destruct (Fs.islink f (Path.join fl top d)) eqn:Hl; [reflexivity|].
apply IH.
assert (Hkey : Fs.lstat f (Path.join fl top d) = Some Dir)
  by (now apply isdir_not_link).
assert (Hlong : String.length top < String.length (Path.join fl top d))
  by (apply join_longer; eapply listdir_plain; eassumption).
assert (longer (Path.join fl top d) f < longer top f)
  by (eapply longer_down; eassumption).
lia.
Qed.

(** The fuel of [walk] is enough: any larger fuel gives the same walk. *)
Lemma walk_fuel (f : filesystem) (top : string) :
  forall n, length f < n -> Fs.walk_aux fl n f top = Fs.walk fl f top.
Proof.
unfold Fs.walk. intros n Hn.
replace n with ((n - S (length f)) + S (length f)) by lia.
induction (n - S (length f)) as [|k IH]; [reflexivity|].
simpl plus. rewrite <- walk_aux_more; [exact IH|].
pose proof (longer_le top f). lia.
Qed.

(** ** A new file outside the walk

    The loops of the script walk one tree and write into another.  The
    walk taken before a loop is the walk at every moment of the loop. *)

Section NewFile.
Variable f : filesystem.
Variable k : string.
Variable data : list byte.
Hypothesis Hnew : Fs.lstat f k = None.

Lemma follow_new_file :
  forall fuel p q n,
    Fs.follow fl fuel (Fs.set f k (File data false)) p = Some (q, n) ->
    Fs.follow fl fuel f p = Some (q, n) \/ n = File data false.
Proof.
induction fuel as [|fuel IH]; intros p q n; simpl;
  (destruct (String.eqb_spec k p) as [->|N];
   [rewrite lstat_set_eq; intros [= <- <-]; now right
   |rewrite (lstat_set_ne f _ N); destruct (Fs.lstat f p) as [[d l|t|]|]; auto]).
Qed.

Lemma stat_new_file (p : string) (r : string * node) :
  Fs.stat fl f p = Some r -> Fs.stat fl (Fs.set f k (File data false)) p = Some r.
Proof.
destruct r as [q n]. unfold Fs.stat. intros H.
apply follow_set_frame; [now left| |exact H].
intros ->. apply follow_lstat in H. congruence.
Qed.

Lemma isdir_new_file (p : string) :
  Fs.isdir fl (Fs.set f k (File data false)) p = Fs.isdir fl f p.
Proof.
unfold Fs.isdir.
destruct (Fs.stat fl f p) as [r|] eqn:E; [now rewrite (stat_new_file _ E)|].
destruct (Fs.stat fl (Fs.set f k (File data false)) p) as [[q n]|] eqn:E'; [|reflexivity].
unfold Fs.stat in *. apply follow_new_file in E'. destruct E' as [E' | ->]; congruence.
Qed.

Lemma islink_new_file (p : string) :
  Fs.islink (Fs.set f k (File data false)) p = Fs.islink f p.
Proof.
unfold Fs.islink. destruct (String.eqb_spec k p) as [->|N].
- now rewrite lstat_set_eq, Hnew.
- now rewrite (lstat_set_ne f _ N).
Qed.

Lemma children_new_file (d : string) :
  Path.child_name fl d k = None ->
  Fs.children fl (Fs.set f k (File data false)) d = Fs.children fl f d.
Proof.
intros Hc. clear Hnew. induction f as [|[k' n'] f' IH]; simpl.
- now rewrite Hc.
- destruct (String.eqb_spec k' k) as [->|N]; simpl.
  + reflexivity.
  + now rewrite IH.
Qed.

Lemma listdir_new_file (top : string) :
  (forall d', Fs.stat fl f top = Some (d', Dir) -> Path.child_name fl d' k = None) ->
  Fs.listdir fl (Fs.set f k (File data false)) top = Fs.listdir fl f top \/
  (exists e e', Fs.listdir fl (Fs.set f k (File data false)) top = Raise e /\
                Fs.listdir fl f top = Raise e').
Proof.
intros Hout. unfold Fs.listdir.
destruct (Fs.stat fl f top) as [[d' n]|] eqn:E.
- rewrite (stat_new_file _ E). destruct n; [now left| now left|].
  left. now rewrite children_new_file by (now apply Hout).
- right.
  destruct (Fs.stat fl (Fs.set f k (File data false)) top) as [[q n]|] eqn:E'; [|eauto].
  unfold Fs.stat in *. apply follow_new_file in E'. destruct E' as [E' | ->]; [congruence|].
  eauto.
Qed.

(** The walk does not see a new file that none of its directories lists. *)
Lemma walk_aux_new_file :
  forall fuel top,
    (forall path dirs files d',
        In (path, dirs, files) (Fs.walk_aux fl fuel f top) ->
        Fs.stat fl f path = Some (d', Dir) -> Path.child_name fl d' k = None) ->
    Fs.walk_aux fl fuel (Fs.set f k (File data false)) top = Fs.walk_aux fl fuel f top.
Proof.
induction fuel as [|fuel IH]; intros top Hout; [reflexivity|].
rewrite !walk_aux_S. rewrite walk_aux_S in Hout.
destruct (listdir_new_file top) as [E|(e & e' & E & E')].
- intros d' Hd'. destruct (Fs.listdir fl f top) as [names|e] eqn:El.
  + apply (Hout top _ _ d' (or_introl eq_refl) Hd').
  + unfold Fs.listdir in El. rewrite Hd' in El. discriminate.
- rewrite E. destruct (Fs.listdir fl f top) as [names|e] eqn:El; [|reflexivity].
  assert (Hfd : forall l, filter (fun n => Fs.isdir fl (Fs.set f k (File data false))
                                            (Path.join fl top n)) l =
                          filter (fun n => Fs.isdir fl f (Path.join fl top n)) l).
  { intros l. apply filter_ext. intros n. apply isdir_new_file. }
  assert (Hfn : forall l, filter (fun n => negb (Fs.isdir fl (Fs.set f k (File data false))
                                                  (Path.join fl top n))) l =
                          filter (fun n => negb (Fs.isdir fl f (Path.join fl top n))) l).
  { intros l. apply filter_ext. intros n. now rewrite isdir_new_file. }
  rewrite Hfd, Hfn. f_equal. apply flat_map_ext_in. intros d Hd.
  rewrite islink_new_file.
  destruct (Fs.islink f (Path.join fl top d)) eqn:Hl; [reflexivity|].
  apply IH. intros path dirs files d' Hin Hs.
  apply (Hout path dirs files d'); [|exact Hs].
  right. apply in_flat_map. exists d. split; [exact Hd|]. now rewrite Hl.
- now rewrite E, E'.
Qed.

Lemma length_set_new : length (Fs.set f k (File data false)) = S (length f).
Proof.
revert Hnew. induction f as [|[k' n'] f' IH]; simpl; [reflexivity|].
destruct (String.eqb_spec k' k); [discriminate|]. intros H. simpl. now rewrite IH.
Qed.

Lemma walk_new_file (top : string) :
  outside fl f top k ->
  Fs.walk fl (Fs.set f k (File data false)) top = Fs.walk fl f top.
Proof.
intros Hout. unfold Fs.walk at 1. rewrite length_set_new.
rewrite walk_aux_new_file.
- apply walk_fuel. lia.
- intros path dirs files d' Hin. rewrite walk_fuel in Hin by lia.
  now apply (Hout path dirs files d').
Qed.

Lemma outside_new_file (top k' : string) :
  outside fl f top k -> outside fl f top k' ->
  outside fl (Fs.set f k (File data false)) top k'.
Proof.
intros Hk Hk' path dirs files d' Hin Hs.
rewrite (walk_new_file Hk) in Hin.
apply (Hk' path dirs files d' Hin).
unfold Fs.stat in *. apply follow_new_file in Hs. destruct Hs as [Hs|Hs]; [exact Hs|].
discriminate.
Qed.

End NewFile.

End WithFlavour.
End FsFacts.

(* ================================================================== *)
(** * Facts about the monad *)

Lemma bind_Ok {A B} (c : M A) (k : A -> M B) (w w' : world) (b : B) :
  bind c k w = (Ok b, w') ->
  exists a w1, c w = (Ok a, w1) /\ k a w1 = (Ok b, w').
Proof.
unfold bind. destruct (c w) as [[a|e] w1]; [|discriminate].
intros H. now exists a, w1.
Qed.

Lemma bind_Raise {A B} (c : M A) (k : A -> M B) (w w' : world) (e : exn) :
  bind c k w = (Raise e, w') ->
  c w = (Raise e, w') \/ exists a w1, c w = (Ok a, w1) /\ k a w1 = (Raise e, w').
Proof.
unfold bind. destruct (c w) as [[a|e'] w1].
- intros H. right. now exists a, w1.
- intros [= <- <-]. now left.
Qed.

Lemma bind_step {A B} (c : M A) (k : A -> M B) (w w1 : world) (a : A) :
  c w = (Ok a, w1) -> bind c k w = k a w1.
Proof. unfold bind. now intros ->. Qed.

Lemma bind_fail {A B} (c : M A) (k : A -> M B) (w w1 : world) (e : exn) :
  c w = (Raise e, w1) -> bind c k w = (Raise e, w1).
Proof. unfold bind. now intros ->. Qed.

Ltac inv_bind H :=
  let a := fresh "a" in
  let w := fresh "w" in
  let H1 := fresh "H" in
  apply bind_Ok in H; destruct H as (a & w & H1 & H).

(* ================================================================== *)
(** * Facts about [get_paths] *)

Section GetPathsFacts.
Variable m : machine.
Variable self : Extractor.
Variable f : filesystem.
Variable dirpath template : string.

Lemma check_files_Ok (paths : list string) :
  (forall p, In p paths -> os_path_isfile m f (os_path_join m dirpath p) = true) ->
  check_files m f dirpath paths = Ok (map (os_path_join m dirpath) paths).
Proof.
  induction paths as [|p paths IH]; intros H; simpl; [reflexivity|].
  rewrite (H p (or_introl eq_refl)).
  rewrite IH; [reflexivity|]. intros q Hq. apply H. now right.
Qed.

Lemma check_files_inv (paths l : list string) :
  check_files m f dirpath paths = Ok l ->
  l = map (os_path_join m dirpath) paths /\
  forall p, In p l -> os_path_isfile m f p = true.
Proof.
  revert l. induction paths as [|p paths IH]; intros l; simpl.
  - intros [= <-]. split; [reflexivity|intros ? []].
  - destruct (os_path_isfile m f (os_path_join m dirpath p)) eqn:E; [|discriminate].
    destruct (check_files m f dirpath paths) as [l'|] eqn:C; simpl; [|discriminate].
    intros [= <-]. destruct (IH l' eq_refl) as [-> H]. split; [reflexivity|].
    intros q [<-|Hq]; [exact E|now apply H].
Qed.

Lemma check_files_Raise (paths : list string) (e : exn) :
  check_files m f dirpath paths = Raise e ->
  exists p, In p paths /\
            os_path_isfile m f (os_path_join m dirpath p) = false /\
            e = AssertionError ("missing " ++ os_path_join m dirpath p).
Proof.
  induction paths as [|p paths IH]; simpl; [discriminate|].
  destruct (os_path_isfile m f (os_path_join m dirpath p)) eqn:E.
  - destruct (check_files m f dirpath paths) as [l'|e'] eqn:C; simpl; [discriminate|].
    intros [= <-]. destruct (IH eq_refl) as (q & Hq & Hf & He).
    exists q. split; [now right|]. now split.
  - intros [= <-]. exists p. split; [now left|]. now split.
Qed.

(** Removing, one by one, paths that are all there leaves the rest. *)
Lemma remove_each_perm (xs : list string) :
  forall l rest, Permutation l (xs ++ rest)%list ->
                 exists l', remove_each xs l = Ok l' /\ Permutation l' rest.
Proof.
  induction xs as [|x xs IH]; intros l rest P; simpl.
  - exists l. split; [reflexivity|exact P].
  - assert (Hin : In x l).
    { apply Permutation_in with ((x :: xs) ++ rest)%list;
        [now apply Permutation_sym|now left]. }
    destruct (StrFacts.remove_In x l Hin) as (l1 & R & P1).
    unfold list_remove. rewrite R. simpl. apply IH.
    apply Permutation_cons_inv with x.
    apply perm_trans with l; [now apply Permutation_sym|exact P].
Qed.

(** The loop over the names stops at the first name that raises and
    otherwise appends what each name keeps. *)
Lemma get_paths_from_app (pre post : list string) :
  forall acc,
    get_paths_from m self f acc (pre ++ post)%list dirpath template =
    obind (get_paths_from m self f acc pre dirpath template)
          (fun l => get_paths_from m self f l post dirpath template).
Proof.
  induction pre as [|x pre IH]; intros acc; simpl; [reflexivity|].
  destruct (get_paths_body m self f dirpath template x); simpl; [apply IH|reflexivity].
Qed.

Lemma get_paths_from_acc (libraries : list string) :
  forall acc out,
    get_paths_from m self f acc libraries dirpath template = Ok out <->
    exists l, get_paths m self f libraries dirpath template = Ok l /\
              out = (acc ++ l)%list.
Proof.
  unfold get_paths.
  induction libraries as [|x libraries IH]; intros acc out; simpl.
  - split.
    + intros [= <-]. exists []. now rewrite app_nil_r.
    + intros (l & [= <-] & ->). now rewrite app_nil_r.
  - destruct (get_paths_body m self f dirpath template x) as [p|e]; simpl.
    + split.
      * intros H. apply IH in H. destruct H as (l & H & ->).
        exists (p ++ l)%list. split; [|now rewrite app_assoc].
        apply IH. exists l. now split.
      * intros (l & H & ->). apply IH in H. destruct H as (l0 & H & ->).
        apply IH. exists l0. split; [exact H|now rewrite app_assoc].
    + split; [discriminate|]. intros (l & H & _). discriminate.
Qed.

Lemma get_paths_single (libname : string) :
  get_paths m self f [libname] dirpath template =
  get_paths_body m self f dirpath template libname.
Proof.
  unfold get_paths. simpl.
  destruct (get_paths_body m self f dirpath template libname); reflexivity.
Qed.

(** What a whole call returns holds, for each name, what the name keeps. *)
Lemma get_paths_segment (pre post : list string) (libname : string) (out : list string) :
  get_paths m self f (pre ++ libname :: post)%list dirpath template = Ok out ->
  exists a b c,
    get_paths m self f pre dirpath template = Ok a /\
    get_paths_body m self f dirpath template libname = Ok b /\
    get_paths m self f post dirpath template = Ok c /\
    out = (a ++ b ++ c)%list.
Proof.
  unfold get_paths at 1. rewrite get_paths_from_app.
  fold (get_paths m self f pre dirpath template).
  destruct (get_paths m self f pre dirpath template) as [a|e]; simpl; [|discriminate].
  destruct (get_paths_body m self f dirpath template libname) as [b|e]; simpl;
    [|discriminate].
  intros H. apply get_paths_from_acc in H. destruct H as (c & Hc & ->).
  exists a, b, c. split; [reflexivity|]. split; [reflexivity|]. split; [exact Hc|now rewrite app_assoc].
Qed.

Lemma get_paths_raises_at (pre post : list string) (libname : string) (e : exn) :
  get_paths_body m self f dirpath template libname = Raise e ->
  (forall out, get_paths m self f (pre ++ libname :: post)%list dirpath template <> Ok out) /\
  (forall a, get_paths m self f pre dirpath template = Ok a ->
             get_paths m self f (pre ++ libname :: post)%list dirpath template = Raise e).
Proof.
  intros Hb. split.
  - intros out H. apply get_paths_segment in H.
    destruct H as (a & b & c & _ & Hb' & _). congruence.
  - intros a Ha. unfold get_paths in *. rewrite get_paths_from_app, Ha. simpl.
    now rewrite Hb.
Qed.

End GetPathsFacts.

(* ================================================================== *)
(** * The resolver *)

Section Resolver.
Import Examples.

(** C1.  In symlink mode, for a name whose matches hold at least one
    entry that is not a link: the call returns as soon as every match is
    a file, and what it returns for the name is, up to order, the
    greatest concrete path by string order together with every matched
    link; no other concrete path is kept.  In a call over several names
    the paths of the name are a segment of the result. *)
Theorem get_paths_symlink_mode_keeps_max_and_links :
  forall (m : machine) (self : Extractor) (f : filesystem)
         (dirpath template libname filename : string) (names : list string),
    symlinks self = true ->
    str_format template libname = Ok filename ->
    os_listdir m f dirpath = Ok names ->
    let matched := map (os_path_join m dirpath) (fnmatch_filter m names filename) in
    let concrete := filter (fun p => negb (os_path_islink f p)) matched in
    let links := filter (os_path_islink f) matched in
    concrete <> [] ->
    exists target,
      py_max concrete = Ok target /\
      In target concrete /\
      (forall c, In c concrete -> String.leb c target = true) /\
      ((forall p, In p matched -> os_path_isfile m f p = true) ->
       exists out, get_paths m self f [libname] dirpath template = Ok out) /\
      (forall out,
          get_paths m self f [libname] dirpath template = Ok out ->
          Permutation out (target :: links) /\
          (forall c, In c concrete -> c <> target -> ~ In c out)) /\
      (forall pre post every,
          get_paths m self f (pre ++ libname :: post)%list dirpath template = Ok every ->
          exists a out c,
            every = (a ++ out ++ c)%list /\
            get_paths m self f [libname] dirpath template = Ok out).
Proof.
  intros m self f dirpath template libname filename names Hsym Hfmt Hls
         matched concrete links Hne.
  destruct concrete as [|c0 cr] eqn:Ec; [congruence|].
  set (target := Str.max_from c0 cr).
  assert (Hin : In target (c0 :: cr)) by apply StrFacts.max_from_In.
  destruct (StrFacts.remove_In target (c0 :: cr) Hin) as (c' & R & P).
  destruct (@remove_each_perm c' matched (target :: links)) as (kept & Hkept & Pkept).
  { apply perm_trans with ((c0 :: cr) ++ links)%list.
    - rewrite <- Ec. apply StrFacts.filter_split.
    - apply perm_trans with ((target :: c') ++ links)%list.
      + now apply Permutation_app_tail.
      + simpl. apply Permutation_middle. }
  assert (Hred : get_paths_body m self f dirpath template libname =
                 obind (check_files m f dirpath (fnmatch_filter m names filename))
                       (fun _ => Ok kept)).
  { unfold get_paths_body. rewrite Hfmt, Hls. cbn [obind].
    destruct (fnmatch_filter m names filename) as [|p0 ps] eqn:Ep.
    - unfold concrete, matched in Ec. simpl in Ec. discriminate.
    - rewrite Hsym. cbn [negb andb].
      destruct (check_files m f dirpath (p0 :: ps)) as [l|e] eqn:Hc; cbn [obind];
        [|reflexivity].
      apply check_files_inv in Hc. destruct Hc as [-> _].
      change (map (os_path_join m dirpath) (p0 :: ps)) with matched.
      change (filter (fun x => negb (os_path_islink f x)) matched) with concrete.
      rewrite Ec. cbn [py_max obind]. fold target.
      unfold list_remove. rewrite R. cbn [obind]. exact Hkept. }
  exists target. split; [reflexivity|]. split; [exact Hin|].
  split; [intros c Hc; now apply StrFacts.max_from_greatest|].
  split; [|split].
  - intros Hfiles. rewrite get_paths_single, Hred, check_files_Ok.
    + exists kept. reflexivity.
    + intros p Hp. apply Hfiles. unfold matched. now apply in_map.
  - intros out Hout. rewrite get_paths_single, Hred in Hout.
    destruct (check_files m f dirpath (fnmatch_filter m names filename));
      cbn [obind] in Hout; [|discriminate].
    injection Hout as <-. split; [exact Pkept|].
    intros c Hc Hnt Hco.
    apply (Permutation_in _ Pkept) in Hco. destruct Hco as [E|Hl]; [congruence|].
    rewrite <- Ec in Hc. unfold concrete in Hc. apply filter_In in Hc.
    unfold links in Hl. apply filter_In in Hl.
    destruct Hc as [_ Hc], Hl as [_ Hl]. rewrite Hl in Hc. discriminate.
  - intros pre post every H. apply get_paths_segment in H.
    destruct H as (a & b & c & _ & Hb & _ & ->).
    exists a, b, c. split; [reflexivity|]. now rewrite get_paths_single.
Qed.

(** The directory of the specification: [libfoo.so.3] and the link
    [libfoo.so.2] are kept, [libfoo.so.1] is dropped. *)
Lemma get_paths_symlink_mode_libfoo :
  symlinks linux_self = true /\
  str_format "lib{0}.so*" "foo" = Ok "libfoo.so*" /\
  os_listdir linux_box fs_libfoo "/d" = Ok ["libfoo.so.1"; "libfoo.so.2"; "libfoo.so.3"] /\
  exists out,
    get_paths linux_box linux_self fs_libfoo ["foo"] "/d" "lib{0}.so*" = Ok out /\
    Permutation out ["/d/libfoo.so.3"; "/d/libfoo.so.2"] /\
    ~ In "/d/libfoo.so.1" out.
Proof.
  split; [reflexivity|]. split; [reflexivity|]. split; [reflexivity|].
  destruct (@get_paths_symlink_mode_keeps_max_and_links
              linux_box linux_self fs_libfoo "/d" "lib{0}.so*" "foo" "libfoo.so*"
              ["libfoo.so.1"; "libfoo.so.2"; "libfoo.so.3"]
              eq_refl eq_refl eq_refl)
    as (target & Hmax & _ & _ & Htotal & Hset & _).
  - vm_compute. discriminate.
  - vm_compute in Hmax. injection Hmax as <-.
    destruct Htotal as (out & Hout).
    + intros p Hp. vm_compute in Hp.
      destruct Hp as [<-|[<-|[<-|[]]]]; reflexivity.
    + exists out. split; [exact Hout|].
      destruct (Hset out Hout) as (P & Hdrop). split; [exact P|].
      apply Hdrop.
      * vm_compute. now left.
      * discriminate.
Defined.

(** C2.  A name whose pattern matches no entry of the directory makes
    the call raise the error "Cannot find item", which names the library
    and the pattern; no list of paths is returned, whatever the other
    names of the call are, and the error is this one as soon as the
    names before it resolve. *)
Theorem get_paths_no_match_not_found :
  forall (m : machine) (self : Extractor) (f : filesystem)
         (dirpath template libname filename : string) (names : list string),
    str_format template libname = Ok filename ->
    os_listdir m f dirpath = Ok names ->
    fnmatch_filter m names filename = [] ->
    get_paths m self f [libname] dirpath template =
      Raise (RuntimeError (cannot_find_msg libname filename)) /\
    forall pre post,
      (forall out,
          get_paths m self f (pre ++ libname :: post)%list dirpath template <> Ok out) /\
      (forall a,
          get_paths m self f pre dirpath template = Ok a ->
          get_paths m self f (pre ++ libname :: post)%list dirpath template =
            Raise (RuntimeError (cannot_find_msg libname filename))).
Proof.
  intros m self f dirpath template libname filename names Hfmt Hls Hnone.
  assert (Hb : get_paths_body m self f dirpath template libname =
               Raise (RuntimeError (cannot_find_msg libname filename))).
  { unfold get_paths_body. rewrite Hfmt, Hls. cbn [obind]. now rewrite Hnone. }
  split; [now rewrite get_paths_single|].
  intros pre post. now apply get_paths_raises_at.
Qed.

Lemma get_paths_no_match_libbar :
  str_format "lib{0}.so*" "bar" = Ok "libbar.so*" /\
  os_listdir linux_box fs_libfoo "/d" = Ok ["libfoo.so.1"; "libfoo.so.2"; "libfoo.so.3"] /\
  fnmatch_filter linux_box ["libfoo.so.1"; "libfoo.so.2"; "libfoo.so.3"] "libbar.so*" = [] /\
  get_paths linux_box linux_self fs_libfoo ["bar"] "/d" "lib{0}.so*" =
    Raise (RuntimeError "Cannot find item: bar, looked for libbar.so*") /\
  get_paths linux_box linux_self fs_libfoo ["foo"; "bar"] "/d" "lib{0}.so*" =
    Raise (RuntimeError "Cannot find item: bar, looked for libbar.so*").
Proof.
  split; [reflexivity|]. split; [reflexivity|]. split; [reflexivity|].
  destruct (@get_paths_no_match_not_found
              linux_box linux_self fs_libfoo "/d" "lib{0}.so*" "bar" "libbar.so*"
              ["libfoo.so.1"; "libfoo.so.2"; "libfoo.so.3"]
              eq_refl eq_refl eq_refl) as (H1 & H2).
  split; [exact H1|].
  destruct (H2 ["foo"] []) as (_ & H3).
  apply (H3 ["/d/libfoo.so.2"; "/d/libfoo.so.3"]). reflexivity.
Defined.

(** C3.  With aliasing refused ([symlinks] unset, the Windows mode), a
    name whose pattern matches two entries or more makes the call raise
    the error "Aliasing present", which lists the matches; none of them
    is returned. *)
Theorem get_paths_aliasing_rejected :
  forall (m : machine) (self : Extractor) (f : filesystem)
         (dirpath template libname filename : string) (names : list string),
    symlinks self = false ->
    str_format template libname = Ok filename ->
    os_listdir m f dirpath = Ok names ->
    2 <= length (fnmatch_filter m names filename) ->
    get_paths m self f [libname] dirpath template =
      Raise (RuntimeError
               (aliasing_msg libname filename (fnmatch_filter m names filename))) /\
    forall pre post,
      (forall out,
          get_paths m self f (pre ++ libname :: post)%list dirpath template <> Ok out) /\
      (forall a,
          get_paths m self f pre dirpath template = Ok a ->
          get_paths m self f (pre ++ libname :: post)%list dirpath template =
            Raise (RuntimeError
                     (aliasing_msg libname filename (fnmatch_filter m names filename)))).
Proof.
  intros m self f dirpath template libname filename names Hsym Hfmt Hls Hmany.
  assert (Hb : get_paths_body m self f dirpath template libname =
               Raise (RuntimeError
                        (aliasing_msg libname filename (fnmatch_filter m names filename)))).
  { unfold get_paths_body. rewrite Hfmt, Hls. cbn [obind].
    destruct (fnmatch_filter m names filename) as [|p0 [|p1 ps]]; simpl in Hmany;
      [lia|lia|].
    rewrite Hsym. reflexivity. }
  split; [now rewrite get_paths_single|].
  intros pre post. now apply get_paths_raises_at.
Qed.

Lemma get_paths_aliasing_libfoo :
  symlinks strict_self = false /\
  str_format "lib{0}.so*" "foo" = Ok "libfoo.so*" /\
  os_listdir linux_box fs_libfoo "/d" = Ok ["libfoo.so.1"; "libfoo.so.2"; "libfoo.so.3"] /\
  2 <= length (fnmatch_filter linux_box ["libfoo.so.1"; "libfoo.so.2"; "libfoo.so.3"]
                 "libfoo.so*") /\
  exists msg,
    get_paths linux_box strict_self fs_libfoo ["foo"] "/d" "lib{0}.so*" =
      Raise (RuntimeError msg) /\
    Str.startswith msg "Aliasing present for item: foo, looked for libfoo.so*" = true.
Proof.
  split; [reflexivity|]. split; [reflexivity|]. split; [reflexivity|].
  assert (H : 2 <= length (fnmatch_filter linux_box
                             ["libfoo.so.1"; "libfoo.so.2"; "libfoo.so.3"] "libfoo.so*")).
  { vm_compute. lia. }
  split; [exact H|].
  destruct (@get_paths_aliasing_rejected
              linux_box strict_self fs_libfoo "/d" "lib{0}.so*" "foo" "libfoo.so*"
              ["libfoo.so.1"; "libfoo.so.2"; "libfoo.so.3"]
              eq_refl eq_refl eq_refl H) as (H1 & _).
  eexists. split; [exact H1|]. vm_compute. reflexivity.
Defined.

(** C10, as the code has it.  In symlink mode, a name whose matches are
    all links, and at least one, never resolves and never raises "Cannot
    find item": when every matched link leads to a regular file the call
    raises the [ValueError] of [max] on an empty sequence; when one does
    not, the assertion on the files fails first. *)
Theorem get_paths_only_links_fails :
  forall (m : machine) (self : Extractor) (f : filesystem)
         (dirpath template libname filename : string) (names : list string),
    symlinks self = true ->
    str_format template libname = Ok filename ->
    os_listdir m f dirpath = Ok names ->
    let matched := map (os_path_join m dirpath) (fnmatch_filter m names filename) in
    matched <> [] ->
    (forall p, In p matched -> os_path_islink f p = true) ->
    ((forall p, In p matched -> os_path_isfile m f p = true) ->
     get_paths m self f [libname] dirpath template =
       Raise (ValueError "max() arg is an empty sequence")) /\
    (forall p, In p matched -> os_path_isfile m f p = false ->
       exists q, In q matched /\ os_path_isfile m f q = false /\
                 get_paths m self f [libname] dirpath template =
                   Raise (AssertionError ("missing " ++ q))) /\
    (forall out, get_paths m self f [libname] dirpath template <> Ok out) /\
    get_paths m self f [libname] dirpath template <>
      Raise (RuntimeError (cannot_find_msg libname filename)).
Proof.
  intros m self f dirpath template libname filename names Hsym Hfmt Hls
         matched Hne Hlinks.
  assert (Hnil : filter (fun x => negb (os_path_islink f x)) matched = []).
  { clear Hne. induction matched as [|a l IH]; [reflexivity|]. simpl.
    rewrite (Hlinks a (or_introl eq_refl)). simpl. apply IH.
    intros p Hp. apply Hlinks. now right. }
  assert (Hred : get_paths_body m self f dirpath template libname =
                 obind (check_files m f dirpath (fnmatch_filter m names filename))
                       (fun _ => Raise (ValueError "max() arg is an empty sequence"))).
  { unfold get_paths_body. rewrite Hfmt, Hls. cbn [obind].
    destruct (fnmatch_filter m names filename) as [|p0 ps] eqn:Ep.
    - exfalso. apply Hne. reflexivity.
    - rewrite Hsym. cbn [negb andb].
      destruct (check_files m f dirpath (p0 :: ps)) as [l|e] eqn:Hc; cbn [obind];
        [|reflexivity].
      apply check_files_inv in Hc. destruct Hc as [-> _].
      change (map (os_path_join m dirpath) (p0 :: ps)) with matched.
      rewrite Hnil. reflexivity. }
  rewrite get_paths_single, Hred.
  split; [|split; [|split]].
  - intros Hfiles. rewrite check_files_Ok; [reflexivity|].
    intros p Hp. apply Hfiles. unfold matched. now apply in_map.
  - intros p Hp Hnf.
    destruct (check_files m f dirpath (fnmatch_filter m names filename)) as [l|e] eqn:Hc.
    + apply check_files_inv in Hc. destruct Hc as [-> Hall].
      rewrite (Hall p Hp) in Hnf. discriminate.
    + apply check_files_Raise in Hc. destruct Hc as (q & Hq & Hqf & ->).
      exists (os_path_join m dirpath q). split; [unfold matched; now apply in_map|].
      split; [exact Hqf|reflexivity].
  - intros out.
    destruct (check_files m f dirpath (fnmatch_filter m names filename)); discriminate.
  - destruct (check_files m f dirpath (fnmatch_filter m names filename)) as [l|e] eqn:Hc;
      cbn [obind]; [discriminate|].
    apply check_files_Raise in Hc. destruct Hc as (q & _ & _ & ->). discriminate.
Qed.

Lemma get_paths_only_links_other_bin :
  symlinks linux_self = true /\
  str_format "lib{0}.so*" "foo" = Ok "libfoo.so*" /\
  os_listdir linux_box fs_only_link "/d" = Ok ["libfoo.so"; "other.bin"] /\
  map (os_path_join linux_box "/d")
      (fnmatch_filter linux_box ["libfoo.so"; "other.bin"] "libfoo.so*") = ["/d/libfoo.so"] /\
  os_path_islink fs_only_link "/d/libfoo.so" = true /\
  os_path_isfile linux_box fs_only_link "/d/libfoo.so" = true /\
  get_paths linux_box linux_self fs_only_link ["foo"] "/d" "lib{0}.so*" =
    Raise (ValueError "max() arg is an empty sequence").
Proof.
  split; [reflexivity|]. split; [reflexivity|]. split; [reflexivity|].
  split; [reflexivity|]. split; [reflexivity|]. split; [reflexivity|].
  destruct (@get_paths_only_links_fails
              linux_box linux_self fs_only_link "/d" "lib{0}.so*" "foo" "libfoo.so*"
              ["libfoo.so"; "other.bin"] eq_refl eq_refl eq_refl) as (H & _).
  - vm_compute. discriminate.
  - intros p Hp. vm_compute in Hp. destruct Hp as [<-|[]]. reflexivity.
  - apply H. intros p Hp. vm_compute in Hp. destruct Hp as [<-|[]]. reflexivity.
Defined.

(** The only match is a link, the link leads nowhere: the error is the
    failed assertion, not the one of [max]. *)
Lemma get_paths_dangling_link_asserts :
  symlinks linux_self = true /\
  os_listdir linux_box fs_dangling "/d" = Ok ["libfoo.so"] /\
  map (os_path_join linux_box "/d")
      (fnmatch_filter linux_box ["libfoo.so"] "libfoo.so*") = ["/d/libfoo.so"] /\
  os_path_islink fs_dangling "/d/libfoo.so" = true /\
  get_paths linux_box linux_self fs_dangling ["foo"] "/d" "lib{0}.so*" =
    Raise (AssertionError "missing /d/libfoo.so") /\
  get_paths linux_box linux_self fs_dangling ["foo"] "/d" "lib{0}.so*" <>
    Raise (ValueError "max() arg is an empty sequence").
Proof.
  repeat (split; [reflexivity|]). discriminate.
Qed.

End Resolver.


(* ================================================================== *)
(** * The constructor *)

Section Constructor.
Import Examples.
Variable m : machine.

Lemma split_two_or_more (ver : string) :
  1 <= Str.count "." ver ->
  exists a b rest, Str.split "." ver = a :: b :: rest.
Proof.
intros H. pose proof (StrFacts.split_length "." ver) as L.
destruct (Str.split "." ver) as [|a [|b rest]]; simpl in L; try lia.
now exists a, b, rest.
Qed.

(** A version string with a dot passes the check of lines 135 to 140,
    with its first two or three parts. *)
Lemma version_parts_Ok (ver : string) :
  1 <= Str.count "." ver ->
  exists major minor rest,
    Str.split "." ver = major :: minor :: rest /\
    version_parts ver = Ok (major, minor, hd_error rest).
Proof.
intros H. destruct (split_two_or_more ver H) as (a & b & rest & E).
exists a, b, rest. split; [exact E|].
unfold version_parts. rewrite E. now destruct rest.
Qed.

Lemma version_parts_inv (ver major minor : string) (micro : option string) :
  version_parts ver = Ok (major, minor, micro) ->
  exists rest, Str.split "." ver = major :: minor :: rest /\ micro = hd_error rest.
Proof.
unfold version_parts.
destruct (Str.split "." ver) as [|a [|b [|c rest]]]; try discriminate;
  intros [= <- <- <-]; eexists; split; reflexivity.
Qed.

(** The constructor returns to no caller, and leaves the machine as it
    found it: what it raises, it raises at line 156 at the latest. *)
Lemma Extractor_init_never_returns (platform ver : string) (w : world) :
  exists e, Extractor_init m platform ver w = (Raise e, w).
Proof.
unfold Extractor_init, bind, lift, global_ver_config, raise.
destruct (version_parts ver) as [[[ma mi] mc]|e]; [|eauto].
destruct (CONFIG_item (CONFIG m) platform) as [[l|d]|e]; [eauto| |eauto].
cbn [ret].
repeat match goal with
       | |- context [item_str ?d ?k] => destruct (item_str d k); [|eauto]
       end.
destruct (item_list d "patches"); eauto.
Qed.

(** For the two platforms and a version string that passes the check,
    the error is the [NameError] of line 156. *)
Lemma Extractor_init_NameError (platform ver : string) (w : world) :
  1 <= Str.count "." ver ->
  platform = "linux" \/ platform = "windows" ->
  Extractor_init m platform ver w = (Raise (NameError "ver_config"), w).
Proof.
intros Hd Hp. destruct (version_parts_Ok ver Hd) as (a & b & rest & _ & E).
unfold Extractor_init, bind, lift. rewrite E.
destruct Hp as [-> | ->]; reflexivity.
Qed.

(** C4, as the code has it.  The constructor raises the [ValueError]
    "not a valid version string", with the machine untouched, exactly for
    the version strings that hold no dot.  A string with a dot passes the
    check whatever its components are: they are not required to be
    numbers, and those after the third are ignored. *)
Theorem Extractor_init_version_check :
  forall (platform ver : string) (w : world),
    (Str.count "." ver = 0 ->
     Extractor_init m platform ver w =
       (Raise (ValueError (repr ver ++ " not a valid version string")), w)) /\
    (1 <= Str.count "." ver ->
     forall msg,
       fst (Extractor_init m platform ver w) <> Raise (ValueError msg)) /\
    (1 <= Str.count "." ver ->
     exists major minor rest,
       Str.split "." ver = major :: minor :: rest /\
       version_parts ver = Ok (major, minor, hd_error rest)).
Proof.
intros platform ver w. split; [|split].
- intros H0. pose proof (StrFacts.split_length "." ver) as L. rewrite H0 in L.
  unfold Extractor_init, bind, lift, version_parts.
  destruct (Str.split "." ver) as [|a [|b rest]]; simpl in L; try lia.
  reflexivity.
- intros H1 msg. destruct (version_parts_Ok ver H1) as (a & b & rest & _ & E).
  unfold Extractor_init, bind, lift, global_ver_config, raise. rewrite E.
  destruct (CONFIG_item (CONFIG m) platform) as [[l|d]|e] eqn:Ec.
  + discriminate.
  + cbn [ret].
    assert (Hs : forall k v, item_str d k <> Raise (ValueError v)).
    { intros k v. unfold item_str. destruct (Dict.get d k) as [[| |]|]; discriminate. }
    repeat match goal with
           | |- context [item_str ?d ?k] =>
               let Ei := fresh "Ei" in
               destruct (item_str d k) eqn:Ei;
               [|cbn [fst]; intros C; apply (Hs k msg); congruence]
           end.
    unfold item_list. destruct (Dict.get d "patches") as [[| |]|]; discriminate.
  + cbn [fst]. intros [= ->]. revert Ec. clear.
    induction (CONFIG m) as [|[k v] l IH]; cbn [CONFIG_item]; [discriminate|].
    destruct (String.eqb k platform); [discriminate|exact IH].
- intros H1. now apply version_parts_Ok.
Qed.

End Constructor.

Section ConstructorExamples.
Import Examples.

(** The one-component string is refused before anything else happens. *)
Lemma Extractor_init_refuses_11 :
  Str.count "." "11" = 0 /\
  Extractor_init linux_box "linux" "11" w_root =
    (Raise (ValueError "'11' not a valid version string"), w_root).
Proof.
split; [reflexivity|].
exact (proj1 (Extractor_init_version_check linux_box "linux" "11" w_root) eq_refl).
Defined.

(** The string [a.b.c] passes the version check, with the parts [a],
    [b] and [c]: the constructor goes on to line 156 and raises the
    error of that line, which is no [ValueError]. *)
Lemma Extractor_init_a_b_c_is_no_ValueError :
  version_parts "a.b.c" = Ok ("a", "b", Some "c") /\
  Extractor_init linux_box "linux" "a.b.c" w_root =
    (Raise (NameError "ver_config"), w_root) /\
  forall msg,
    fst (Extractor_init linux_box "linux" "a.b.c" w_root) <> Raise (ValueError msg).
Proof.
split; [reflexivity|]. split; [reflexivity|]. intros msg. discriminate.
Qed.

End ConstructorExamples.


(* ================================================================== *)
(** * The Windows extractor and the end of a run *)

Module DictFacts.

Lemma get_set (d : pydict) (k k' : string) (v : pyval) :
  Dict.get (Dict.set d k v) k' = if String.eqb k k' then Some v else Dict.get d k'.
Proof.
induction d as [|[k0 v0] d IH]; simpl.
- reflexivity.
- destruct (String.eqb_spec k0 k) as [->|N]; simpl.
  + destruct (String.eqb k k'); reflexivity.
  + destruct (String.eqb_spec k0 k') as [->|N'].
    * destruct (String.eqb_spec k k'); [congruence|reflexivity].
    * exact IH.
Qed.

(** A key that the second dictionary does not bind keeps the value the
    first one gives it. *)
Lemma get_merge_absent (b : pydict) :
  forall (a : pydict) (k : string),
    Dict.get b k = None -> Dict.get (Dict.merge a b) k = Dict.get a k.
Proof.
unfold Dict.merge. induction b as [|[k0 v0] b IH]; intros a k H; simpl; [reflexivity|].
simpl in H. destruct (String.eqb_spec k0 k) as [->|N]; [discriminate|].
rewrite IH by exact H. rewrite get_set.
destruct (String.eqb_spec k0 k); [contradiction|reflexivity].
Qed.

End DictFacts.

Section Windows.
Import Examples.
Variable m : machine.

(** The removal of a tree raises nothing but [PermissionError]. *)
Lemma shutil_rmtree_raises (top : string) (w w' : world) (e : exn) :
  Fs.exists_ (os_flavour m) (fs w) top = true ->
  shutil_rmtree m top w = (Raise e, w') -> exists k, e = PermissionError k.
Proof.
unfold shutil_rmtree, Fs.exists_, Fs.stat. intros Hex.
destruct (Fs.lstat (fs w) top) eqn:E.
- destruct (Fs.rmtree_aux (os_flavour m) top (rev (fs w))) as [[k|] f];
    [|discriminate]. intros [= <- _]. now exists k.
- unfold Fs.MAXSYMLINKS in Hex. simpl in Hex. rewrite E in Hex. discriminate.
Qed.

(** C6.  A [PermissionError] that comes out of the block of the [with]
    statement is swallowed, wherever in the block it was raised: in the
    unpacking, in the flattening of the tree, in the NvToolsExt merge or
    in the final copy.  [extract] returns normally. *)
Theorem WindowsExtractor_extract_swallows_PermissionError :
  forall (self : Extractor) (w w1 : world) (tmpd : string),
    mkdtemp m w = (Ok tmpd, w1) ->
    let store := os_path_join m tmpd "DLLs" in
    (forall p w2,
        extract_block m self tmpd w1 = (Raise (PermissionError p), w2) ->
        exists w3, WindowsExtractor_extract m self w = (Ok tt, w3)) /\
    (forall p w2,
        unpack m self tmpd w1 = (Raise (PermissionError p), w2) ->
        exists w3, WindowsExtractor_extract m self w = (Ok tt, w3)) /\
    (forall extractdir nvt_path wa wb wc,
        unpack m self tmpd w1 = (Ok extractdir, wa) ->
        check_nvt_path m self wa = (Ok nvt_path, wb) ->
        os_mkdir m store wb = (Ok tt, wc) ->
        (forall p w2,
            flatten m extractdir store wc = (Raise (PermissionError p), w2) ->
            exists w3, WindowsExtractor_extract m self w = (Ok tt, w3)) /\
        (forall wd,
            flatten m extractdir store wc = (Ok tt, wd) ->
            (forall p w2,
                merge_nvtoolsext m nvt_path store wd = (Raise (PermissionError p), w2) ->
                exists w3, WindowsExtractor_extract m self w = (Ok tt, w3)) /\
            (forall we p w2,
                merge_nvtoolsext m nvt_path store wd = (Ok tt, we) ->
                WindowsExtractor_copy m self store we = (Raise (PermissionError p), w2) ->
                exists w3, WindowsExtractor_extract m self w = (Ok tt, w3)))).
Proof.
intros self w w1 tmpd Htmp store.
assert (Hblock : forall p w2,
           extract_block m self tmpd w1 = (Raise (PermissionError p), w2) ->
           exists w3, WindowsExtractor_extract m self w = (Ok tt, w3)).
{ intros p w2 Hb.
  unfold WindowsExtractor_extract, except_PermissionError_pass, with_tempdir.
  rewrite Htmp, Hb.
  destruct (Fs.exists_ (os_flavour m) (fs w2) tmpd) eqn:Hex; [|eauto].
  destruct (shutil_rmtree m tmpd w2) as [[u|e] w3] eqn:Hrm; [eauto|].
  destruct (shutil_rmtree_raises tmpd w2 Hex Hrm) as (k & ->). eauto. }
split; [exact Hblock|]. split.
- intros p w2 H. apply (Hblock p w2). unfold extract_block.
  now rewrite (bind_fail _ _ _ H).
- intros extractdir nvt_path wa wb wc Hu Hn Hm.
  assert (Hpre : extract_block m self tmpd w1 =
                 bind (flatten m extractdir store)
                      (fun _ => bind (merge_nvtoolsext m nvt_path store)
                                     (fun _ => WindowsExtractor_copy m self store)) wc).
  { unfold extract_block. rewrite (bind_step _ _ _ Hu), (bind_step _ _ _ Hn).
    fold store. now rewrite (bind_step _ _ _ Hm). }
  split.
  + intros p w2 H. apply (Hblock p w2). rewrite Hpre. now rewrite (bind_fail _ _ _ H).
  + intros wd Hf. rewrite (bind_step _ _ _ Hf) in Hpre. split.
    * intros p w2 H. apply (Hblock p w2). rewrite Hpre. now rewrite (bind_fail _ _ _ H).
    * intros we p w2 Hmg H. apply (Hblock p w2). rewrite Hpre.
      now rewrite (bind_step _ _ _ Hmg).
Qed.

End Windows.

Section WindowsExamples.
Import Examples.

(** The installer leaves libraries that cannot be opened: the flattening
    raises [PermissionError], no library reaches the prefix, and
    [extract] returns all the same. *)
Lemma extract_on_locked_installer :
  exists tmpd w1 p w2 w3,
    mkdtemp locked_box w_windows = (Ok tmpd, w1) /\
    extract_block locked_box windows_self tmpd w1 = (Raise (PermissionError p), w2) /\
    WindowsExtractor_extract locked_box windows_self w_windows = (Ok tt, w3).
Proof.
destruct (mkdtemp locked_box w_windows) as [[tmpd|e] w1] eqn:E1.
2: { vm_compute in E1. discriminate E1. }
assert (E1' := E1). vm_compute in E1'. injection E1' as <- <-.
destruct (extract_block locked_box windows_self "c:\tmp\tmpabcdefgh"
            {| fs := [("c:", Dir); ("c:\tmp", Dir); ("c:\nvt", Dir);
                      ("c:\nvt\nvToolsExt64_1.dll", File [x02] false);
                      ("c:\nvt\cublas64_11.dll", File [x03] false);
                      ("c:\nvt\readme.txt", File [x04] false);
                      ("c:\tmp\tmpabcdefgh", Dir)];
               stdout := []; seed := 1 |}) as [[u|e] w2] eqn:E2.
{ vm_compute in E2. discriminate E2. }
destruct e as [| | | | | | | | | | |p| | | |];
  try (vm_compute in E2; discriminate E2).
destruct (proj1 (@WindowsExtractor_extract_swallows_PermissionError
                   locked_box windows_self w_windows _ _ E1) p w2 E2) as (w3 & H3).
exists "c:\tmp\tmpabcdefgh". eexists. exists p, w2, w3.
split; [reflexivity|]. split; [exact E2|exact H3].
Defined.

End WindowsExamples.


(* ================================================================== *)
(** * The whole run *)

Section Run.
Variable m : machine.

(** What [dump_config] does to the machine. *)
Lemma dump_config_Ok (self : Extractor) (w w' : world) :
  dump_config m self w = (Ok tt, w') ->
  exists path,
    Fs.write_target (os_flavour m) Fs.MAXSYMLINKS (fs w) (dumpfile m self) = Ok path /\
    w' = with_fs w (Fs.set (fs w) path (File (yaml_dump m (config self)) false)) /\
    Fs.read (os_flavour m) (fs w') (dumpfile m self) = Some (yaml_dump m (config self)) /\
    (forall p, p <> path -> Fs.lstat (fs w') p = Fs.lstat (fs w) p).
Proof.
unfold dump_config, write_file.
destruct (Fs.write_target (os_flavour m) Fs.MAXSYMLINKS (fs w) (dumpfile m self))
  as [path|e] eqn:E; [|discriminate].
intros [= <-]. exists path. split; [reflexivity|]. split; [reflexivity|]. split.
- destruct (FsFacts.write_target_follow (os_flavour m) (fs w)
              (yaml_dump m (config self)) _ _ E) as [_ Hf].
  unfold Fs.read, Fs.stat. simpl. simpl in Hf. now rewrite Hf.
- intros p N. simpl. apply FsFacts.lstat_set_ne. congruence.
Qed.

(** C9, as the code has it.  No run is a successful run.  On a
    Windows platform [main] makes the extractor with the inherited
    constructor, which returns to no caller: for a version string that
    passes the check it stops at line 156, where the record would be
    made from the version and [ver_config], a name that nothing binds.
    Elsewhere [main] stops before that.  Every call of [main] raises,
    with the file system as it was: no configuration record is written. *)
Theorem main_never_dumps_config :
  forall (ver : string) (w : world),
    (forall w', main m ver w <> (Ok tt, w')) /\
    (exists e w', main m ver w = (Raise e, w') /\ fs w' = fs w) /\
    (getplatform m = Ok "windows" ->
     1 <= Str.count "." ver ->
     main m ver w =
       (Raise (NameError "ver_config"),
        {| fs := fs w; stdout := (stdout w ++ ["Running build"])%list;
           seed := seed w |})).
Proof.
intros ver w.
assert (Hall : exists e w', main m ver w = (Raise e, w') /\ fs w' = fs w).
{ unfold main, print, lift. unfold bind at 1 2.
  destruct (getplatform m) as [plat|e] eqn:Eg; [|eauto].
  unfold getplatform in Eg.
  destruct (Str.startswith (sys_platform m) "linux").
  - injection Eg as <-. unfold bind, DISPATCHER, construct. cbn. eauto.
  - destruct (Str.startswith (sys_platform m) "win"); [|discriminate Eg].
    injection Eg as <-. unfold bind at 1. cbn [DISPATCHER String.eqb Ascii.eqb Bool.eqb].
    unfold bind at 1, construct.
    destruct (Extractor_init_never_returns m "windows" ver
                {| fs := fs w; stdout := (stdout w ++ ["Running build"])%list;
                   seed := seed w |}) as (e & E).
    rewrite E. eauto. }
split; [|split; [exact Hall|]].
- intros w' C. destruct Hall as (e & w0 & E & _). congruence.
- intros Hg Hd. unfold main, print, lift. unfold bind at 1 2. rewrite Hg.
  unfold bind at 1. cbn [DISPATCHER String.eqb Ascii.eqb Bool.eqb].
  unfold bind at 1, construct.
  now rewrite (@Extractor_init_NameError m "windows" ver
                 {| fs := fs w; stdout := (stdout w ++ ["Running build"])%list;
                    seed := seed w |} Hd (or_intror eq_refl)).
Qed.

End Run.

Section RunExamples.
Import Examples.

(** The run for the version [11.0.3] on the Windows machine, with
    [PREFIX] and [SRC_DIR] set: [NameError], and no file where the record
    should be. *)
Lemma main_on_windows_box :
  getplatform windows_box = Ok "windows" /\
  1 <= Str.count "." "11.0.3" /\
  exists w',
    main windows_box "11.0.3" w_windows = (Raise (NameError "ver_config"), w') /\
    Fs.lstat (fs w') "c:\prefix\Library/bin\cudatoolkit_config.yaml" = None.
Proof.
assert (Hd : 1 <= Str.count "." "11.0.3") by (vm_compute; lia).
split; [reflexivity|]. split; [exact Hd|].
eexists. split.
- exact (proj2 (proj2 (main_never_dumps_config windows_box "11.0.3" w_windows))
           eq_refl Hd).
- reflexivity.
Defined.

End RunExamples.


(* ================================================================== *)
(** * The staging directory *)

Section Staging.
Variable m : machine.

Lemma extends_refl (f : filesystem) : extends f f.
Proof. intros q n H. exact H. Qed.

Lemma extends_trans (f g h : filesystem) : extends f g -> extends g h -> extends f h.
Proof. intros H1 H2 q n H. apply H2, H1, H. Qed.

Lemma extends_set_fresh (f : filesystem) (k : string) (v : node) :
  Fs.lstat f k = None -> extends f (Fs.set f k v).
Proof.
intros Hk q n H. rewrite FsFacts.lstat_set_ne; [exact H|]. intros ->. congruence.
Qed.

Lemma follow_extends (f f' : filesystem) :
  extends f f' ->
  forall fuel p r, Fs.follow (os_flavour m) fuel f p = Some r ->
                   Fs.follow (os_flavour m) fuel f' p = Some r.
Proof.
intros He. induction fuel as [|fuel IH]; intros p r; simpl;
  destruct (Fs.lstat f p) as [n|] eqn:E; try discriminate;
  rewrite (He _ _ E); destruct n; auto.
Qed.

Lemma isdir_extends (f f' : filesystem) (p : string) :
  extends f f' -> os_path_isdir m f p = true -> os_path_isdir m f' p = true.
Proof.
intros He. unfold os_path_isdir, Fs.isdir, Fs.stat.
destruct (Fs.follow (os_flavour m) Fs.MAXSYMLINKS f p) as [r|] eqn:E; [|discriminate].
now rewrite (follow_extends He _ _ E).
Qed.

Lemma read_extends (f f' : filesystem) (p : string) (data : list byte) :
  extends f f' -> Fs.read (os_flavour m) f p = Some data ->
  Fs.read (os_flavour m) f' p = Some data.
Proof.
intros He. unfold Fs.read, Fs.stat.
destruct (Fs.follow (os_flavour m) Fs.MAXSYMLINKS f p) as [r|] eqn:E; [|discriminate].
now rewrite (follow_extends He _ _ E).
Qed.

Lemma open_read_read (f : filesystem) (p : string) (data : list byte) :
  Fs.open_read (os_flavour m) f p = Ok data -> Fs.read (os_flavour m) f p = Some data.
Proof.
unfold Fs.open_read, Fs.read.
destruct (Fs.stat (os_flavour m) f p) as [[q [d l|t|]]|]; try discriminate.
destruct l; [discriminate|]. now intros [= <-].
Qed.

Lemma read_set_file (f : filesystem) (p : string) (data : list byte) (l : bool) :
  Fs.read (os_flavour m) (Fs.set f p (File data l)) p = Some data.
Proof.
unfold Fs.read, Fs.stat, Fs.MAXSYMLINKS. simpl. now rewrite FsFacts.lstat_set_eq.
Qed.

Lemma isfile_lstat_file (f : filesystem) (p : string) (d : list byte) (l : bool) :
  Fs.lstat f p = Some (File d l) -> os_path_isfile m f p = true.
Proof.
intros H. unfold os_path_isfile, Fs.isfile, Fs.stat, Fs.MAXSYMLINKS. simpl.
now rewrite H.
Qed.

Lemma isfile_lstat_none (f : filesystem) (p : string) :
  Fs.lstat f p = None -> os_path_isfile m f p = false.
Proof.
intros H. unfold os_path_isfile, Fs.isfile, Fs.stat, Fs.MAXSYMLINKS. simpl.
now rewrite H.
Qed.

(** What one guarded copy does when the name is free in the store or
    held by a regular file: nothing in the second case, a new file with
    the bytes of the source in the first. *)
Lemma fetch_Ok (store path filename : string) (w w' : world) :
  os_path_isdir m (fs w) store = true ->
  Path.has_sep (os_flavour m) filename = false ->
  free_or_file (fs w) (os_path_join m store filename) ->
  fetch m store path filename w = (Ok tt, w') ->
  ((exists d l, Fs.lstat (fs w) (os_path_join m store filename) = Some (File d l)) /\
   w' = w) \/
  (Fs.lstat (fs w) (os_path_join m store filename) = None /\
   exists data,
     Fs.open_read (os_flavour m) (fs w) (os_path_join m path filename) = Ok data /\
     w' = with_fs w (Fs.set (fs w) (os_path_join m store filename) (File data false))).
Proof.
intros Hdir Hn Hfree. unfold fetch.
destruct Hfree as [Hnone|(d & l & Hfile)].
- rewrite (isfile_lstat_none _ _ Hnone). cbn [negb]. intros H. right.
  split; [exact Hnone|].
  inv_bind H. unfold ret in H. injection H as <-.
  unfold shutil_copy in H0. rewrite Hdir in H0.
  unfold os_path_basename, os_path_join in H0.
  rewrite PathFacts.basename_join in H0 by exact Hn.
  fold (os_path_join m store filename) in H0.
  fold (os_path_join m path filename) in H0.
  destruct (Fs.samefile (os_flavour m) (fs w) (os_path_join m path filename)
              (os_path_join m store filename)); [discriminate|].
  destruct (Fs.open_read (os_flavour m) (fs w) (os_path_join m path filename))
    as [data|e]; [|discriminate].
  exists data. split; [reflexivity|].
  unfold write_file, Fs.MAXSYMLINKS in H0. simpl in H0. rewrite Hnone in H0.
  destruct (Fs.parent_ok (os_flavour m) (fs w) (os_path_join m store filename));
    [|discriminate].
  now injection H0 as _ <-.
- rewrite (isfile_lstat_file _ _ Hfile). cbn [negb]. intros [= <-]. left.
  split; [eauto|reflexivity].
Qed.

(** The loop of guarded copies: nothing that was there is replaced,
    what is new is in the store under the name of a file reached, and the
    first file reached under a name is the one the store holds. *)
Lemma fetch_all (store : string) :
  forall (cands : list (string * string)) (w w' : world),
    os_path_isdir m (fs w) store = true ->
    (forall p n, In (p, n) cands -> Path.has_sep (os_flavour m) n = false) ->
    (forall p n, In (p, n) cands ->
                 free_or_file (fs w) (os_path_join m store n)) ->
    for_each cands (fetch_pair m store) w = (Ok tt, w') ->
    extends (fs w) (fs w') /\
    (forall q, Fs.lstat (fs w) q = None -> Fs.lstat (fs w') q <> None ->
               exists p n, In (p, n) cands /\ q = os_path_join m store n) /\
    (forall pre p n post data,
        cands = (pre ++ (p, n) :: post)%list ->
        (forall p', ~ In (p', n) pre) ->
        Fs.lstat (fs w) (os_path_join m store n) = None ->
        Fs.read (os_flavour m) (fs w) (os_path_join m p n) = Some data ->
        Fs.read (os_flavour m) (fs w') (os_path_join m store n) = Some data).
Proof.
induction cands as [|[p0 n0] cands IH]; intros w w' Hdir Hplain Hfree H.
- injection H as <-. split; [apply extends_refl|]. split.
  + intros q H1 H2. contradiction.
  + intros [|? ?] ? ? ? ? E; discriminate E.
- cbn [for_each] in H. inv_bind H. destruct a. unfold fetch_pair in H0 at 1.
  cbn [fst snd] in H0.
  assert (Hn0 : Path.has_sep (os_flavour m) n0 = false)
    by (apply (Hplain p0 n0); now left).
  pose proof H0 as Hstep. apply fetch_Ok in Hstep;
    [|exact Hdir|exact Hn0|apply (Hfree p0 n0); now left].
  assert (Hext : extends (fs w) (fs w0)).
  { destruct Hstep as [[_ ->]|[Hnone (data & _ & ->)]];
      [apply extends_refl|now apply extends_set_fresh]. }
  assert (Hfree1 : forall p n, In (p, n) cands ->
                     free_or_file (fs w0) (os_path_join m store n)).
  { intros p n Hin. destruct (Hfree p n (or_intror Hin)) as [Hnone|(d & l & Hf)].
    - destruct Hstep as [[_ ->]|[_ (data & _ & ->)]]; [now left|]. simpl.
      destruct (String.eqb_spec (os_path_join m store n0) (os_path_join m store n))
        as [E|N].
      + right. rewrite <- E, FsFacts.lstat_set_eq. eauto.
      + left. now rewrite FsFacts.lstat_set_ne.
    - right. exists d, l. now apply Hext. }
  destruct (IH w0 w' (isdir_extends _ Hext Hdir)
              (fun p n Hin => Hplain p n (or_intror Hin)) Hfree1 H)
    as (Hext' & Hnew' & Hfirst').
  split; [now apply extends_trans with (fs w0)|]. split.
  + intros q Hq Hq'. destruct (Fs.lstat (fs w0) q) as [nd|] eqn:E0.
    * destruct Hstep as [[_ ->]|[_ (data & _ & ->)]]; [congruence|].
      simpl in E0.
      destruct (String.eqb_spec (os_path_join m store n0) q) as [E|N].
      -- exists p0, n0. split; [now left|now symmetry].
      -- rewrite FsFacts.lstat_set_ne in E0 by exact N. congruence.
    * destruct (Hnew' q E0 Hq') as (p & n & Hin & ->).
      exists p, n. split; [now right|reflexivity].
  + intros pre p n post data Ec Hpre Hnone Hread. destruct pre as [|[p1 n1] pre].
    * simpl in Ec. injection Ec as <- <- <-.
      destruct Hstep as [[(d & l & Hf) _]|[_ (data0 & Hopen & ->)]]; [congruence|].
      apply open_read_read in Hopen. rewrite Hread in Hopen. injection Hopen as <-.
      apply (read_extends _ Hext'). simpl. apply read_set_file.
    * simpl in Ec. injection Ec as <- <- ->.
      assert (Nn : n0 <> n).
      { intros ->. apply (Hpre p0). now left. }
      apply (Hfirst' pre p n post data eq_refl).
      -- intros p' Hin. apply (Hpre p'). now right.
      -- destruct Hstep as [[_ ->]|[_ (data0 & _ & ->)]]; [exact Hnone|]. simpl.
         rewrite FsFacts.lstat_set_ne; [exact Hnone|].
         intros E. apply Nn. unfold os_path_join in E.
         apply PathFacts.join_inj in E; [exact E|exact Hn0|].
         apply (Hplain p n). right. apply in_or_app. right. now left.
      -- now apply (read_extends _ Hext).
Qed.

Lemma free_or_file_set (f : filesystem) (k k' : string) (data : list byte) :
  free_or_file f k' -> free_or_file (Fs.set f k (File data false)) k'.
Proof.
intros H. destruct (String.eqb_spec k k') as [->|N].
- right. rewrite FsFacts.lstat_set_eq. eauto.
- unfold free_or_file. now rewrite (FsFacts.lstat_set_ne f _ N).
Qed.

(** The walk of a tree is the same before and after a loop of guarded
    copies whose destinations no directory of the walk lists: taking the
    walk before the loop, as [flatten] and [merge_nvtoolsext] do, or
    little by little while the loop runs, as the generator of [os.walk]
    does, makes no difference. *)
Lemma fetch_all_walk (store top : string) :
  forall (cands : list (string * string)) (w w' : world),
    os_path_isdir m (fs w) store = true ->
    (forall p n, In (p, n) cands -> Path.has_sep (os_flavour m) n = false) ->
    (forall p n, In (p, n) cands -> free_or_file (fs w) (os_path_join m store n)) ->
    (forall p n, In (p, n) cands ->
                 outside (os_flavour m) (fs w) top (os_path_join m store n)) ->
    for_each cands (fetch_pair m store) w = (Ok tt, w') ->
    os_walk m (fs w') top = os_walk m (fs w) top.
Proof.
induction cands as [|[p0 n0] cands IH]; intros w w' Hdir Hplain Hfree Hout H.
- now injection H as <-.
- cbn [for_each] in H. inv_bind H. destruct a. unfold fetch_pair in H0 at 1.
  cbn [fst snd] in H0.
  pose proof H0 as Hstep. apply fetch_Ok in Hstep;
    [|exact Hdir|apply (Hplain p0 n0); now left|apply (Hfree p0 n0); now left].
  destruct Hstep as [[_ ->]|[Hnone (data & _ & ->)]].
  + apply (IH w w'); try assumption; intros p n Hin;
      [apply (Hplain p n)|apply (Hfree p n)|apply (Hout p n)]; now right.
  + pose proof (Hout p0 n0 (or_introl eq_refl)) as Hout0.
    rewrite (IH (with_fs w (Fs.set (fs w) (os_path_join m store n0) (File data false)))
                w'); try exact H.
    * unfold os_walk. cbn [fs with_fs]. now apply FsFacts.walk_new_file.
    * cbn [fs with_fs]. apply isdir_extends with (fs w); [|exact Hdir].
      now apply extends_set_fresh.
    * intros p n Hin. apply (Hplain p n). now right.
    * intros p n Hin. cbn [fs with_fs]. apply free_or_file_set.
      apply (Hfree p n). now right.
    * intros p n Hin. cbn [fs with_fs]. apply FsFacts.outside_new_file; try assumption.
      apply (Hout p n). now right.
Qed.

End Staging.


Section StagingOrder.
Variable m : machine.

Lemma bind_assoc {A B C} (c : M A) (k : A -> M B) (k' : B -> M C) (w : world) :
  bind (bind c k) k' w = bind c (fun a => bind (k a) k') w.
Proof. unfold bind. destruct (c w) as [[a|e] w1]; reflexivity. Qed.

Lemma bind_ext {A B} (c : M A) (k k' : A -> M B) (w : world) :
  (forall a w1, k a w1 = k' a w1) -> bind c k w = bind c k' w.
Proof. intros H. unfold bind. destruct (c w) as [[a|e] w1]; [apply H|reflexivity]. Qed.

Lemma bind_cong {A B} (c c' : M A) (k k' : A -> M B) (w : world) :
  (forall w0, c w0 = c' w0) -> (forall a w1, k a w1 = k' a w1) ->
  bind c k w = bind c' k' w.
Proof.
intros Hc Hk. unfold bind. rewrite Hc.
destruct (c' w) as [[a|e] w1]; [apply Hk|reflexivity].
Qed.

Lemma for_each_app {A} (body : A -> M unit) (l1 l2 : list A) :
  forall w, for_each (l1 ++ l2)%list body w =
            bind (for_each l1 body) (fun _ => for_each l2 body) w.
Proof.
induction l1 as [|x l1 IH]; intros w; simpl; [reflexivity|].
rewrite bind_assoc. apply bind_ext. intros _ w1. apply IH.
Qed.

Lemma for_each_map {A B} (g : A -> B) (body : B -> M unit) (l : list A) :
  forall w, for_each (map g l) body w = for_each l (fun a => body (g a)) w.
Proof.
induction l as [|x l IH]; intros w; simpl; [reflexivity|].
apply bind_ext. intros _ w1. apply IH.
Qed.

Lemma for_each_flat_map {A B} (g : A -> list B) (body : B -> M unit) (l : list A) :
  forall w, for_each (flat_map g l) body w = for_each l (fun a => for_each (g a) body) w.
Proof.
induction l as [|x l IH]; intros w; simpl; [reflexivity|].
rewrite for_each_app. apply bind_ext. intros _ w1. apply IH.
Qed.

Lemma for_each_ext {A} (b1 b2 : A -> M unit) (l : list A) :
  (forall a w, b1 a w = b2 a w) -> forall w, for_each l b1 w = for_each l b2 w.
Proof.
intros H. induction l as [|x l IH]; intros w; simpl; [reflexivity|].
unfold bind. rewrite H. destruct (b2 x w) as [[u|e] w1]; [apply IH|reflexivity].
Qed.

Lemma fetch_matching_eq (store path : string) (files : list string) (pat : string) (w : world) :
  fetch_matching m store path files pat w =
  for_each (map (pair path) (fnmatch_filter m files pat)) (fetch_pair m store) w.
Proof. unfold fetch_matching. now rewrite for_each_map. Qed.

(** The loop of line 289 makes the guarded copies of [flatten_order]. *)
Lemma flatten_eq (extractdir store : string) (w : world) :
  flatten m extractdir store w =
  for_each (flatten_order m (os_walk m (fs w) extractdir)) (fetch_pair m store) w.
Proof.
unfold flatten, reads. cbn [bind]. unfold flatten_order.
rewrite for_each_flat_map. apply for_each_ext. intros [[path dirs] files] w1.
unfold flatten_dir, excluded.
destruct (Str.contains "jre" path); [reflexivity|].
destruct (Str.contains "GFExperience" path); [reflexivity|].
cbn [negb andb orb]. unfold wanted_files.
rewrite !map_app, for_each_app.
apply bind_cong; [intros w0; apply fetch_matching_eq|].
intros _ w2. rewrite for_each_app.
apply bind_cong; [intros w0; apply fetch_matching_eq|].
intros _ w3. apply fetch_matching_eq.
Qed.

(** The loop of line 310 makes the guarded copies of [merge_order]. *)
Lemma merge_eq (v store : string) (w : world) :
  merge_nvtoolsext m (Some v) store w =
  for_each (merge_order m (os_walk m (fs w) v)) (fetch_pair m store) w.
Proof.
unfold merge_nvtoolsext, reads. cbn [bind]. unfold merge_order.
rewrite for_each_flat_map. apply for_each_ext. intros [[path dirs] files] w1.
unfold merge_dir. apply fetch_matching_eq.
Qed.

Lemma fnmatch_filter_In (names : list string) (pat n : string) :
  In n (fnmatch_filter m names pat) -> In n names.
Proof. unfold fnmatch_filter, Fnmatch.filter. intros H. now apply filter_In in H. Qed.

(** What [flatten_order] and [merge_order] hold. *)
Lemma flatten_order_In (tree : list (string * list string * list string)) (p n : string) :
  In (p, n) (flatten_order m tree) <->
  exists dirs files,
    In (p, dirs, files) tree /\ excluded p = false /\
    (In n (fnmatch_filter m files "*.dll") \/ In n (fnmatch_filter m files "*.lib")
     \/ In n (fnmatch_filter m files "*.bc")).
Proof.
unfold flatten_order. rewrite in_flat_map. split.
- intros ([[path dirs] files] & Hin & H).
  destruct (excluded path) eqn:Ex; [destruct H|].
  apply in_map_iff in H. destruct H as (n' & [= <- <-] & Hn).
  exists dirs, files. split; [exact Hin|]. split; [exact Ex|].
  unfold wanted_files in Hn. apply in_app_or in Hn. destruct Hn as [Hn|Hn]; [now left|].
  apply in_app_or in Hn. destruct Hn; [right; now left|right; now right].
- intros (dirs & files & Hin & Ex & Hn). exists (p, dirs, files). split; [exact Hin|].
  rewrite Ex. apply in_map. unfold wanted_files.
  destruct Hn as [Hn|[Hn|Hn]]; apply in_or_app; [now left|right|right];
    apply in_or_app; [now left|now right].
Qed.

Lemma merge_order_In (tree : list (string * list string * list string)) (p n : string) :
  In (p, n) (merge_order m tree) <->
  exists dirs files, In (p, dirs, files) tree /\ In n (fnmatch_filter m files "*.dll").
Proof.
unfold merge_order. rewrite in_flat_map. split.
- intros ([[path dirs] files] & Hin & H).
  apply in_map_iff in H. destruct H as (n' & [= <- <-] & Hn).
  now exists dirs, files.
- intros (dirs & files & Hin & Hn). exists (p, dirs, files). split; [exact Hin|].
  now apply in_map.
Qed.

End StagingOrder.


(* ================================================================== *)
(** * The flattening and the NvToolsExt merge *)

Section Flatten.
Import Examples.

(** Both loops, as loops of guarded copies over a walk. *)
Lemma staging_loop (m : machine) (top store : string)
      (order : list (string * list string * list string) -> list (string * string))
      (w w' : world) :
  (forall p n, In (p, n) (order (os_walk m (fs w) top)) ->
               exists dirs files, In (p, dirs, files) (os_walk m (fs w) top) /\ In n files) ->
  os_path_isdir m (fs w) store = true ->
  (forall p n, In (p, n) (order (os_walk m (fs w) top)) ->
               free_or_file (fs w) (os_path_join m store n)) ->
  for_each (order (os_walk m (fs w) top)) (fetch_pair m store) w = (Ok tt, w') ->
  extends (fs w) (fs w') /\
  (forall q, Fs.lstat (fs w) q = None -> Fs.lstat (fs w') q <> None ->
             exists p n, In (p, n) (order (os_walk m (fs w) top)) /\
                         q = os_path_join m store n) /\
  (forall pre p n post data,
      order (os_walk m (fs w) top) = (pre ++ (p, n) :: post)%list ->
      (forall p', ~ In (p', n) pre) ->
      Fs.lstat (fs w) (os_path_join m store n) = None ->
      Fs.read (os_flavour m) (fs w) (os_path_join m p n) = Some data ->
      Fs.read (os_flavour m) (fs w') (os_path_join m store n) = Some data).
Proof.
intros Hfrom Hdir Hfree H. apply fetch_all; try assumption.
intros p n Hin. destruct (Hfrom p n Hin) as (dirs & files & Hw & Hn).
unfold os_walk, Fs.walk in Hw. eapply FsFacts.walk_files_plain; eassumption.
Qed.

(** C7.  The flattening makes its guarded copies in the order of the
    walk, for the [.dll], [.lib] and [.bc] files of the directories whose
    path names neither [jre] nor [GFExperience].  Nothing that the
    machine held is overwritten; what is new lies in the store under the
    name of such a file; and of several files with one name, the store
    holds the bytes of the first one reached. *)
Theorem flatten_first_occurrence_wins :
  forall (m : machine) (extractdir store : string) (w w' : world),
    os_path_isdir m (fs w) store = true ->
    (forall p n, In (p, n) (flatten_order m (os_walk m (fs w) extractdir)) ->
                 free_or_file (fs w) (os_path_join m store n)) ->
    flatten m extractdir store w = (Ok tt, w') ->
    (forall p n,
        In (p, n) (flatten_order m (os_walk m (fs w) extractdir)) <->
        exists dirs files,
          In (p, dirs, files) (os_walk m (fs w) extractdir) /\ excluded p = false /\
          (In n (fnmatch_filter m files "*.dll") \/ In n (fnmatch_filter m files "*.lib")
           \/ In n (fnmatch_filter m files "*.bc"))) /\
    extends (fs w) (fs w') /\
    (forall q, Fs.lstat (fs w) q = None -> Fs.lstat (fs w') q <> None ->
               exists p n, In (p, n) (flatten_order m (os_walk m (fs w) extractdir)) /\
                           q = os_path_join m store n) /\
    (forall pre p n post data,
        flatten_order m (os_walk m (fs w) extractdir) = (pre ++ (p, n) :: post)%list ->
        (forall p', ~ In (p', n) pre) ->
        Fs.lstat (fs w) (os_path_join m store n) = None ->
        Fs.read (os_flavour m) (fs w) (os_path_join m p n) = Some data ->
        Fs.read (os_flavour m) (fs w') (os_path_join m store n) = Some data).
Proof.
intros m extractdir store w w' Hdir Hfree H.
split; [intros p n; apply flatten_order_In|].
rewrite flatten_eq in H.
apply (staging_loop m extractdir store (flatten_order m)); try assumption.
intros p n Hin. apply flatten_order_In in Hin.
destruct Hin as (dirs & files & Hw & _ & Hn). exists dirs, files. split; [exact Hw|].
destruct Hn as [Hn|[Hn|Hn]]; now apply fnmatch_filter_In in Hn.
Qed.

(** Two directories hold a [foo.dll]: the store gets the bytes of the
    one reached first, and nothing of the Java runtime. *)
Lemma flatten_two_foo :
  os_path_isdir windows_box (fs w_tree) "c:\t\DLLs" = true /\
  flatten_order windows_box (os_walk windows_box (fs w_tree) "c:\t\x") =
    [("c:\t\x\a", "foo.dll"); ("c:\t\x\b", "foo.dll"); ("c:\t\x\b", "bar.lib")] /\
  exists w',
    flatten windows_box "c:\t\x" "c:\t\DLLs" w_tree = (Ok tt, w') /\
    Fs.read Nt (fs w') "c:\t\DLLs\foo.dll" = Some [x01] /\
    Fs.lstat (fs w') "c:\t\x\b\foo.dll" = Some (File [x02] false).
Proof.
split; [reflexivity|]. split; [reflexivity|].
destruct (flatten windows_box "c:\t\x" "c:\t\DLLs" w_tree) as [[[]|e] w'] eqn:E.
2: { vm_compute in E. discriminate E. }
exists w'. split; [reflexivity|].
destruct (@flatten_first_occurrence_wins windows_box "c:\t\x" "c:\t\DLLs" w_tree w'
            eq_refl) as (_ & Hext & _ & Hfirst).
- intros p n Hin. vm_compute in Hin.
  destruct Hin as [[= <- <-]|[[= <- <-]|[[= <- <-]|[]]]]; left; reflexivity.
- exact E.
- split.
  + apply (Hfirst [] "c:\t\x\a" "foo.dll"
             [("c:\t\x\b", "foo.dll"); ("c:\t\x\b", "bar.lib")] [x01]);
      try reflexivity.
    intros p' [].
  + apply Hext. reflexivity.
Defined.

(** The walk that [flatten] takes before its loop is the walk of the
    tree after the loop, and so at every moment of the loop. *)
Lemma flatten_walk_unchanged (m : machine) (extractdir store : string) (w w' : world) :
  os_path_isdir m (fs w) store = true ->
  (forall p n, In (p, n) (flatten_order m (os_walk m (fs w) extractdir)) ->
               free_or_file (fs w) (os_path_join m store n) /\
               outside (os_flavour m) (fs w) extractdir (os_path_join m store n)) ->
  flatten m extractdir store w = (Ok tt, w') ->
  os_walk m (fs w') extractdir = os_walk m (fs w) extractdir.
Proof.
intros Hdir Hfree H. rewrite flatten_eq in H.
apply (@fetch_all_walk m store extractdir
         (flatten_order m (os_walk m (fs w) extractdir))); try assumption.
- intros p n Hin. apply flatten_order_In in Hin.
  destruct Hin as (dirs & files & Hw & _ & Hn).
  unfold os_walk, Fs.walk in Hw. eapply FsFacts.walk_files_plain; [exact Hw|].
  destruct Hn as [Hn|[Hn|Hn]]; now apply fnmatch_filter_In in Hn.
- intros p n Hin. exact (proj1 (Hfree p n Hin)).
- intros p n Hin. exact (proj2 (Hfree p n Hin)).
Qed.

(** In the tree of the example the store lies outside the walk. *)
Lemma store_outside_tree (n : string) :
  outside Nt (fs w_tree) "c:\t\x" (Path.join Nt "c:\t\DLLs" n).
Proof.
assert (Hk : forall d, Path.child_name Nt ("c:\t\x" ++ d)
                         (Path.join Nt "c:\t\DLLs" n) = None).
{ intros d. unfold Path.child_name, Path.join.
  destruct (Path.starts_with_sep Nt n) eqn:E; [|reflexivity].
  destruct n as [|c n]; [discriminate E|]. cbn in E.
  apply orb_true_iff in E.
  destruct E as [E|E]; apply Ascii.eqb_eq in E; subst c; reflexivity. }
intros path dirs files d' Hin Hs. vm_compute in Hin.
destruct Hin as [[= <- <- <-]|[[= <- <- <-]|[[= <- <- <-]|[[= <- <- <-]|[]]]]];
  vm_compute in Hs; injection Hs as <-.
- apply (Hk "").
- apply (Hk "\a").
- apply (Hk "\b").
- apply (Hk "\jre").
Qed.

End Flatten.


(* ================================================================== *)
(** * The copy into the prefix *)

Section Materialize.
Import Examples.
Variable m : machine.
Variable self : Extractor.








End Materialize.


Section MaterializeClaim.
Import Examples.

Lemma remove_each_Ok (xs : list string) :
  forall l l', remove_each xs l = Ok l' -> Permutation l (xs ++ l')%list.
Proof.
induction xs as [|x xs IH]; intros l l'; simpl.
- intros [= <-]. apply Permutation_refl.
- unfold list_remove. destruct (Str.remove x l) as [l1|] eqn:R; [|discriminate].
  simpl. intros H. apply StrFacts.remove_Some in R. apply IH in H.
  apply perm_trans with (x :: l1); [exact R|now constructor].
Qed.




End MaterializeClaim.

(* ================================================================== *)
(** * Further facts: the constructor *)

Module SplitFacts.

Lemma split_nonempty (c : ascii) (s : string) : Str.split c s <> [].
Proof.
pose proof (StrFacts.split_length c s) as L. destruct (Str.split c s); [discriminate L|discriminate].
Qed.

Lemma concat_cons (sep a : string) (l : list string) :
  l <> [] -> String.concat sep (a :: l) = a ++ sep ++ String.concat sep l.
Proof. destruct l; [congruence|reflexivity]. Qed.

Lemma concat_push (sep : string) (a : ascii) (h : string) (t : list string) :
  String.concat sep (String a h :: t) = String a (String.concat sep (h :: t)).
Proof. destruct t; reflexivity. Qed.

(** [sep.join(s.split(sep))] is [s]. *)
Lemma join_split (c : ascii) (s : string) :
  Str.join (String c "") (Str.split c s) = s.
Proof.
unfold Str.join. induction s as [|a r IH]; [reflexivity|].
cbn [Str.split]. destruct (Ascii.eqb_spec a c) as [->|N].
- rewrite concat_cons by apply split_nonempty. cbn. now rewrite IH.
- pose proof (split_nonempty c r) as Hn.
  destruct (Str.split c r) as [|h t]; [congruence|].
  rewrite concat_push. now rewrite IH.
Qed.

Lemma split_no_sep (c : ascii) (s p : string) :
  In p (Str.split c s) -> Str.count c p = 0.
Proof.
revert p. induction s as [|a r IH]; intros p H.
- destruct H as [<-|[]]. reflexivity.
- cbn [Str.split] in H. destruct (Ascii.eqb a c) eqn:E.
  + destruct H as [<-|H]; [reflexivity|now apply IH].
  + pose proof (split_nonempty c r) as Hn.
    destruct (Str.split c r) as [|h t]; [congruence|].
    destruct H as [<-|H].
    * cbn. rewrite E. apply IH. now left.
    * apply IH. now right.
Qed.

End SplitFacts.

Module PathMoreFacts.
Section WithFlavour.
Variable fl : flavour.

Lemma sep_is_sep : Path.is_sep fl (Path.sep fl) = true.
Proof. destruct fl; reflexivity. Qed.

End WithFlavour.
End PathMoreFacts.

Section ConstructorMore.
Import Examples.
Variable m : machine.

(** X1.  The constructor returns to no caller.  Whatever it is given,
    it raises and leaves the machine as it found it: no directory is
    made and nothing is printed.  For the platforms [linux] and
    [windows] and a version string with a dot, the error is the
    [NameError] of line 156, where the name [ver_config] is read and
    nothing binds it; [PREFIX] and [SRC_DIR] are not read by then. *)
Theorem Extractor_init_stops_at_ver_config :
  forall (platform ver : string) (w : world),
    (exists e, Extractor_init m platform ver w = (Raise e, w)) /\
    (1 <= Str.count "." ver ->
     platform = "linux" \/ platform = "windows" ->
     Extractor_init m platform ver w = (Raise (NameError "ver_config"), w)).
Proof.
intros platform ver w. split.
- apply Extractor_init_never_returns.
- intros Hd Hp. now apply Extractor_init_NameError.
Qed.

(** X2.  A platform name that is no key of [CONFIG] makes line 141
    raise [KeyError] for it, once the version string has passed its
    check; the two keys of [CONFIG] that name lists, not platform
    tables, give [TypeError].  The machine is as it was. *)
Theorem Extractor_init_unknown_platform :
  forall (platform ver : string) (w : world),
    1 <= Str.count "." ver ->
    (platform <> "cuda_libraries" -> platform <> "cuda_static_libraries" ->
     platform <> "linux" -> platform <> "windows" ->
     Extractor_init m platform ver w = (Raise (KeyError platform), w)) /\
    (platform = "cuda_libraries" \/ platform = "cuda_static_libraries" ->
     exists msg, Extractor_init m platform ver w = (Raise (TypeError msg), w)).
Proof.
intros platform ver w Hd.
destruct (version_parts_Ok ver Hd) as (a & b & rest & _ & E).
split.
- intros N1 N2 N3 N4. unfold Extractor_init, bind, lift. rewrite E.
  unfold CONFIG. cbn [CONFIG_item].
  assert (E1 : String.eqb "cuda_libraries" platform = false)
    by (apply String.eqb_neq; congruence).
  assert (E2 : String.eqb "cuda_static_libraries" platform = false)
    by (apply String.eqb_neq; congruence).
  assert (E3 : String.eqb "linux" platform = false)
    by (apply String.eqb_neq; congruence).
  assert (E4 : String.eqb "windows" platform = false)
    by (apply String.eqb_neq; congruence).
  now rewrite E1, E2, E3, E4.
- intros [-> | ->]; unfold Extractor_init, bind, lift; rewrite E; eexists; reflexivity.
Qed.

(** X3.  The parts that lines 134 to 138 keep spell the version: they
    hold no dot, two parts joined by a dot are the version string, and
    with a third part the version string starts with the three parts
    joined by dots and goes on, if it does, with a dot. *)
Theorem version_parts_spell_the_version :
  forall (ver major minor : string) (micro : option string),
    version_parts ver = Ok (major, minor, micro) ->
    Str.count "." major = 0 /\
    Str.count "." minor = 0 /\
    (micro = None -> ver = major ++ "." ++ minor) /\
    (forall c, micro = Some c ->
       Str.count "." c = 0 /\
       exists rest,
         ver = major ++ "." ++ minor ++ "." ++ c ++ rest /\
         (rest = "" \/ Str.startswith rest "." = true)).
Proof.
intros ver major minor micro H.
apply version_parts_inv in H. destruct H as (rest & Hs & Hmi).
pose proof (SplitFacts.join_split "." ver) as Hj. rewrite Hs in Hj.
assert (Hin : forall p, In p (major :: minor :: rest) -> Str.count "." p = 0).
{ intros p Hp. rewrite <- Hs in Hp. now apply SplitFacts.split_no_sep in Hp. }
split; [apply Hin; now left|]. split; [apply Hin; right; now left|]. split.
- intros Hn. rewrite Hn in Hmi. destruct rest; [|discriminate Hmi]. now rewrite <- Hj.
- intros c Hc. rewrite Hc in Hmi. destruct rest as [|c' rest]; [discriminate Hmi|].
  injection Hmi as <-. split; [apply Hin; right; right; now left|].
  unfold Str.join in Hj. cbn [String.concat] in Hj.
  destruct rest as [|x rest].
  + exists "". split; [|now left].
    rewrite <- Hj. f_equal. f_equal. f_equal. f_equal.
    clear. induction c as [|a c IH]; [reflexivity|]. cbn. now rewrite <- IH.
  + exists ("." ++ String.concat "." (x :: rest)).
    split; [now rewrite <- Hj|]. right.
    generalize (String.concat "." (x :: rest)). intros X.
    unfold Str.startswith. cbn. now destruct X.
Qed.

End ConstructorMore.

Section ConstructorMoreExamples.
Import Examples.

(** The constructor on the Linux machine, for the version [11.0.3]. *)
Lemma Extractor_init_on_linux_box :
  1 <= Str.count "." "11.0.3" /\
  Extractor_init linux_box "linux" "11.0.3" w_root =
    (Raise (NameError "ver_config"), w_root).
Proof.
assert (Hd : 1 <= Str.count "." "11.0.3") by (vm_compute; lia).
split; [exact Hd|].
exact (proj2 (Extractor_init_stops_at_ver_config linux_box "linux" "11.0.3" w_root)
         Hd (or_introl eq_refl)).
Defined.

(** A platform that [CONFIG] does not know. *)
Lemma Extractor_init_on_darwin :
  1 <= Str.count "." "11.0.3" /\
  Extractor_init darwin_box "darwin" "11.0.3" w_root = (Raise (KeyError "darwin"), w_root).
Proof.
assert (Hd : 1 <= Str.count "." "11.0.3") by (vm_compute; lia).
split; [exact Hd|].
apply (proj1 (@Extractor_init_unknown_platform darwin_box "darwin" "11.0.3" w_root Hd));
  discriminate.
Defined.

(** The three parts of [11.0.3]. *)
Lemma version_parts_of_11_0_3 :
  version_parts "11.0.3" = Ok ("11", "0", Some "3") /\
  exists rest, "11.0.3" = "11" ++ "." ++ "0" ++ "." ++ "3" ++ rest.
Proof.
split; [reflexivity|].
destruct (@version_parts_spell_the_version "11.0.3" "11" "0" (Some "3") eq_refl)
  as (_ & _ & _ & Hm).
destruct (Hm "3" eq_refl) as (_ & rest & Hv & _). now exists rest.
Defined.

End ConstructorMoreExamples.

(* ================================================================== *)
(** * Further facts: the resolver *)

Section Format.

Lemma brace_free_cons (c : ascii) (t : string) :
  brace_free (String c t) ->
  Ascii.eqb c "{" = false /\ Ascii.eqb c "}" = false /\ brace_free t.
Proof.
unfold brace_free. cbn [Str.count]. intros [H1 H2].
destruct (Ascii.eqb c "{"); [discriminate H1|].
destruct (Ascii.eqb c "}"); [discriminate H2|]. auto.
Qed.

Lemma format_aux_plain (arg : string) :
  forall t fuel, brace_free t -> String.length t < fuel -> format_aux fuel t arg = Ok t.
Proof.
induction t as [|c t IH]; intros fuel Hb Hl.
- destruct fuel; reflexivity.
- destruct fuel as [|fuel]; [inversion Hl|].
  apply brace_free_cons in Hb. destruct Hb as (E1 & E2 & Hb).
  cbn [format_aux]. rewrite E1, E2. rewrite IH; [reflexivity|exact Hb|].
  simpl in Hl. lia.
Qed.

Lemma format_aux_field (arg b : string) :
  brace_free b ->
  forall a fuel, brace_free a -> String.length (a ++ "{0}" ++ b) < fuel ->
                 format_aux fuel (a ++ "{0}" ++ b) arg = Ok (a ++ arg ++ b).
Proof.
intros Hb. induction a as [|c a IH]; intros fuel Ha Hl.
- destruct fuel as [|fuel]; [inversion Hl|].
  cbn. rewrite format_aux_plain; [reflexivity|exact Hb|]. cbn in Hl. lia.
- destruct fuel as [|fuel]; [inversion Hl|].
  apply brace_free_cons in Ha. destruct Ha as (E1 & E2 & Ha).
  cbn [append format_aux]. rewrite E1, E2. rewrite IH; [reflexivity|exact Ha|].
  change (S (String.length (a ++ "{0}" ++ b)) < S fuel) in Hl. lia.
Qed.

(** X4.  [template.format(libname)], line 183: a template made of a
    text, the field [{0}] and a text, with no other brace, formats to
    the name between the two texts; a template with no brace formats to
    itself, whatever the name. *)
Theorem str_format_substitutes :
  forall (a b arg : string),
    brace_free a -> brace_free b ->
    str_format (a ++ "{0}" ++ b) arg = Ok (a ++ arg ++ b) /\
    str_format a arg = Ok a.
Proof.
intros a b arg Ha Hb. unfold str_format. split.
- apply format_aux_field; [exact Hb|exact Ha|lia].
- apply format_aux_plain; [exact Ha|lia].
Qed.

(** The Linux template of the shared libraries. *)
Lemma str_format_lib_so :
  brace_free "lib" /\ brace_free ".so*" /\
  str_format "lib{0}.so*" "cudart" = Ok "libcudart.so*".
Proof.
assert (Ha : brace_free "lib") by (split; reflexivity).
assert (Hb : brace_free ".so*") by (split; reflexivity).
split; [exact Ha|]. split; [exact Hb|].
exact (proj1 (@str_format_substitutes "lib" ".so*" "cudart" Ha Hb)).
Defined.

End Format.

Section ResolverMore.
Import Examples.
Variable m : machine.
Variable self : Extractor.
Variable f : filesystem.
Variable dirpath template : string.

Lemma get_paths_cons (libname : string) (libraries out : list string) :
  get_paths m self f (libname :: libraries) dirpath template = Ok out <->
  exists b c,
    get_paths_body m self f dirpath template libname = Ok b /\
    get_paths m self f libraries dirpath template = Ok c /\
    out = (b ++ c)%list.
Proof.
split.
- intros H. apply (@get_paths_segment m self f dirpath template [] libraries libname out) in H.
  destruct H as (a & b & c & Ha & Hb & Hc & ->).
  injection Ha as <-. now exists b, c.
- intros (b & c & Hb & Hc & ->). unfold get_paths. cbn [get_paths_from]. rewrite Hb.
  cbn [obind app]. apply get_paths_from_acc. now exists c.
Qed.

(** What one name keeps: files of the directory that match its pattern. *)
Lemma get_paths_body_matches (libname : string) (l : list string) :
  get_paths_body m self f dirpath template libname = Ok l ->
  exists filename names,
    str_format template libname = Ok filename /\
    os_listdir m f dirpath = Ok names /\
    fnmatch_filter m names filename <> [] /\
    (symlinks self = false -> exists n, fnmatch_filter m names filename = [n] /\
                                        l = [os_path_join m dirpath n]) /\
    forall p, In p l ->
      os_path_isfile m f p = true /\
      exists n, In n (fnmatch_filter m names filename) /\ p = os_path_join m dirpath n.
Proof.
unfold get_paths_body.
destruct (str_format template libname) as [filename|]; [|discriminate].
destruct (os_listdir m f dirpath) as [names|]; [|discriminate]. cbn [obind].
destruct (fnmatch_filter m names filename) as [|p0 ps] eqn:Ef; [discriminate|].
destruct (negb (symlinks self) && negb (Nat.eqb (length (p0 :: ps)) 1)) eqn:Ea; [discriminate|].
destruct (check_files m f dirpath (p0 :: ps)) as [pathsforlib|] eqn:Hc; [|discriminate].
apply check_files_inv in Hc. destruct Hc as [Hmap Hall]. cbn [obind].
intros H. exists filename, names. split; [reflexivity|]. split; [reflexivity|].
rewrite Ef. split; [discriminate|].
assert (Hsub : forall p, In p l -> In p pathsforlib).
{ destruct (symlinks self).
  - destruct (py_max _) as [t|]; [|discriminate]. cbn [obind] in H.
    destruct (list_remove t _) as [c'|]; [|discriminate]. cbn [obind] in H.
    apply remove_each_Ok in H. intros p Hp.
    apply (Permutation_in _ (Permutation_sym H)). apply in_or_app. now right.
  - injection H as <-. auto. }
split.
- intros Hs. rewrite Hs in *. cbn [negb andb] in Ea.
  destruct ps as [|p1 ps]; [|discriminate Ea].
  exists p0. split; [reflexivity|]. injection H as <-. exact Hmap.
- intros p Hp. apply Hsub in Hp. split; [now apply Hall|].
  rewrite Hmap in Hp. apply in_map_iff in Hp. destruct Hp as (n & <- & Hn). now exists n.
Qed.

(** X5.  Every path that [get_paths] returns is an entry of [dirpath]
    whose name matches the pattern of one of the library names, and it
    is a regular file, possibly through links. *)
Theorem get_paths_returns_matching_files :
  forall (libraries out : list string),
    get_paths m self f libraries dirpath template = Ok out ->
    forall p, In p out ->
      os_path_isfile m f p = true /\
      exists libname filename names n,
        In libname libraries /\
        str_format template libname = Ok filename /\
        os_listdir m f dirpath = Ok names /\
        In n names /\
        In n (fnmatch_filter m names filename) /\
        p = os_path_join m dirpath n.
Proof.
induction libraries as [|x libraries IH]; intros out H p Hp.
- injection H as <-. destruct Hp.
- apply get_paths_cons in H. destruct H as (b & c & Hb & Hc & ->).
  apply in_app_or in Hp. destruct Hp as [Hp|Hp].
  + apply get_paths_body_matches in Hb.
    destruct Hb as (filename & names & Hf & Hl & _ & _ & Hall).
    destruct (Hall p Hp) as (Hfile & n & Hn & ->). split; [exact Hfile|].
    exists x, filename, names, n. repeat split; auto; [now left|].
    now apply fnmatch_filter_In in Hn.
  + destruct (IH c Hc p Hp) as (Hfile & l & fn & names & n & Hin & Hrest).
    split; [exact Hfile|]. exists l, fn, names, n. split; [now right|exact Hrest].
Qed.

(** X6.  With aliasing refused, a call that returns gives one path
    for each library name, in the order of the names: the only entry of
    [dirpath] that matches the pattern of the name. *)
Theorem get_paths_strict_one_per_library :
  forall (libraries out : list string),
    symlinks self = false ->
    get_paths m self f libraries dirpath template = Ok out ->
    length out = length libraries /\
    Forall2 (fun libname p =>
               exists filename names n,
                 str_format template libname = Ok filename /\
                 os_listdir m f dirpath = Ok names /\
                 fnmatch_filter m names filename = [n] /\
                 p = os_path_join m dirpath n /\
                 os_path_isfile m f p = true)
            libraries out.
Proof.
intros libraries out Hs H.
assert (HF : Forall2 (fun libname p =>
               exists filename names n,
                 str_format template libname = Ok filename /\
                 os_listdir m f dirpath = Ok names /\
                 fnmatch_filter m names filename = [n] /\
                 p = os_path_join m dirpath n /\
                 os_path_isfile m f p = true)
            libraries out).
{ revert out H. induction libraries as [|x libraries IH]; intros out H.
  - injection H as <-. constructor.
  - apply get_paths_cons in H. destruct H as (b & c & Hb & Hc & ->).
    apply get_paths_body_matches in Hb.
    destruct Hb as (filename & names & Hf & Hl & _ & Hone & Hall).
    destruct (Hone Hs) as (n & Hn & ->). cbn [app]. constructor; [|now apply IH].
    exists filename, names, n. repeat split; auto.
    apply Hall. now left. }
split; [|exact HF]. symmetry. exact (Forall2_length HF).
Qed.

(** X7.  The names are resolved one after the other and independently:
    a call on two lists of names put end to end returns what the calls
    on each list return, put end to end, and fails as soon as one of
    them does.  A call on no name returns the empty list whatever
    [dirpath] is. *)
Theorem get_paths_app :
  forall (pre post : list string),
    get_paths m self f [] dirpath template = Ok [] /\
    (forall out,
        get_paths m self f (pre ++ post)%list dirpath template = Ok out <->
        exists a b, get_paths m self f pre dirpath template = Ok a /\
                    get_paths m self f post dirpath template = Ok b /\
                    out = (a ++ b)%list) /\
    (forall e, get_paths m self f pre dirpath template = Raise e ->
               get_paths m self f (pre ++ post)%list dirpath template = Raise e) /\
    (forall a e, get_paths m self f pre dirpath template = Ok a ->
                 get_paths m self f post dirpath template = Raise e ->
                 get_paths m self f (pre ++ post)%list dirpath template = Raise e).
Proof.
intros pre post. split; [reflexivity|].
assert (Hraise : forall l acc e,
           get_paths m self f l dirpath template = Raise e ->
           get_paths_from m self f acc l dirpath template = Raise e).
{ unfold get_paths. intros l. generalize (@nil string).
  induction l as [|x l IH]; intros acc0 acc e; cbn [get_paths_from]; [discriminate|].
  destruct (get_paths_body m self f dirpath template x); cbn [obind]; [apply IH|auto]. }
split; [|split].
- intros out. unfold get_paths at 1. rewrite get_paths_from_app.
  fold (get_paths m self f pre dirpath template). split.
  + destruct (get_paths m self f pre dirpath template) as [a|e]; cbn [obind]; [|discriminate].
    intros H. apply get_paths_from_acc in H. destruct H as (b & Hb & ->). now exists a, b.
  + intros (a & b & -> & Hb & ->). cbn [obind]. apply get_paths_from_acc. now exists b.
- intros e H. unfold get_paths in *. rewrite get_paths_from_app, H. reflexivity.
- intros a e Ha Hb. unfold get_paths at 1. rewrite get_paths_from_app.
  fold (get_paths m self f pre dirpath template). rewrite Ha. cbn [obind].
  now apply Hraise.
Qed.

(** X8.  With a template that holds no field, which is what both
    tables have for [libdevice_lib_fmt], the name looked up plays no
    part in what is found: any two names resolve to the same paths. *)
Theorem get_paths_fixed_template :
  forall (libname libname' : string) (out : list string),
    brace_free template ->
    get_paths m self f [libname] dirpath template = Ok out ->
    get_paths m self f [libname'] dirpath template = Ok out.
Proof.
intros libname libname' out Hb. rewrite !get_paths_single. unfold get_paths_body.
unfold str_format. rewrite !format_aux_plain by (exact Hb || lia). cbn [obind].
destruct (os_listdir m f dirpath) as [names|]; [|discriminate]. cbn [obind].
destruct (fnmatch_filter m names template) as [|p0 ps]; [discriminate|].
destruct (negb (symlinks self) && negb (Nat.eqb (length (p0 :: ps)) 1)); [discriminate|].
auto.
Qed.

(** X9.  A resolved path is copied under its own name, directly into
    the output directory: [destination] forgets the directory it was
    found in. *)
Theorem get_paths_destination :
  forall (libraries out : list string),
    get_paths m self f libraries dirpath template = Ok out ->
    forall p, In p out ->
      exists n, p = os_path_join m dirpath n /\
                Path.plain_name (os_flavour m) n = true /\
                destination m self p = os_path_join m (output_dir self) n.
Proof.
induction libraries as [|x libraries IH]; intros out H p Hp.
- injection H as <-. destruct Hp.
- apply get_paths_cons in H. destruct H as (b & c & Hb & Hc & ->).
  apply in_app_or in Hp. destruct Hp as [Hp|Hp]; [|now apply (IH c)].
  apply get_paths_body_matches in Hb.
  destruct Hb as (filename & names & Hf & Hl & _ & _ & Hall).
  destruct (Hall p Hp) as (_ & n & Hn & ->). apply fnmatch_filter_In in Hn.
  assert (Hplain : Path.plain_name (os_flavour m) n = true).
  { unfold os_listdir in Hl. eapply FsFacts.listdir_plain; eassumption. }
  exists n. split; [reflexivity|]. split; [exact Hplain|].
  unfold destination, os_path_basename, os_path_join.
  rewrite PathFacts.basename_join; [reflexivity|].
  now apply PathFacts.plain_no_sep.
Qed.

End ResolverMore.

Section ResolverMoreExamples.
Import Examples.

(** The newest [libfoo] of the directory of the specification. *)
Lemma get_paths_libfoo_files :
  exists out,
    get_paths linux_box linux_self fs_libfoo ["foo"] "/d" "lib{0}.so*" = Ok out /\
    In "/d/libfoo.so.3" out /\
    os_path_isfile linux_box fs_libfoo "/d/libfoo.so.3" = true.
Proof.
destruct (get_paths linux_box linux_self fs_libfoo ["foo"] "/d" "lib{0}.so*")
  as [out|e] eqn:E; [|vm_compute in E; discriminate E].
assert (Hin : In "/d/libfoo.so.3" out).
{ vm_compute in E. injection E as <-. right. now left. }
exists out. split; [reflexivity|]. split; [exact Hin|].
exact (proj1 (@get_paths_returns_matching_files linux_box linux_self fs_libfoo "/d"
                "lib{0}.so*" ["foo"] out E "/d/libfoo.so.3" Hin)).
Defined.

(** One match, a link to a file: one path. *)
Lemma get_paths_strict_only_link :
  symlinks strict_self = false /\
  exists out,
    get_paths linux_box strict_self fs_only_link ["foo"] "/d" "lib{0}.so*" = Ok out /\
    length out = 1.
Proof.
split; [reflexivity|].
destruct (get_paths linux_box strict_self fs_only_link ["foo"] "/d" "lib{0}.so*")
  as [out|e] eqn:E; [|vm_compute in E; discriminate E].
exists out. split; [reflexivity|].
exact (proj1 (@get_paths_strict_one_per_library linux_box strict_self fs_only_link "/d"
                "lib{0}.so*" ["foo"] out eq_refl E)).
Defined.

(** The same name asked for twice. *)
Lemma get_paths_foo_twice :
  exists a,
    get_paths linux_box linux_self fs_libfoo ["foo"] "/d" "lib{0}.so*" = Ok a /\
    get_paths linux_box linux_self fs_libfoo ["foo"; "foo"] "/d" "lib{0}.so*" = Ok (a ++ a)%list.
Proof.
destruct (get_paths linux_box linux_self fs_libfoo ["foo"] "/d" "lib{0}.so*")
  as [a|e] eqn:E; [|vm_compute in E; discriminate E].
exists a. split; [reflexivity|].
destruct (@get_paths_app linux_box linux_self fs_libfoo "/d" "lib{0}.so*" ["foo"] ["foo"])
  as (_ & Happ & _).
apply (Happ (a ++ a)%list). exists a, a. auto.
Defined.

(** The bitcode file is found for the major version [11] and for [12]. *)
Lemma get_paths_libdevice_any_version :
  brace_free "libdevice.10.bc" /\
  get_paths linux_box linux_self fs_libdevice ["11"] "/d" "libdevice.10.bc" =
    Ok ["/d/libdevice.10.bc"] /\
  get_paths linux_box linux_self fs_libdevice ["12"] "/d" "libdevice.10.bc" =
    Ok ["/d/libdevice.10.bc"].
Proof.
assert (Hb : brace_free "libdevice.10.bc") by (split; reflexivity).
assert (E : get_paths linux_box linux_self fs_libdevice ["11"] "/d" "libdevice.10.bc" =
            Ok ["/d/libdevice.10.bc"]) by reflexivity.
split; [exact Hb|]. split; [exact E|].
exact (@get_paths_fixed_template linux_box linux_self fs_libdevice "/d" "libdevice.10.bc"
         "11" "12" ["/d/libdevice.10.bc"] Hb E).
Defined.

(** Where the newest [libfoo] goes. *)
Lemma get_paths_libfoo_destination :
  exists out,
    get_paths linux_box linux_self fs_libfoo ["foo"] "/d" "lib{0}.so*" = Ok out /\
    In "/d/libfoo.so.3" out /\
    destination linux_box linux_self "/d/libfoo.so.3" = "/prefix/lib/libfoo.so.3".
Proof.
destruct (get_paths linux_box linux_self fs_libfoo ["foo"] "/d" "lib{0}.so*")
  as [out|e] eqn:E; [|vm_compute in E; discriminate E].
assert (Hin : In "/d/libfoo.so.3" out).
{ vm_compute in E. injection E as <-. right. now left. }
exists out. split; [reflexivity|]. split; [exact Hin|].
destruct (@get_paths_destination linux_box linux_self fs_libfoo "/d" "lib{0}.so*"
            ["foo"] out E "/d/libfoo.so.3" Hin) as (n & Hp & Hn & Hd).
rewrite Hd. apply (@PathFacts.join_inj Posix "/d" "libfoo.so.3" n) in Hp.
- now rewrite <- Hp.
- reflexivity.
- now apply PathFacts.plain_no_sep.
Defined.

End ResolverMoreExamples.

(* ================================================================== *)
(** * Further facts: the copy and the dump *)

Section MaterializeMore.
Import Examples.
Variable m : machine.
Variable self : Extractor.


(** X11.  A link is made with [os.symlink], which replaces nothing:
    when the output directory already has an entry under the name of a
    link, the turn of the loop announces the link and raises
    [FileExistsError]; the file system is left as it was. *)
Theorem copy_file_link_refuses_existing :
  forall (fn : string) (n : node) (w : world),
    os_path_islink (fs w) fn = true ->
    Fs.lstat (fs w) (destination m self fn) = Some n ->
    exists t w',
      Fs.readlink (fs w) fn = Ok t /\
      copy_file m self fn w = (Raise (FileExistsError (destination m self fn)), w') /\
      fs w' = fs w /\
      stdout w' =
        List.app (stdout w) ["linking " ++ t ++ " to " ++ destination m self fn].
Proof.
intros fn n w Hl Hd. unfold copy_file. rewrite Hl.
unfold os_path_islink, Fs.islink in Hl.
destruct (Fs.lstat (fs w) fn) as [[| t |]|] eqn:E; try discriminate Hl.
exists t. eexists. split; [unfold Fs.readlink; now rewrite E|].
unfold bind, os_readlink, Fs.readlink. rewrite E. unfold print, os_symlink. cbn [fs].
fold (destination m self fn). rewrite Hd. repeat split.
Qed.

End MaterializeMore.

Section MaterializeMoreExamples.
Import Examples.


(** The link of the directory of the specification, copied into a
    prefix that already has it. *)
Lemma copy_libfoo_link_twice :
  os_path_islink (fs w_prefix_link) "/d/libfoo.so.2" = true /\
  Fs.lstat (fs w_prefix_link) (destination linux_box linux_self "/d/libfoo.so.2") =
    Some (Link "libfoo.so.1") /\
  exists w',
    copy_file linux_box linux_self "/d/libfoo.so.2" w_prefix_link =
      (Raise (FileExistsError "/prefix/lib/libfoo.so.2"), w') /\
    fs w' = fs w_prefix_link.
Proof.
split; [reflexivity|]. split; [reflexivity|].
destruct (@copy_file_link_refuses_existing linux_box linux_self "/d/libfoo.so.2"
            (Link "libfoo.so.1") w_prefix_link eq_refl eq_refl)
  as (t & w' & _ & Hc & Hf & _).
exists w'. split; [exact Hc|exact Hf].
Defined.

End MaterializeMoreExamples.

Module WriteFacts.
Section WithFlavour.
Variable fl : flavour.

Lemma set_set (f : filesystem) (k : string) (v : node) :
  Fs.set (Fs.set f k v) k v = Fs.set f k v.
Proof.
induction f as [|[k' n] f IH]; cbn [Fs.set].
- now rewrite String.eqb_refl.
- destruct (String.eqb k' k) eqn:E; cbn [Fs.set]; rewrite E; [reflexivity|now rewrite IH].
Qed.

(** A second write through the same path lands on the same entry. *)
Lemma write_target_again (f : filesystem) (data : list byte) :
  forall fuel p q,
    Fs.write_target fl fuel f p = Ok q ->
    Fs.write_target fl fuel (Fs.set f q (File data false)) p = Ok q.
Proof.
induction fuel as [|fuel IH]; intros p q; simpl;
  destruct (Fs.lstat f p) as [[d l|t|]|] eqn:E; try discriminate.
- destruct l; [discriminate|]. intros [= <-]. now rewrite FsFacts.lstat_set_eq.
- destruct (Fs.parent_ok fl f p); [|discriminate]. intros [= <-].
  now rewrite FsFacts.lstat_set_eq.
- destruct l; [discriminate|]. intros [= <-]. now rewrite FsFacts.lstat_set_eq.
- intros H.
  destruct (FsFacts.write_target_follow fl f data _ _ H) as [Hq _].
  assert (N : q <> p).
  { intros ->. destruct Hq as [Hq|(d & l & Hq)]; rewrite Hq in E; discriminate. }
  rewrite (FsFacts.lstat_set_ne f _ N), E. now apply IH.
- destruct (Fs.parent_ok fl f p); [|discriminate]. intros [= <-].
  now rewrite FsFacts.lstat_set_eq.
Qed.

Lemma rstrip_no_trailing (d : string) :
  Path.ends_with_sep fl d = false -> Path.rstrip fl d = d.
Proof.
induction d as [|c r IH]; [reflexivity|].
cbn [Path.ends_with_sep Path.rstrip]. destruct r as [|c' r'].
- intros ->. reflexivity.
- intros H. rewrite (IH H). reflexivity.
Qed.

Lemma rstrip_snoc (d : string) :
  Path.rstrip fl (d ++ String (Path.sep fl) "") = Path.rstrip fl d.
Proof.
induction d as [|c r IH].
- cbn. now rewrite PathMoreFacts.sep_is_sep.
- cbn [append Path.rstrip]. now rewrite IH.
Qed.

(** [os.path.dirname(os.path.join(d, n))] is [d], for a directory
    spelled without a trailing separator. *)
Lemma dirname_join (d n : string) :
  d <> "" -> Path.ends_with_sep fl d = false -> Path.has_sep fl n = false ->
  Path.dirname fl (Path.join fl d n) = d.
Proof.
intros Hd He Hn. unfold Path.join.
rewrite (PathFacts.no_sep_start fl n Hn).
destruct d as [|c r]; [congruence|]. cbn [Str.is_empty orb]. rewrite He.
change (String c r ++ String (Path.sep fl) n)
  with (String c r ++ (String (Path.sep fl) "" ++ n)).
rewrite <- PathFacts.append_assoc. unfold Path.dirname.
rewrite PathFacts.cut_after_sep; [|apply PathFacts.ends_with_sep_snoc|exact Hn].
cbn [fst]. rewrite rstrip_snoc, (rstrip_no_trailing _ He). reflexivity.
Qed.

End WithFlavour.
End WriteFacts.

Section DumpMore.
Import Examples.
Variable m : machine.

(** X12.  [dump_config] writes the same bytes to the same entry each
    time: a second call right after a first one changes nothing. *)
Theorem dump_config_idempotent :
  forall (self : Extractor) (w w1 : world),
    dump_config m self w = (Ok tt, w1) ->
    dump_config m self w1 = (Ok tt, w1).
Proof.
intros self w w1 H. apply dump_config_Ok in H.
destruct H as (path & Hp & -> & _).
unfold dump_config, write_file. cbn [fs with_fs].
rewrite (WriteFacts.write_target_again _ _ _ _ _ Hp).
unfold with_fs. cbn [fs stdout seed]. now rewrite WriteFacts.set_set.
Qed.

(** X13.  Where the output directory is a directory, spelled without
    a separator at its end, and has nothing under the name of the dump
    file, [dump_config] succeeds: the file
    [cudatoolkit_config.yaml] of the output directory is new, it reads as
    the dump of the record, and nothing else changes. *)
Theorem dump_config_into_output_dir :
  forall (self : Extractor) (w : world),
    output_dir self <> "" ->
    Path.ends_with_sep (os_flavour m) (output_dir self) = false ->
    os_path_isdir m (fs w) (output_dir self) = true ->
    Fs.lstat (fs w) (dumpfile m self) = None ->
    exists w',
      dump_config m self w = (Ok tt, w') /\
      Fs.read (os_flavour m) (fs w') (dumpfile m self) = Some (yaml_dump m (config self)) /\
      forall p, p <> dumpfile m self -> Fs.lstat (fs w') p = Fs.lstat (fs w) p.
Proof.
intros self w Hne Hend Hdir Hfree.
assert (Hw : Fs.write_target (os_flavour m) Fs.MAXSYMLINKS (fs w) (dumpfile m self)
             = Ok (dumpfile m self)).
{ cbn [Fs.MAXSYMLINKS Fs.write_target]. rewrite Hfree.
  unfold Fs.parent_ok, dumpfile, os_path_join.
  rewrite WriteFacts.dirname_join; [|exact Hne|exact Hend|now destruct (os_flavour m)].
  unfold os_path_isdir in Hdir. rewrite Hdir. now rewrite orb_true_r. }
eexists. split.
- unfold dump_config, write_file. rewrite Hw. reflexivity.
- cbn [fs with_fs]. split.
  + apply read_set_file.
  + intros p N. apply FsFacts.lstat_set_ne. congruence.
Qed.

End DumpMore.

Section DumpMoreExamples.
Import Examples.

(** Two dumps in a row. *)
Lemma dump_config_twice_on_prefix :
  exists w1,
    dump_config linux_box linux_self w_prefix = (Ok tt, w1) /\
    dump_config linux_box linux_self w1 = (Ok tt, w1).
Proof.
destruct (dump_config linux_box linux_self w_prefix) as [[[]|e] w1] eqn:E;
  [|vm_compute in E; discriminate E].
exists w1. split; [reflexivity|].
exact (@dump_config_idempotent linux_box linux_self w_prefix w1 E).
Defined.

(** The dump into the library directory of the prefix. *)
Lemma dump_config_into_prefix :
  output_dir linux_self = "/prefix/lib" /\
  os_path_isdir linux_box (fs w_prefix) "/prefix/lib" = true /\
  Fs.lstat (fs w_prefix) "/prefix/lib/cudatoolkit_config.yaml" = None /\
  exists w',
    dump_config linux_box linux_self w_prefix = (Ok tt, w') /\
    Fs.read Posix (fs w') "/prefix/lib/cudatoolkit_config.yaml" =
      Some (simple_yaml [("version", PStr "11.0.3")]).
Proof.
split; [reflexivity|]. split; [reflexivity|]. split; [reflexivity|].
destruct (@dump_config_into_output_dir linux_box linux_self w_prefix
            ltac:(discriminate) eq_refl eq_refl eq_refl) as (w' & Hd & Hr & _).
exists w'. split; [exact Hd|exact Hr].
Defined.

End DumpMoreExamples.

(* ================================================================== *)
(** * Further facts: the staging of the Windows extractor *)

Module FnmatchFacts.

Lemma matches_nil (s : string) : Fnmatch.matches [] s = true <-> s = "".
Proof. destruct s; cbn; split; congruence. Qed.

Lemma matches_lit (c : ascii) (g : list Fnmatch.glob) (s : string) :
  Fnmatch.matches (Fnmatch.GLit c :: g) s = true <->
  exists r, s = String c r /\ Fnmatch.matches g r = true.
Proof.
cbn [Fnmatch.matches]. destruct s as [|d r].
- split; [discriminate|]. intros (r & E & _). discriminate E.
- split.
  + intros H. apply andb_true_iff in H. destruct H as [E H].
    apply Ascii.eqb_eq in E. subst d. now exists r.
  + intros (r' & [= -> ->] & H). now rewrite Ascii.eqb_refl.
Qed.

(** The star stands for any text, the empty one included. *)
Lemma matches_star (g : list Fnmatch.glob) (s : string) :
  Fnmatch.matches (Fnmatch.GStar :: g) s = true <->
  exists a b, s = a ++ b /\ Fnmatch.matches g b = true.
Proof.
cbn [Fnmatch.matches]. induction s as [|c r IH].
- split.
  + intros H. rewrite orb_false_r in H. now exists "", "".
  + intros (a & b & E & H). destruct a; [|discriminate E]. cbn in E. subst b.
    now rewrite H.
- split.
  + intros H. apply orb_true_iff in H. destruct H as [H|H].
    * now exists "", (String c r).
    * apply IH in H. destruct H as (a & b & -> & H). now exists (String c a), b.
  + intros (a & b & E & H). apply orb_true_iff. destruct a as [|c' a].
    * cbn in E. subst b. now left.
    * right. injection E as -> ->. apply IH. now exists a, b.
Qed.

(** A name matches a star followed by a text when it ends with the text. *)
Lemma matches_star_text (l : list ascii) (s : string) :
  Fnmatch.matches (Fnmatch.GStar :: map Fnmatch.GLit l) s = true <->
  exists a, s = a ++ string_of_list_ascii l.
Proof.
assert (Hl : forall l b, Fnmatch.matches (map Fnmatch.GLit l) b = true <->
                         b = string_of_list_ascii l).
{ clear. induction l as [|c l IH]; intros b; cbn [map string_of_list_ascii].
  - apply matches_nil.
  - rewrite matches_lit. split.
    + intros (r & -> & H). apply IH in H. now subst r.
    + intros ->. exists (string_of_list_ascii l). split; [reflexivity|now apply IH]. }
rewrite matches_star. split.
- intros (a & b & -> & H). apply Hl in H. subst b. now exists a.
- intros (a & ->). exists a, (string_of_list_ascii l). split; [reflexivity|now apply Hl].
Qed.

End FnmatchFacts.

Section Wanted.
Import Examples.
Variable m : machine.

Lemma fnmatch_filter_star_text (files : list string) (l : list ascii) (pat n : string) :
  Fnmatch.translate (Path.normcase (os_flavour m) pat) =
    Fnmatch.GStar :: map Fnmatch.GLit l ->
  In n (fnmatch_filter m files pat) <->
  In n files /\ exists a, Path.normcase (os_flavour m) n = a ++ string_of_list_ascii l.
Proof.
intros Ht. unfold fnmatch_filter, Fnmatch.filter. rewrite filter_In.
unfold Fnmatch.fnmatchcase. rewrite Ht, FnmatchFacts.matches_star_text. reflexivity.
Qed.

(** X14.  The three filters of the flattening loop keep the names that
    end, once [os.path.normcase] has been applied, with [.dll], [.lib]
    and [.bc]: whatever the case of the letters on Windows, in lower
    case elsewhere. *)
Theorem wanted_files_by_suffix :
  forall (files : list string) (n : string),
    (In n (fnmatch_filter m files "*.dll") <->
     In n files /\ exists a, Path.normcase (os_flavour m) n = a ++ ".dll") /\
    (In n (fnmatch_filter m files "*.lib") <->
     In n files /\ exists a, Path.normcase (os_flavour m) n = a ++ ".lib") /\
    (In n (fnmatch_filter m files "*.bc") <->
     In n files /\ exists a, Path.normcase (os_flavour m) n = a ++ ".bc") /\
    (In n (wanted_files m files) <->
     In n files /\
     exists a, Path.normcase (os_flavour m) n = a ++ ".dll" \/
               Path.normcase (os_flavour m) n = a ++ ".lib" \/
               Path.normcase (os_flavour m) n = a ++ ".bc").
Proof.
intros files n.
assert (Hdll := @fnmatch_filter_star_text files ["."; "d"; "l"; "l"]%char "*.dll" n
                  ltac:(destruct (os_flavour m); reflexivity)).
assert (Hlib := @fnmatch_filter_star_text files ["."; "l"; "i"; "b"]%char "*.lib" n
                  ltac:(destruct (os_flavour m); reflexivity)).
assert (Hbc := @fnmatch_filter_star_text files ["."; "b"; "c"]%char "*.bc" n
                  ltac:(destruct (os_flavour m); reflexivity)).
cbn [string_of_list_ascii] in Hdll, Hlib, Hbc.
split; [exact Hdll|]. split; [exact Hlib|]. split; [exact Hbc|].
unfold wanted_files. rewrite !in_app_iff, Hdll, Hlib, Hbc. split.
- intros [(Hin & a & E)|[(Hin & a & E)|(Hin & a & E)]]; (split; [exact Hin|exists a; tauto]).
- intros (Hin & a & [E|[E|E]]); [left|right; left|right; right]; (split; [exact Hin|now exists a]).
Qed.

End Wanted.

Section WantedExamples.
Import Examples.

(** An upper-case name is kept on Windows and not on Linux. *)
Lemma wanted_upper_case_dll :
  In "CUBLAS64_11.DLL" (fnmatch_filter windows_box ["CUBLAS64_11.DLL"; "readme.txt"] "*.dll") /\
  ~ In "CUBLAS64_11.DLL" (fnmatch_filter linux_box ["CUBLAS64_11.DLL"; "readme.txt"] "*.dll").
Proof.
split.
- apply (proj1 (@wanted_files_by_suffix windows_box ["CUBLAS64_11.DLL"; "readme.txt"]
                  "CUBLAS64_11.DLL")).
  split; [now left|]. now exists "cublas64_11".
- intros H.
  apply (proj1 (@wanted_files_by_suffix linux_box ["CUBLAS64_11.DLL"; "readme.txt"]
                  "CUBLAS64_11.DLL")) in H.
  destruct H as (_ & a & E). cbn in E.
  assert (L : String.length "CUBLAS64_11.DLL" = String.length (a ++ ".dll")) by now rewrite <- E.
  rewrite FsFacts.length_append in L. cbn in L.
  do 11 (destruct a as [|? a]; [discriminate E|injection E as <- E]).
  destruct a; [discriminate E|cbn in L; lia].
Defined.

End WantedExamples.

Section StagingMore.
Import Examples.
Variable m : machine.

(** After the loop of guarded copies the store holds a regular file
    under every name the loop went through. *)
Lemma fetch_all_present (store : string) :
  forall (cands : list (string * string)) (w w' : world),
    os_path_isdir m (fs w) store = true ->
    (forall p n, In (p, n) cands -> Path.has_sep (os_flavour m) n = false) ->
    (forall p n, In (p, n) cands -> free_or_file (fs w) (os_path_join m store n)) ->
    for_each cands (fetch_pair m store) w = (Ok tt, w') ->
    forall p n, In (p, n) cands ->
      exists d l, Fs.lstat (fs w') (os_path_join m store n) = Some (File d l).
Proof.
induction cands as [|[p0 n0] cands IH]; intros w w' Hdir Hplain Hfree H p n Hin;
  [destruct Hin|].
cbn [for_each] in H. inv_bind H. destruct a. unfold fetch_pair in H0 at 1.
cbn [fst snd] in H0.
assert (Hn0 : Path.has_sep (os_flavour m) n0 = false)
  by (apply (Hplain p0 n0); now left).
pose proof H0 as Hstep. apply fetch_Ok in Hstep;
  [|exact Hdir|exact Hn0|apply (Hfree p0 n0); now left].
assert (Hext : extends (fs w) (fs w0)).
{ destruct Hstep as [[_ ->]|[Hnone (data & _ & ->)]];
    [apply extends_refl|now apply extends_set_fresh]. }
assert (Hfree1 : forall p n, In (p, n) cands ->
                   free_or_file (fs w0) (os_path_join m store n)).
{ intros p1 n1 Hin1. destruct (Hfree p1 n1 (or_intror Hin1)) as [Hnone|(d & l & Hf)].
  - destruct Hstep as [[_ ->]|[_ (data & _ & ->)]]; [now left|].
    now apply free_or_file_set; left.
  - right. exists d, l. now apply Hext. }
assert (Hdir0 : os_path_isdir m (fs w0) store = true) by exact (@isdir_extends m _ _ _ Hext Hdir).
assert (Hplain1 : forall p n, In (p, n) cands -> Path.has_sep (os_flavour m) n = false)
  by (intros p1 n1 Hin1; apply (Hplain p1 n1); now right).
destruct Hin as [[= <- <-]|Hin].
- assert (Hnow : exists d l, Fs.lstat (fs w0) (os_path_join m store n0) = Some (File d l)).
  { destruct Hstep as [[Hf ->]|[_ (data & _ & ->)]]; [exact Hf|].
    exists data, false. apply FsFacts.lstat_set_eq. }
  destruct Hnow as (d & l & Hnow). exists d, l.
  destruct (@fetch_all m store cands w0 w' Hdir0 Hplain1 Hfree1 H) as (Hext' & _).
  now apply Hext'.
- exact (IH w0 w' Hdir0 Hplain1 Hfree1 H p n Hin).
Qed.

(** A loop of guarded copies over names that the store already holds
    does nothing. *)
Lemma fetch_all_noop (store : string) :
  forall (cands : list (string * string)) (w : world),
    (forall p n, In (p, n) cands ->
                 os_path_isfile m (fs w) (os_path_join m store n) = true) ->
    for_each cands (fetch_pair m store) w = (Ok tt, w).
Proof.
induction cands as [|[p0 n0] cands IH]; intros w H; [reflexivity|].
cbn [for_each]. unfold bind. unfold fetch_pair at 1, fetch. cbn [fst snd].
rewrite (H p0 n0) by now left. cbn [negb]. apply IH.
intros p n Hin. apply (H p n). now right.
Qed.

(** X15.  When the flattening loop ends, the store holds a regular
    file under every name the loop was after, whether the loop copied it
    or found it there. *)
Theorem flatten_collects_every_name :
  forall (extractdir store : string) (w w' : world),
    os_path_isdir m (fs w) store = true ->
    (forall p n, In (p, n) (flatten_order m (os_walk m (fs w) extractdir)) ->
                 free_or_file (fs w) (os_path_join m store n)) ->
    flatten m extractdir store w = (Ok tt, w') ->
    forall path dirs files n,
      In (path, dirs, files) (os_walk m (fs w) extractdir) ->
      excluded path = false ->
      In n (wanted_files m files) ->
      os_path_isfile m (fs w') (os_path_join m store n) = true.
Proof.
intros extractdir store w w' Hdir Hfree H path dirs files n Hw Hex Hn.
rewrite flatten_eq in H.
assert (Hin : In (path, n) (flatten_order m (os_walk m (fs w) extractdir))).
{ apply flatten_order_In. exists dirs, files. split; [exact Hw|]. split; [exact Hex|].
  unfold wanted_files in Hn. rewrite !in_app_iff in Hn. exact Hn. }
assert (Hplain : forall p n0,
           In (p, n0) (flatten_order m (os_walk m (fs w) extractdir)) ->
           Path.has_sep (os_flavour m) n0 = false).
{ intros p n0 Hp. apply flatten_order_In in Hp.
  destruct Hp as (dirs0 & files0 & Hw0 & _ & Hn0).
  unfold os_walk, Fs.walk in Hw0. eapply FsFacts.walk_files_plain; [exact Hw0|].
  destruct Hn0 as [Hn0|[Hn0|Hn0]]; now apply fnmatch_filter_In in Hn0. }
destruct (@fetch_all_present store _ w w' Hdir Hplain Hfree H path n Hin) as (d & l & Hl).
exact (@isfile_lstat_file m _ _ _ _ Hl).
Qed.

(** X16.  Flattening a second time changes nothing, as long as the
    store lies outside the tree that is flattened. *)
Theorem flatten_twice :
  forall (extractdir store : string) (w w' : world),
    os_path_isdir m (fs w) store = true ->
    (forall p n, In (p, n) (flatten_order m (os_walk m (fs w) extractdir)) ->
                 free_or_file (fs w) (os_path_join m store n) /\
                 outside (os_flavour m) (fs w) extractdir (os_path_join m store n)) ->
    flatten m extractdir store w = (Ok tt, w') ->
    flatten m extractdir store w' = (Ok tt, w').
Proof.
intros extractdir store w w' Hdir Hcond H.
pose proof (@flatten_walk_unchanged m extractdir store w w' Hdir Hcond H) as Hwalk.
rewrite flatten_eq, Hwalk. rewrite flatten_eq in H.
apply fetch_all_noop. intros p n Hin.
assert (Hplain : forall p n0,
           In (p, n0) (flatten_order m (os_walk m (fs w) extractdir)) ->
           Path.has_sep (os_flavour m) n0 = false).
{ intros p1 n0 Hp. apply flatten_order_In in Hp.
  destruct Hp as (dirs0 & files0 & Hw0 & _ & Hn0).
  unfold os_walk, Fs.walk in Hw0. eapply FsFacts.walk_files_plain; [exact Hw0|].
  destruct Hn0 as [Hn0|[Hn0|Hn0]]; now apply fnmatch_filter_In in Hn0. }
destruct (@fetch_all_present store _ w w' Hdir Hplain
            (fun p n Hin => proj1 (Hcond p n Hin)) H p n Hin) as (d & l & Hl).
exact (@isfile_lstat_file m _ _ _ _ Hl).
Qed.

End StagingMore.

Section StagingMoreExamples.
Import Examples.

(** The library of the second directory reaches the store. *)
Lemma flatten_tree_collects_bar :
  exists w',
    flatten windows_box "c:\t\x" "c:\t\DLLs" w_tree = (Ok tt, w') /\
    os_path_isfile windows_box (fs w') "c:\t\DLLs\bar.lib" = true.
Proof.
destruct (flatten windows_box "c:\t\x" "c:\t\DLLs" w_tree) as [[[]|e] w'] eqn:E;
  [|vm_compute in E; discriminate E].
exists w'. split; [reflexivity|].
refine (@flatten_collects_every_name windows_box "c:\t\x" "c:\t\DLLs" w_tree w'
          eq_refl _ E "c:\t\x\b" [] ["foo.dll"; "bar.lib"; "notes.txt"] "bar.lib" _ eq_refl _).
- intros p n Hin. vm_compute in Hin.
  destruct Hin as [[= <- <-]|[[= <- <-]|[[= <- <-]|[]]]]; left; reflexivity.
- vm_compute. tauto.
- vm_compute. tauto.
Defined.

(** The tree of the example, flattened twice. *)
Lemma flatten_tree_twice :
  exists w',
    flatten windows_box "c:\t\x" "c:\t\DLLs" w_tree = (Ok tt, w') /\
    flatten windows_box "c:\t\x" "c:\t\DLLs" w' = (Ok tt, w').
Proof.
destruct (flatten windows_box "c:\t\x" "c:\t\DLLs" w_tree) as [[[]|e] w'] eqn:E;
  [|vm_compute in E; discriminate E].
exists w'. split; [reflexivity|].
refine (@flatten_twice windows_box "c:\t\x" "c:\t\DLLs" w_tree w' eq_refl _ E).
intros p n Hin. split.
- vm_compute in Hin.
  destruct Hin as [[= <- <-]|[[= <- <-]|[[= <- <-]|[]]]]; left; reflexivity.
- apply store_outside_tree.
Defined.

End StagingMoreExamples.

(* ================================================================== *)
(** * Further facts: the temporary directory *)

Module RmtreeFacts.
Section WithFlavour.
Variable fl : flavour.

Lemma lstat_None (f : filesystem) (k : string) :
  Fs.lstat f k = None <-> forall n, ~ In (k, n) f.
Proof.
induction f as [|[k' n'] f IH]; cbn [Fs.lstat].
- split; [intros _ n []|reflexivity].
- destruct (String.eqb_spec k' k) as [->|N].
  + split; [discriminate|]. intros H. exfalso. apply (H n'). now left.
  + rewrite IH. split.
    * intros H n [[= E _]|Hin]; [congruence|now apply (H n)].
    * intros H n Hin. apply (H n). now right.
Qed.

Lemma In_set (f : filesystem) (p : string) (v : node) (k : string) (n : node) :
  In (k, n) (Fs.set f p v) -> In (k, n) f \/ (k = p /\ n = v).
Proof.
induction f as [|[k' n'] f IH]; cbn [Fs.set].
- intros [[= <- <-]|[]]. right. auto.
- destruct (String.eqb_spec k' p) as [->|N].
  + intros [[= <- <-]|Hin]; [right; auto|left; now right].
  + intros [E|Hin]; [left; now left|].
    destruct (IH Hin) as [H|H]; [left; now right|now right].
Qed.

Lemma in_tree_top (top : string) : Fs.in_tree fl top top = true.
Proof. unfold Fs.in_tree. now rewrite String.eqb_refl. Qed.

(** With no locked file in the tree, the removal takes every entry of
    the tree and no other. *)
Lemma rmtree_aux_unlocked (top : string) :
  forall f, unlocked_tree fl top f ->
    exists f', Fs.rmtree_aux fl top f = (None, f') /\
               forall k n, In (k, n) f' <-> In (k, n) f /\ Fs.in_tree fl top k = false.
Proof.
induction f as [|[k0 n0] f IH]; intros Hu.
- exists []. split; [reflexivity|]. intros k n. split; [intros []|intros [[] _]].
- assert (Hu' : unlocked_tree fl top f).
  { intros k n Hin. apply Hu. now right. }
  destruct (IH Hu') as (f' & E & Hf').
  cbn [Fs.rmtree_aux]. destruct (Fs.in_tree fl top k0) eqn:T.
  + rewrite (Hu k0 n0 (or_introl eq_refl) T). exists f'. split; [exact E|].
    intros k n. rewrite Hf'. split.
    * intros [Hin Hk]. split; [now right|exact Hk].
    * intros [[[= <- <-]|Hin] Hk]; [congruence|now split].
  + rewrite E. exists ((k0, n0) :: f'). split; [reflexivity|].
    intros k n. split.
    * intros [[= <- <-]|Hin]; [split; [now left|exact T]|].
      apply Hf' in Hin. destruct Hin as [Hin Hk]. split; [now right|exact Hk].
    * intros [[[= <- <-]|Hin] Hk]; [now left|]. right. apply Hf'. now split.
Qed.

End WithFlavour.
End RmtreeFacts.

(** A file system with no locked file at all. *)
Lemma unlocked_by_computation (fl : flavour) (top : string) (f : filesystem) :
  forallb (fun kn : string * node => negb (Fs.is_locked (snd kn))) f = true ->
  unlocked_tree fl top f.
Proof.
intros H k n Hin _. rewrite forallb_forall in H. specialize (H _ Hin). cbn in H.
now destruct (Fs.is_locked n).
Qed.

Section Tempdir.
Import Examples.
Variable m : machine.

Lemma shutil_rmtree_unlocked (top : string) (w : world) :
  Fs.lstat (fs w) top <> None ->
  unlocked_tree (os_flavour m) top (fs w) ->
  exists w',
    shutil_rmtree m top w = (Ok tt, w') /\
    stdout w' = stdout w /\
    forall k, Fs.in_tree (os_flavour m) top k = true -> Fs.lstat (fs w') k = None.
Proof.
intros Hl Hu. unfold shutil_rmtree.
destruct (Fs.lstat (fs w) top) as [n0|]; [|congruence].
assert (Hu' : unlocked_tree (os_flavour m) top (rev (fs w))).
{ intros k nd Hin. apply in_rev in Hin. now apply Hu. }
destruct (RmtreeFacts.rmtree_aux_unlocked Hu') as (f' & E & Hf'). rewrite E.
eexists. split; [reflexivity|]. split; [reflexivity|].
intros k Hk. cbn [fs with_fs]. apply RmtreeFacts.lstat_None. intros nd Hin.
apply in_rev in Hin. apply Hf' in Hin. destruct Hin as [_ Hin]. congruence.
Qed.

Lemma exists_lstat (f : filesystem) (p : string) :
  Fs.exists_ (os_flavour m) f p = true -> Fs.lstat f p <> None.
Proof.
unfold Fs.exists_, Fs.stat. cbn [Fs.MAXSYMLINKS Fs.follow].
destruct (Fs.lstat f p); [discriminate|discriminate].
Qed.

Lemma lstat_exists (f : filesystem) (p : string) :
  Fs.lstat f p = None -> Fs.exists_ (os_flavour m) f p = false.
Proof.
intros H. unfold Fs.exists_, Fs.stat. cbn [Fs.MAXSYMLINKS Fs.follow]. now rewrite H.
Qed.

(** [with tempdir() as tmpd]: with no locked file left in the
    directory, the statement ends as its block does, and the directory is
    gone. *)
Lemma with_tempdir_unlocked {A} (body : string -> M A) (w w1 w2 : world)
      (tmpd : string) (r : outcome A) :
  mkdtemp m w = (Ok tmpd, w1) ->
  body tmpd w1 = (r, w2) ->
  unlocked_tree (os_flavour m) tmpd (fs w2) ->
  exists w3,
    with_tempdir m body w = (r, w3) /\
    stdout w3 = stdout w2 /\
    Fs.exists_ (os_flavour m) (fs w3) tmpd = false.
Proof.
intros Hmk Hb Hu. unfold with_tempdir. rewrite Hmk, Hb.
destruct (Fs.exists_ (os_flavour m) (fs w2) tmpd) eqn:Ex.
- destruct (@shutil_rmtree_unlocked tmpd w2 (exists_lstat _ _ Ex) Hu) as (w3 & E & Ho & Hg).
  rewrite E. exists w3. split; [reflexivity|]. split; [exact Ho|].
  apply lstat_exists, Hg, RmtreeFacts.in_tree_top.
- exists w2. auto.
Qed.

(** [mkdtemp] makes one directory, under a name that was free. *)
Lemma mkdtemp_inv (tmpd : string) :
  forall tries w w1,
    mkdtemp_aux m tries w = (Ok tmpd, w1) ->
    Fs.lstat (fs w) tmpd = None /\
    fs w1 = Fs.set (fs w) tmpd Dir /\
    stdout w1 = stdout w.
Proof.
induction tries as [|tries IH]; intros w w1 H; [discriminate H|].
cbn [mkdtemp_aux] in H. unfold os_mkdir in H. cbn [fs] in H.
destruct (Fs.lstat (fs w) _) eqn:E.
- apply IH in H. exact H.
- destruct (Fs.parent_ok (os_flavour m) (fs w) _).
  + injection H as <- <-. auto.
  + unfold missing_parent in H. cbn [fs] in H.
    destruct (Fs.exists_ _ _ _); discriminate H.
Qed.

(** X17.  [WindowsExtractor.extract] passes on what its block did,
    unless that is a [PermissionError]: with no locked file left in the
    temporary directory, any other error of the block is raised to the
    caller, and a block that ends well lets [extract] return; either way
    the temporary directory is removed. *)
Theorem WindowsExtractor_extract_passes_other_errors :
  forall (self : Extractor) (w w1 w2 : world) (tmpd : string) (r : outcome unit),
    mkdtemp m w = (Ok tmpd, w1) ->
    extract_block m self tmpd w1 = (r, w2) ->
    (forall p, r <> Raise (PermissionError p)) ->
    unlocked_tree (os_flavour m) tmpd (fs w2) ->
    exists w3,
      WindowsExtractor_extract m self w = (r, w3) /\
      stdout w3 = stdout w2 /\
      Fs.exists_ (os_flavour m) (fs w3) tmpd = false.
Proof.
intros self w w1 w2 tmpd r Hmk Hb Hr Hu.
destruct (@with_tempdir_unlocked _ (extract_block m self) w w1 w2 tmpd r Hmk Hb Hu)
  as (w3 & E & Ho & Hg).
exists w3. split; [|auto].
unfold WindowsExtractor_extract, except_PermissionError_pass. rewrite E.
destruct r as [[]|e]; [reflexivity|]. destruct e; try reflexivity.
now destruct (Hr path).
Qed.

(** X18.  Line 269 makes the directory [__extracted] in the working
    directory, not in the temporary one, and nothing removes it: where an
    entry of that name is in the way, [extract] raises [FileExistsError]
    before any program is run and before anything is printed. *)
Theorem WindowsExtractor_extract_refuses_second_run :
  forall (self : Extractor) (w w1 : world) (tmpd : string) (n : node),
    Fs.lstat (fs w) "__extracted" = Some n ->
    mkdtemp m w = (Ok tmpd, w1) ->
    unlocked_tree (os_flavour m) tmpd (fs w) ->
    extract_block m self tmpd w1 = (Raise (FileExistsError "__extracted"), w1) /\
    exists w3,
      WindowsExtractor_extract m self w = (Raise (FileExistsError "__extracted"), w3) /\
      stdout w3 = stdout w.
Proof.
intros self w w1 tmpd n Hx Hmk Hu.
pose proof Hmk as Hi. apply mkdtemp_inv in Hi. destruct Hi as (Hfree & Hfs & Hout).
assert (Hx1 : Fs.lstat (fs w1) "__extracted" = Some n).
{ rewrite Hfs. rewrite FsFacts.lstat_set_ne; [exact Hx|]. intros ->. congruence. }
assert (Hb : extract_block m self tmpd w1 = (Raise (FileExistsError "__extracted"), w1)).
{ unfold extract_block, unpack, bind, os_mkdir. now rewrite Hx1. }
split; [exact Hb|].
assert (Hu1 : unlocked_tree (os_flavour m) tmpd (fs w1)).
{ intros k nd Hin Hk. rewrite Hfs in Hin. apply RmtreeFacts.In_set in Hin.
  destruct Hin as [Hin|[_ ->]]; [now apply (Hu k)|reflexivity]. }
destruct (@with_tempdir_unlocked _ (extract_block m self) w w1 w1 tmpd _ Hmk Hb Hu1)
  as (w3 & E & Ho & _).
exists w3. split; [|congruence].
unfold WindowsExtractor_extract, except_PermissionError_pass. now rewrite E.
Qed.

End Tempdir.

Section TempdirExamples.
Import Examples.

(** The unpacking fails: the error reaches the caller and the
    temporary directory is gone. *)
Lemma extract_with_failing_7za :
  exists e w3,
    WindowsExtractor_extract failing_box windows_self w_windows = (Raise e, w3) /\
    e = CalledProcessError 2
          ["7za"; "x"; "-oc:\tmp\tmpabcdefgh\__extracted";
           "c:\src\cuda_11.0.3_451.82_win10.exe"] /\
    Fs.exists_ Nt (fs w3) "c:\tmp\tmpabcdefgh" = false.
Proof.
destruct (mkdtemp failing_box w_windows) as [[tmpd|e0] w1] eqn:Hmk;
  [|vm_compute in Hmk; discriminate Hmk].
destruct (extract_block failing_box windows_self tmpd w1) as [r w2] eqn:Hb.
assert (Hv : tmpd = "c:\tmp\tmpabcdefgh" /\
             r = Raise (CalledProcessError 2
                          ["7za"; "x"; "-oc:\tmp\tmpabcdefgh\__extracted";
                           "c:\src\cuda_11.0.3_451.82_win10.exe"]) /\
             forallb (fun kn : string * node => negb (Fs.is_locked (snd kn))) (fs w2) = true).
{ vm_compute in Hmk. injection Hmk as <- <-. vm_compute in Hb. injection Hb as <- <-.
  repeat split. }
destruct Hv as (Ht & Hr & Hu).
destruct (@WindowsExtractor_extract_passes_other_errors failing_box windows_self
            w_windows w1 w2 tmpd r Hmk Hb
            ltac:(intros p; rewrite Hr; discriminate)
            (@unlocked_by_computation Nt tmpd (fs w2) Hu)) as (w3 & E & _ & Hg).
rewrite Hr in E. rewrite Ht in Hg. eexists. exists w3. split; [exact E|]. split; [reflexivity|exact Hg].
Defined.

(** A working directory that still has [__extracted]. *)
Lemma extract_on_second_run :
  Fs.lstat (fs w_rerun) "__extracted" = Some Dir /\
  exists w3,
    WindowsExtractor_extract windows_box windows_self w_rerun =
      (Raise (FileExistsError "__extracted"), w3).
Proof.
split; [reflexivity|].
destruct (mkdtemp windows_box w_rerun) as [[tmpd|e0] w1] eqn:Hmk;
  [|vm_compute in Hmk; discriminate Hmk].
destruct (@WindowsExtractor_extract_refuses_second_run windows_box windows_self
            w_rerun w1 tmpd Dir eq_refl Hmk
            (@unlocked_by_computation Nt tmpd (fs w_rerun) eq_refl)) as (_ & w3 & E & _).
now exists w3.
Defined.

End TempdirExamples.

(* ================================================================== *)
(** * The NvToolsExt step *)

Section NvToolsExt.
Import Examples.




End NvToolsExt.

(* ================================================================== *)
(** * Further facts: the module level and the Linux extractor *)

Section ModuleLevel.
Import Examples.
Variable m : machine.

(** X19.  The platform name that [getplatform] returns is a key of
    every table that [main] and the constructor index with it: the
    dispatcher, [CONFIG], where it names a platform table, and [libdir].
    It is [linux] exactly when [sys.platform] starts with [linux]. *)
Theorem getplatform_keys_are_known :
  forall (plat : string),
    getplatform m = Ok plat ->
    (exists impl, DISPATCHER plat = Ok impl) /\
    (exists d, CONFIG_item (CONFIG m) plat = Ok (CDict d)) /\
    (exists l, assoc libdir plat = Some l) /\
    (plat = "linux" <-> Str.startswith (sys_platform m) "linux" = true) /\
    (plat = "windows" \/ plat = "linux").
Proof.
intros plat. unfold getplatform. intros H.
destruct (Str.startswith (sys_platform m) "linux").
- injection H as <-. repeat split; try (eexists; reflexivity). now right.
- destruct (Str.startswith (sys_platform m) "win"); [|discriminate H].
  injection H as <-. repeat split; try (eexists; reflexivity); try discriminate.
  now left.
Qed.

(** X20.  Off Windows [main] stops before it touches the file system,
    with the line [Running build] printed and nothing else done: on a
    platform that starts with [linux] the call of line 409 gives
    [LinuxExtractor.__init__] one argument too few, a [TypeError]; on a
    platform that is neither [linux...] nor [win...] [getplatform]
    raises [RuntimeError]. *)
Theorem main_fails_off_windows :
  forall (ver : string) (w : world),
    let w' := {| fs := fs w; stdout := (stdout w ++ ["Running build"])%list;
                 seed := seed w |} in
    (Str.startswith (sys_platform m) "linux" = true ->
     exists msg, main m ver w = (Raise (TypeError msg), w')) /\
    (Str.startswith (sys_platform m) "linux" = false ->
     Str.startswith (sys_platform m) "win" = false ->
     main m ver w = (Raise (RuntimeError "Unknown platform"), w')).
Proof.
intros ver w w'. split.
- intros H. eexists. unfold main, bind, print, lift, getplatform. rewrite H.
  cbn. reflexivity.
- intros H1 H2. unfold main, bind, print, lift, getplatform. rewrite H1, H2. reflexivity.
Qed.

(** X21.  [LinuxExtractor.__init__] never returns: the call of line 337
    hands [Extractor.__init__] one argument too many.  The file system
    and the output are as they were.  On [ppc64le], a table without a
    [ppc64le_blob] is refused first, with [RuntimeError]. *)
Theorem LinuxExtractor_init_always_raises :
  forall (ver : string) (vc plt_config : pydict) (w : world),
    exists e,
      LinuxExtractor_init m ver vc plt_config w = (Raise e, w) /\
      (platform_machine m = "ppc64le" ->
       (Dict.get plt_config "ppc64le_blob" = None \/
        Dict.get plt_config "ppc64le_blob" = Some PNone) ->
       e = RuntimeError ("ppc64le not supported for " ++ ver)) /\
      (platform_machine m <> "ppc64le" -> exists msg, e = TypeError msg).
Proof.
intros ver vc plt_config w. unfold LinuxExtractor_init, bind.
destruct (String.eqb_spec (platform_machine m) "ppc64le") as [E|E].
- destruct (Dict.get plt_config "ppc64le_blob") as [[| |]|] eqn:G.
  + eexists. split; [reflexivity|]. split; [reflexivity|]. intros C. now destruct C.
  + destruct (Dict.get plt_config "ppc64le_embedded_blob");
      (eexists; split; [reflexivity|]; split;
       [intros _ [C|C]; discriminate C|intros C; now destruct C]).
  + destruct (Dict.get plt_config "ppc64le_embedded_blob");
      (eexists; split; [reflexivity|]; split;
       [intros _ [C|C]; discriminate C|intros C; now destruct C]).
  + eexists. split; [reflexivity|]. split; [reflexivity|]. intros C. now destruct C.
- eexists. split; [reflexivity|]. split; [intros C; now destruct (E C)|].
  intros _. eexists. reflexivity.
Qed.

(** X22.  [LinuxExtractor.extract] changes the mode of the installer
    under its bare name, which the working directory must hold: without
    it the call raises [FileNotFoundError] with nothing done, wherever
    else the installer is.  With it, and with no embedded blob, an
    installer that ends with a code other than zero makes the call raise
    [CalledProcessError] for the command of line 370; nothing is copied,
    and the temporary directory is removed. *)
Theorem LinuxExtractor_extract_installer_failure :
  forall (self : Extractor) (w : world),
    (Fs.exists_ (os_flavour m) (fs w) (config_blob self) = false ->
     LinuxExtractor_extract m self w = (Raise (FileNotFoundError (config_blob self)), w)) /\
    (forall tmpd w1 code f2,
        Fs.exists_ (os_flavour m) (fs w) (config_blob self) = true ->
        embedded_blob self = None ->
        mkdtemp m w = (Ok tmpd, w1) ->
        let cmd := [os_path_join m (src_dir self) (config_blob self);
                    "--installpath=" ++ tmpd; "--toolkit"; "--silent";
                    "--override"; "--nox11"] in
        run m cmd (fs w1) = (Ok code, f2) ->
        code <> 0%Z ->
        unlocked_tree (os_flavour m) tmpd f2 ->
        exists w3,
          LinuxExtractor_extract m self w = (Raise (CalledProcessError code cmd), w3) /\
          stdout w3 = stdout w /\
          Fs.exists_ (os_flavour m) (fs w3) tmpd = false).
Proof.
intros self w. split.
- intros H. unfold LinuxExtractor_extract, bind, os_chmod. now rewrite H.
- intros tmpd w1 code f2 Hx He Hmk cmd Hrun Hcode Hu.
  pose proof Hmk as Hi. apply mkdtemp_inv in Hi. destruct Hi as (_ & _ & Hout).
  set (body := fun tmpd : string =>
    bind (match embedded_blob self with
          | Some eb =>
              with_tempdir m (fun tmpd2 =>
                bind (check_call m [os_path_join m (src_dir self) (config_blob self);
                                    "--extract=" ++ tmpd2; "--nox11"; "--silent"])
                     (fun _ => check_call m [os_path_join m tmpd2 eb;
                                             "-prefix"; tmpd; "-noprompt"; "--nox11"]))
          | None =>
              check_call m [os_path_join m (src_dir self) (config_blob self);
                            "--installpath=" ++ tmpd; "--toolkit"; "--silent";
                            "--override"; "--nox11"]
          end)
         (fun _ => bind (for_each (patches self)
                           (fun p => bind (os_chmod m p)
                              (fun _ => check_call m [os_path_join m (src_dir self) p;
                                            "--installdir"; tmpd; "--accept-eula";
                                            "--silent"])))
                        (fun _ => LinuxExtractor_copy m self tmpd))).
  assert (Hb : body tmpd w1 = (Raise (CalledProcessError code cmd), with_fs w1 f2)).
  { unfold body, bind. rewrite He. unfold check_call. fold cmd. rewrite Hrun.
    destruct code; [congruence|reflexivity|reflexivity]. }
  destruct (@with_tempdir_unlocked m _ body w w1 (with_fs w1 f2) tmpd _ Hmk Hb Hu)
    as (w3 & E & Ho & Hg).
  exists w3. split; [|split; [cbn in Ho; congruence|exact Hg]].
  unfold LinuxExtractor_extract, bind at 1, os_chmod. rewrite Hx. exact E.
Qed.

End ModuleLevel.

Section ModuleLevelExamples.
Import Examples.

(** The Linux machine of the examples. *)
Lemma getplatform_on_linux_box :
  getplatform linux_box = Ok "linux" /\
  exists d, CONFIG_item (CONFIG linux_box) "linux" = Ok (CDict d).
Proof.
split; [reflexivity|].
exact (proj1 (proj2 (@getplatform_keys_are_known linux_box "linux" eq_refl))).
Defined.

(** A Linux machine and a machine that is neither Linux nor Windows. *)
Lemma main_on_linux_and_darwin :
  (exists msg w', main linux_box "11.0.3" w_root = (Raise (TypeError msg), w')) /\
  (exists w', main darwin_box "11.0.3" w_root = (Raise (RuntimeError "Unknown platform"), w')).
Proof.
split.
- destruct (proj1 (@main_fails_off_windows linux_box "11.0.3" w_root) eq_refl) as (msg & E).
  eexists. eexists. exact E.
- eexists.
  exact (proj2 (@main_fails_off_windows darwin_box "11.0.3" w_root) eq_refl eq_refl).
Defined.

(** A table with no [ppc64le_blob], on [ppc64le]. *)
Lemma LinuxExtractor_init_on_ppc64le :
  LinuxExtractor_init ppc64le_box "11.0.3" [] [] w_root =
    (Raise (RuntimeError "ppc64le not supported for 11.0.3"), w_root).
Proof.
destruct (@LinuxExtractor_init_always_raises ppc64le_box "11.0.3" [] [] w_root)
  as (e & E & Hp & _).
rewrite E. now rewrite (Hp eq_refl (or_introl eq_refl)).
Defined.

(** The installer missing from the working directory, and an
    installer that exits with code 1. *)
Lemma LinuxExtractor_extract_on_failing_installer :
  LinuxExtractor_extract failing_linux_box linux_self w_src_only =
    (Raise (FileNotFoundError "cuda_11.0.3_450.51.06_linux.run"), w_src_only) /\
  exists w3,
    LinuxExtractor_extract failing_linux_box linux_self w_runfile =
      (Raise (CalledProcessError 1
                ["/src/cuda_11.0.3_450.51.06_linux.run"; "--installpath=/tmp/tmpabcdefgh";
                 "--toolkit"; "--silent"; "--override"; "--nox11"]), w3) /\
    Fs.exists_ Posix (fs w3) "/tmp/tmpabcdefgh" = false.
Proof.
split.
- exact (proj1 (@LinuxExtractor_extract_installer_failure failing_linux_box linux_self
                  w_src_only) eq_refl).
- destruct (mkdtemp failing_linux_box w_runfile) as [[tmpd|e0] w1] eqn:Hmk;
    [|vm_compute in Hmk; discriminate Hmk].
  assert (Ht : tmpd = "/tmp/tmpabcdefgh" /\
               forallb (fun kn : string * node => negb (Fs.is_locked (snd kn))) (fs w1) = true).
  { vm_compute in Hmk. injection Hmk as <- <-. split; reflexivity. }
  destruct Ht as [Ht Hu].
  destruct (proj2 (@LinuxExtractor_extract_installer_failure failing_linux_box linux_self
                     w_runfile) tmpd w1 1%Z (fs w1) eq_refl eq_refl Hmk eq_refl
                  ltac:(discriminate)
                  (@unlocked_by_computation Posix tmpd (fs w1) Hu)) as (w3 & E & _ & Hg).
  exists w3. rewrite Ht in E, Hg. split; [exact E|exact Hg].
Defined.

End ModuleLevelExamples.

Section ConfigTable.
Import Examples.
Variable m : machine.

Lemma prefix_app (a b : string) :
  forall s, String.prefix (a ++ b) s = true -> String.prefix a s = true.
Proof.
induction a as [|c a IH]; intros s H.
- now destruct s.
- destruct s as [|d s]; [exact H|].
  change (String.prefix (String c a ++ b) (String d s))
    with (if ascii_dec c d then String.prefix (a ++ b) s else false) in H.
  change (String.prefix (String c a) (String d s))
    with (if ascii_dec c d then String.prefix a s else false).
  destruct (ascii_dec c d); [now apply IH|exact H].
Qed.

Lemma startswith_windows_win (s : string) :
  Str.startswith s "windows" = true -> Str.startswith s "win" = true.
Proof. unfold Str.startswith. apply (prefix_app "win" "dows"). Qed.

Lemma startswith_linux_not_windows (s : string) :
  Str.startswith s "linux" = true -> Str.startswith s "windows" = false.
Proof.
unfold Str.startswith. intros H.
destruct s as [|a s]; [reflexivity|].
change (String.prefix "linux" (String a s))
  with (if ascii_dec "l" a then String.prefix "inux" s else false) in H.
change (String.prefix "windows" (String a s))
  with (if ascii_dec "w" a then String.prefix "indows" s else false).
destruct (ascii_dec "l" a) as [<-|_]; [|discriminate H].
destruct (ascii_dec "w" "l") as [C|_]; [discriminate C|reflexivity].
Qed.

(** X23.  The list of shared libraries: [nvToolsExt] is always in it;
    [accinj64] and [cuinj64] are in it when [sys.platform] starts with
    [linux], and [cuinj] when it starts with [windows], which is more
    than [getplatform] asks of a Windows platform; no name is listed
    twice. *)
Theorem CONFIG_cuda_libraries_by_platform :
  In "nvToolsExt" (CONFIG_cuda_libraries m) /\
  (In "accinj64" (CONFIG_cuda_libraries m) <->
   Str.startswith (sys_platform m) "linux" = true) /\
  (In "cuinj64" (CONFIG_cuda_libraries m) <->
   Str.startswith (sys_platform m) "linux" = true) /\
  (In "cuinj" (CONFIG_cuda_libraries m) <->
   Str.startswith (sys_platform m) "windows" = true) /\
  (In "cuinj" (CONFIG_cuda_libraries m) -> getplatform m = Ok "windows") /\
  NoDup (CONFIG_cuda_libraries m).
Proof.
unfold CONFIG_cuda_libraries, getplatform.
pose proof (@startswith_linux_not_windows (sys_platform m)) as Hlw.
pose proof (@startswith_windows_win (sys_platform m)) as Hww.
destruct (Str.startswith (sys_platform m) "linux") eqn:L;
  destruct (Str.startswith (sys_platform m) "windows") eqn:W;
  try (specialize (Hlw eq_refl); discriminate Hlw).
- split; [cbn; tauto|].
  split; [split; [reflexivity|intros _; cbn; tauto]|].
  split; [split; [reflexivity|intros _; cbn; tauto]|].
  split; [split; [cbn; intuition discriminate|discriminate]|].
  split; [cbn; intuition discriminate|].
  repeat constructor; cbn; intuition discriminate.
- rewrite (Hww eq_refl).
  split; [cbn; tauto|].
  split; [split; [cbn; intuition discriminate|discriminate]|].
  split; [split; [cbn; intuition discriminate|discriminate]|].
  split; [split; [reflexivity|intros _; cbn; tauto]|].
  split; [reflexivity|].
  repeat constructor; cbn; intuition discriminate.
- split; [cbn; tauto|].
  split; [split; [cbn; intuition discriminate|discriminate]|].
  split; [split; [cbn; intuition discriminate|discriminate]|].
  split; [split; [cbn; intuition discriminate|discriminate]|].
  split; [cbn; intuition discriminate|].
  repeat constructor; cbn; intuition discriminate.
Qed.

End ConfigTable.

Section ConfigTableExamples.
Import Examples.

(** On [win32] the list has no [cuinj]. *)
Lemma cuinj_not_on_win32 :
  getplatform windows_box = Ok "windows" /\
  ~ In "cuinj" (CONFIG_cuda_libraries windows_box).
Proof.
split; [reflexivity|]. intros H.
apply (proj1 (proj1 (proj2 (proj2 (proj2 (@CONFIG_cuda_libraries_by_platform windows_box)))))) in H.
discriminate H.
Defined.

End ConfigTableExamples.

(* ================================================================== *)
(** * Further facts: the edges of the staging *)

Module ContainsFacts.

Lemma prefix_app_r (n a b : string) :
  String.prefix n a = true -> String.prefix n (a ++ b) = true.
Proof.
revert a. induction n as [|c n IH]; intros a H.
- now destruct (a ++ b).
- destruct a as [|d a]; [discriminate H|].
  change (String.prefix (String c n) (String d a))
    with (if ascii_dec c d then String.prefix n a else false) in H.
  change (String.prefix (String c n) (String d a ++ b))
    with (if ascii_dec c d then String.prefix n (a ++ b) else false).
  destruct (ascii_dec c d); [now apply IH|exact H].
Qed.

(** A text found in the front part of a path is found in the path. *)
Lemma contains_app (n a b : string) :
  Str.contains n a = true -> Str.contains n (a ++ b) = true.
Proof.
induction a as [|c a IH]; intros H.
- cbn in H. rewrite orb_false_r in H.
  destruct n as [|d n]; [|cbn in H; discriminate H].
  cbn. now destruct b.
- cbn [Str.contains append] in *. apply orb_true_iff in H. apply orb_true_iff.
  destruct H as [H|H]; [left; now apply (prefix_app_r _ (String c a))|right; now apply IH].
Qed.

End ContainsFacts.

Section StagingEdges.
Import Examples.
Variable m : machine.

Lemma append_nil_r (s : string) : s ++ "" = s.
Proof. induction s as [|c s IH]; [reflexivity|]. cbn. now rewrite IH. Qed.

(** Every directory of a walk is spelled from the top of the walk. *)
Lemma walk_from_top (f : filesystem) :
  forall fuel top path dirs files,
    In (path, dirs, files) (Fs.walk_aux (os_flavour m) fuel f top) ->
    exists rest, path = top ++ rest.
Proof.
induction fuel as [|fuel IH]; intros top path dirs files H; [destruct H|].
rewrite FsFacts.walk_aux_S in H.
destruct (Fs.listdir (os_flavour m) f top) as [names|e] eqn:El; [|destruct H].
destruct H as [[= <- _ _]|H].
- exists "". now rewrite append_nil_r.
- apply in_flat_map in H. destruct H as (d & Hd & H).
  apply filter_In in Hd. destruct Hd as [Hd _].
  destruct (Fs.islink f (Path.join (os_flavour m) top d)); [destruct H|].
  apply IH in H. destruct H as (rest & ->).
  pose proof (FsFacts.listdir_plain _ _ _ _ El Hd) as Hp.
  apply PathFacts.plain_no_sep in Hp. apply PathFacts.no_sep_start in Hp.
  unfold Path.join. rewrite Hp.
  destruct (Str.is_empty top || Path.ends_with_sep (os_flavour m) top).
  + exists (d ++ rest). now rewrite PathFacts.append_assoc.
  + exists (String (Path.sep (os_flavour m)) d ++ rest).
    now rewrite PathFacts.append_assoc.
Qed.

(** X24.  The test of line 290 looks for [jre] and [GFExperience]
    anywhere in the path of a directory, the path of the unpacked tree
    included: when the tree is unpacked under a path that holds one of
    the two, the loop copies nothing. *)
Theorem flatten_skips_tree_under_jre :
  forall (extractdir store : string) (w : world),
    excluded extractdir = true ->
    flatten_order m (os_walk m (fs w) extractdir) = [] /\
    flatten m extractdir store w = (Ok tt, w).
Proof.
intros extractdir store w Hex.
assert (Hall : forall path dirs files,
           In (path, dirs, files) (os_walk m (fs w) extractdir) -> excluded path = true).
{ intros path dirs files H. unfold os_walk, Fs.walk in H.
  apply walk_from_top in H. destruct H as (rest & ->).
  unfold excluded in *. apply orb_true_iff in Hex. apply orb_true_iff.
  destruct Hex as [Hex|Hex]; [left|right]; now apply ContainsFacts.contains_app. }
assert (Hnil : flatten_order m (os_walk m (fs w) extractdir) = []).
{ unfold flatten_order. induction (os_walk m (fs w) extractdir) as [|[[p d] fl] tree IH];
    [reflexivity|].
  cbn [flat_map]. rewrite (Hall p d fl) by now left. cbn [app].
  apply IH. intros path dirs files Hin. apply (Hall path dirs files). now right. }
split; [exact Hnil|]. rewrite flatten_eq, Hnil. reflexivity.
Qed.

(** X25.  When the loop over the NvToolsExt tree ends without error,
    the store holds a regular file under the name of every [.dll] file
    of every directory of that tree. *)
Theorem merge_collects_every_dll :
  forall (v store : string) (w w' : world),
    os_path_isdir m (fs w) store = true ->
    (forall p n, In (p, n) (merge_order m (os_walk m (fs w) v)) ->
                 free_or_file (fs w) (os_path_join m store n)) ->
    merge_nvtoolsext m (Some v) store w = (Ok tt, w') ->
    forall path dirs files n,
      In (path, dirs, files) (os_walk m (fs w) v) ->
      In n (fnmatch_filter m files "*.dll") ->
      os_path_isfile m (fs w') (os_path_join m store n) = true.
Proof.
intros v store w w' Hdir Hfree H path dirs files n Hw Hn.
rewrite merge_eq in H.
assert (Hin : In (path, n) (merge_order m (os_walk m (fs w) v))).
{ apply merge_order_In. now exists dirs, files. }
assert (Hplain : forall p n0,
           In (p, n0) (merge_order m (os_walk m (fs w) v)) ->
           Path.has_sep (os_flavour m) n0 = false).
{ intros p n0 Hp. apply merge_order_In in Hp.
  destruct Hp as (dirs0 & files0 & Hw0 & Hn0).
  unfold os_walk, Fs.walk in Hw0. eapply FsFacts.walk_files_plain; [exact Hw0|].
  now apply fnmatch_filter_In in Hn0. }
destruct (@fetch_all_present m store _ w w' Hdir Hplain Hfree H path n Hin) as (d & l & Hl).
exact (@isfile_lstat_file m _ _ _ _ Hl).
Qed.

End StagingEdges.

Section StagingEdgesExamples.
Import Examples.

(** A library of a tree unpacked under [tmpjre] is left where it is. *)
Lemma flatten_under_tmpjre :
  excluded "c:\tmpjre\x" = true /\
  os_walk windows_box (fs w_jre) "c:\tmpjre\x" = [("c:\tmpjre\x", [], ["foo.dll"])] /\
  flatten windows_box "c:\tmpjre\x" "c:\tmpjre\DLLs" w_jre = (Ok tt, w_jre).
Proof.
split; [reflexivity|]. split; [reflexivity|].
exact (proj2 (@flatten_skips_tree_under_jre windows_box "c:\tmpjre\x" "c:\tmpjre\DLLs"
                w_jre eq_refl)).
Defined.

(** The library of the NvToolsExt installation reaches the store. *)
Lemma merge_nvt_collects_dll :
  exists w',
    merge_nvtoolsext windows_box (Some "c:\nvt") "c:\t\DLLs" w_nvt = (Ok tt, w') /\
    os_path_isfile windows_box (fs w') "c:\t\DLLs\nvToolsExt64_1.dll" = true.
Proof.
destruct (merge_nvtoolsext windows_box (Some "c:\nvt") "c:\t\DLLs" w_nvt)
  as [[[]|e] w'] eqn:E; [|vm_compute in E; discriminate E].
exists w'. split; [reflexivity|].
refine (@merge_collects_every_dll windows_box "c:\nvt" "c:\t\DLLs" w_nvt w'
          eq_refl _ E "c:\nvt" []
          ["nvToolsExt64_1.dll"; "foo.dll"; "readme.txt"] "nvToolsExt64_1.dll" _ _).
- intros p n Hin. vm_compute in Hin.
  destruct Hin as [[= <- <-]|[[= <- <-]|[]]];
    [left; reflexivity|right; exists [x01], false; reflexivity].
- vm_compute. tauto.
- vm_compute. tauto.
Defined.

End StagingEdgesExamples.
